(** * Split-test aggregation and reconciliation

    A shallow embedding of [api/app_analytics/split_testing/tasks.py]:
    the recurring fan-out [_update_split_tests], the per-feature work item
    [update_features_split_tests] and the per-environment pipeline
    [_save_environment_split_test], over an explicit database state.

    Querysets are lists of rows in primary-key order, Python dicts are
    association lists in insertion order, exceptions are the [Err] side
    of a small error monad. *)

From Stdlib Require Import ZArith List String Ascii Bool Lia.
Import ListNotations.
Open Scope Z_scope.

(** ** Exceptions and the error monad *)

(** [HelperError] stands for whatever [gather_split_test_metrics] may
    raise. *)
Inductive exn : Type :=
| AssertionError
| DoesNotExist
| MultipleObjectsReturned
| KeyError
| HelperError.

Inductive result (A : Type) : Type :=
| Ok (a : A)
| Err (e : exn).

Arguments Ok {A} a.
Arguments Err {A} e.

Definition bind {A B : Type} (m : result A) (k : A -> result B) : result B :=
  match m with
  | Ok a => k a
  | Err e => Err e
  end.

Notation "x <- m ;; k" := (bind m (fun x => k))
  (at level 61, m at next level, right associativity).
Notation "' pat <- m ;; k" := (bind m (fun x => match x with pat => k end))
  (at level 61, pat pattern, m at next level, right associativity).

Definition assert (b : bool) : result unit :=
  if b then Ok tt else Err AssertionError.

(** ** Rows of the collaborating models

    Only the columns that [tasks.py] reads are kept. *)

Inductive FeatureType : Type := STANDARD | MULTIVARIATE.

Definition FeatureType_eqb (a b : FeatureType) : bool :=
  match a, b with
  | STANDARD, STANDARD => true
  | MULTIVARIATE, MULTIVARIATE => true
  | _, _ => false
  end.

Record Settings : Type := {
  USE_POSTGRES_FOR_ANALYTICS : bool
}.

Record Feature : Type := {
  feature_id : Z;
  feature_name : string;
  feature_type : FeatureType
}.

Record Environment : Type := {
  env_id : Z;
  use_identity_composite_key_for_hashing : bool
}.

Record FeatureState : Type := {
  fs_id : Z;
  fs_feature_id : Z;
  fs_environment_id : Z
}.

Record MultivariateFeatureOption : Type := {
  mvo_id : Z;
  mvo_feature_id : Z
}.

Record Identity : Type := {
  identity_id : Z;
  identifier : string;
  identity_environment_id : Z
}.

Record FeatureEvaluationRaw : Type := {
  fer_feature_name : string;
  fer_environment_id : Z;
  fer_identity_identifier : option string
}.

Record ConversionEvent : Type := {
  ce_environment_id : Z;
  ce_identity_id : Z
}.

(** What [get_multivariate_feature_state_value] hands back: the feature
    state's own value (the control group) or one of the weighted options. *)
Inductive Mvfo : Type :=
| FeatureStateValue
| MultivariateOption (id : Z).

(** ** Count dictionaries

    [evaluation_counts] and [conversion_counts] are keyed by the option id,
    with [None] for the control group.  Insertion order is kept because
    [dict.items()] drives the order in which new rows are created. *)

Definition arm : Type := option Z.

Definition arm_eqb (a b : arm) : bool :=
  match a, b with
  | None, None => true
  | Some x, Some y => x =? y
  | _, _ => false
  end.

Definition dict : Type := list (arm * Z).

Fixpoint dict_get (k : arm) (d : dict) : option Z :=
  match d with
  | [] => None
  | (k', v) :: d' => if arm_eqb k k' then Some v else dict_get k d'
  end.

(** [d[k] = v]: overwrite in place, or append a new key at the end. *)
Fixpoint dict_set (k : arm) (v : Z) (d : dict) : dict :=
  match d with
  | [] => [(k, v)]
  | (k', v') :: d' =>
      if arm_eqb k k' then (k, v) :: d' else (k', v') :: dict_set k v d'
  end.

(** [d[k]] as an expression: [KeyError] on a missing key. *)
Definition dict_getitem (k : arm) (d : dict) : result Z :=
  match dict_get k d with
  | Some v => Ok v
  | None => Err KeyError
  end.

(** [d[k] += 1]. *)
Definition dict_incr (k : arm) (d : dict) : result dict :=
  v <- dict_getitem k d ;;
  Ok (dict_set k (v + 1) d).

Definition dict_keys (d : dict) : list arm := map fst d.

Definition dict_sum (d : dict) : Z :=
  fold_right (fun kv acc => snd kv + acc) 0 d.

(** ** Queryset helpers *)

(** [Model.objects.get(...)]. *)
Definition objects_get {A : Type} (p : A -> bool) (table : list A) : result A :=
  match filter p table with
  | [] => Err DoesNotExist
  | [x] => Ok x
  | _ :: _ :: _ => Err MultipleObjectsReturned
  end.

(** [queryset.first()].  A table is listed in the order an unordered
    queryset is read in, by primary key, so the first match is the head. *)
Definition first {A : Type} (qs : list A) : option A :=
  match qs with
  | [] => None
  | x :: _ => Some x
  end.

Definition pair_eqb (a b : Z * string) : bool :=
  (fst a =? fst b) && String.eqb (snd a) (snd b).

(** [queryset.distinct()] on a [values_list] of pairs.  The queryset has no
    [order_by], so the database is free in the order of the result; the
    order of first occurrence stands for it here, and the statements below
    are about membership, not about that order. *)
Fixpoint distinct (seen rows : list (Z * string)) : list (Z * string) :=
  match rows with
  | [] => []
  | r :: rest =>
      if existsb (pair_eqb r) seen then distinct seen rest
      else r :: distinct (r :: seen) rest
  end.

(** [defaultdict(list)] keyed by environment id. *)
Definition defaultdict : Type := list (Z * list string).

Fixpoint defaultdict_append (k : Z) (v : string) (d : defaultdict) : defaultdict :=
  match d with
  | [] => [(k, [v])]
  | (k', vs) :: d' =>
      if k =? k' then (k', vs ++ [v]) :: d'
      else (k', vs) :: defaultdict_append k v d'
  end.

(** ** Collaborators that live outside [tasks.py]

    The p-value type, the clock's time stamps, [Identity.get_hash_key],
    [FeatureState.get_multivariate_feature_state_value], the helper
    [gather_split_test_metrics] and the column default of
    [SplitTest.updated_at] are parameters of the development. *)

Class Collaborators : Type := {
  pvalue_t : Type;
  time_t : Type;
  get_hash_key : Identity -> bool -> string;
  get_multivariate_feature_state_value : FeatureState -> string -> Mvfo;
  gather_split_test_metrics : dict -> dict -> result pvalue_t;
  updated_at_default : (nat -> time_t) -> time_t
}.

Section SplitTesting.

Context {C : Collaborators}.

Record SplitTest : Type := {
  st_id : Z;
  st_feature_id : Z;
  st_environment_id : Z;
  multivariate_feature_option_id : arm;
  evaluation_count : Z;
  conversion_count : Z;
  pvalue : pvalue_t;
  updated_at : time_t
}.

Record Db : Type := {
  features : list Feature;
  environments : list Environment;
  feature_states : list FeatureState;
  multivariate_options : list MultivariateFeatureOption;
  identities : list Identity;
  feature_evaluations_raw : list FeatureEvaluationRaw;
  conversion_events : list ConversionEvent;
  split_tests : list SplitTest
}.

Definition with_split_tests (db : Db) (rows : list SplitTest) : Db :=
  {| features := features db;
     environments := environments db;
     feature_states := feature_states db;
     multivariate_options := multivariate_options db;
     identities := identities db;
     feature_evaluations_raw := feature_evaluations_raw db;
     conversion_events := conversion_events db;
     split_tests := rows |}.

(** *** The fan-out *)

(** [_update_split_tests]: the feature ids handed to
    [update_features_split_tests.delay]. *)
Definition _update_split_tests (settings : Settings) (db : Db) : result (list Z) :=
  _ <- assert (USE_POSTGRES_FOR_ANALYTICS settings) ;;
  Ok (map feature_id
          (filter (fun f => FeatureType_eqb (feature_type f) MULTIVARIATE)
                  (features db))).

(** *** Aggregation (lines 76-128) *)

(** [Identity.objects.filter(environment_id=..., identifier__in=...)]. *)
Definition evaluated_identities_qs (db : Db) (environment_id : Z)
    (evaluated_identity_identifiers : list string) : list Identity :=
  filter (fun i =>
            (identity_environment_id i =? environment_id)
            && existsb (String.eqb (identifier i)) evaluated_identity_identifiers)
         (identities db).

(** [feature.feature_states]. *)
Definition feature_states_of (db : Db) (feature : Feature) : list FeatureState :=
  filter (fun fs => fs_feature_id fs =? feature_id feature) (feature_states db).

(** [feature.multivariate_options.all()]. *)
Definition multivariate_options_of (db : Db) (feature : Feature)
    : list MultivariateFeatureOption :=
  filter (fun o => mvo_feature_id o =? feature_id feature) (multivariate_options db).

(** Lines 86-95: a zero entry per option, then one for the control group. *)
Definition init_counts (options : list MultivariateFeatureOption) : dict :=
  dict_set None 0
    (fold_left (fun d mv_option => dict_set (Some (mvo_id mv_option)) 0 d)
               options []).

(** Lines 100-105: the identities among the evaluated ones that have a
    conversion event in the environment, as a set of primary keys. *)
Definition conversion_identities (db : Db) (environment : Environment)
    (evaluated_identities : list Identity) : list Z :=
  map ce_identity_id
      (filter (fun ce =>
                 (ce_environment_id ce =? env_id environment)
                 && existsb (fun i => identity_id i =? ce_identity_id ce)
                            evaluated_identities)
              (conversion_events db)).

(** Lines 108-119: the key under which an identity is counted. *)
Definition arm_of (environment : Environment) (feature_state : FeatureState)
    (evaluated_identity : Identity) : arm :=
  let identity_hash_key :=
    get_hash_key evaluated_identity
                 (use_identity_composite_key_for_hashing environment) in
  match get_multivariate_feature_state_value feature_state identity_hash_key with
  | FeatureStateValue => None
  | MultivariateOption id => Some id
  end.

(** Lines 107-123. *)
Fixpoint aggregate_loop (environment : Environment) (feature_state : FeatureState)
    (converted : list Z) (evaluated_identities : list Identity)
    (evaluation_counts conversion_counts : dict) : result (dict * dict) :=
  match evaluated_identities with
  | [] => Ok (evaluation_counts, conversion_counts)
  | evaluated_identity :: rest =>
      let _id := arm_of environment feature_state evaluated_identity in
      evaluation_counts' <- dict_incr _id evaluation_counts ;;
      conversion_counts' <-
        (if existsb (Z.eqb (identity_id evaluated_identity)) converted
         then dict_incr _id conversion_counts
         else Ok conversion_counts) ;;
      aggregate_loop environment feature_state converted rest
                     evaluation_counts' conversion_counts'
  end.

(** Lines 76-123 together: the two count dictionaries of one environment. *)
Definition aggregate (db : Db) (feature : Feature) (environment_id : Z)
    (evaluated_identity_identifiers : list string) : result (dict * dict) :=
  environment <- objects_get (fun e => env_id e =? environment_id) (environments db) ;;
  let evaluated_identities :=
    evaluated_identities_qs db environment_id evaluated_identity_identifiers in
  feature_state <-
    objects_get (fun fs => fs_environment_id fs =? environment_id)
                (feature_states_of db feature) ;;
  let counts0 := init_counts (multivariate_options_of db feature) in
  let converted := conversion_identities db environment evaluated_identities in
  aggregate_loop environment feature_state converted evaluated_identities
                 counts0 counts0.

(** *** Reconciliation (lines 130-173) *)

(** [SplitTest.objects.filter(feature=feature, environment=environment)]. *)
Definition qs_existing_split_tests (db : Db) (feature : Feature)
    (environment : Environment) : list SplitTest :=
  filter (fun st =>
            (st_feature_id st =? feature_id feature)
            && (st_environment_id st =? env_id environment))
         (split_tests db).

(** Lines 140-147: the stored row of one arm, if any. *)
Definition existing_for (qs : list SplitTest) (mv_feature_option_id : arm)
    : option SplitTest :=
  match mv_feature_option_id with
  | None =>
      first (filter (fun st =>
                       match multivariate_feature_option_id st with
                       | None => true
                       | Some _ => false
                       end) qs)
  | Some id =>
      first (filter (fun st =>
                       match multivariate_feature_option_id st with
                       | Some id' => id' =? id
                       | None => false
                       end) qs)
  end.

(** Lines 150-153: the four assignments on a fetched row. *)
Definition set_results (st : SplitTest) (evaluation_count' conversion_count' : Z)
    (pvalue' : pvalue_t) (now : time_t) : SplitTest :=
  {| st_id := st_id st;
     st_feature_id := st_feature_id st;
     st_environment_id := st_environment_id st;
     multivariate_feature_option_id := multivariate_feature_option_id st;
     evaluation_count := evaluation_count';
     conversion_count := conversion_count';
     pvalue := pvalue';
     updated_at := now |}.

(** Lines 159-166: an unsaved instance.  It has no primary key yet; [st_id]
    is filled in by [bulk_create]. *)
Definition SplitTest_new (clock : nat -> time_t) (environment : Environment)
    (feature : Feature) (mv_feature_option_id : arm)
    (evaluation_count' conversion_count' : Z) (pvalue' : pvalue_t) : SplitTest :=
  {| st_id := 0;
     st_feature_id := feature_id feature;
     st_environment_id := env_id environment;
     multivariate_feature_option_id := mv_feature_option_id;
     evaluation_count := evaluation_count';
     conversion_count := conversion_count';
     pvalue := pvalue';
     updated_at := updated_at_default clock |}.

(** Lines 135-167.  [clock k] is what the [k]-th call of [timezone.now()]
    in this run returns; there is one call per row appended to
    [existing_split_tests]. *)
Fixpoint reconcile_loop (clock : nat -> time_t) (qs : list SplitTest)
    (feature : Feature) (environment : Environment)
    (conversion_counts : dict) (pvalue' : pvalue_t)
    (items : list (arm * Z))
    (new_split_tests existing_split_tests : list SplitTest)
    : result (list SplitTest * list SplitTest) :=
  match items with
  | [] => Ok (new_split_tests, existing_split_tests)
  | (mv_feature_option_id, evaluation_count') :: rest =>
      conversion_count' <- dict_getitem mv_feature_option_id conversion_counts ;;
      match existing_for qs mv_feature_option_id with
      | Some existing_split_test =>
          let now := clock (List.length existing_split_tests) in
          reconcile_loop clock qs feature environment conversion_counts pvalue' rest
            new_split_tests
            (existing_split_tests
               ++ [set_results existing_split_test evaluation_count'
                               conversion_count' pvalue' now])
      | None =>
          reconcile_loop clock qs feature environment conversion_counts pvalue' rest
            (new_split_tests
               ++ [SplitTest_new clock environment feature mv_feature_option_id
                                 evaluation_count' conversion_count' pvalue'])
            existing_split_tests
      end
  end.

(** [bulk_update(objs, [evaluation_count, conversion_count, pvalue,
    updated_at])]: every stored row whose primary key is the key of one of
    the objects takes the four listed columns from that object. *)
Definition bulk_update (objs table : list SplitTest) : list SplitTest :=
  map (fun row =>
         match find (fun o => st_id o =? st_id row) objs with
         | Some o =>
             set_results row (evaluation_count o) (conversion_count o)
                         (pvalue o) (updated_at o)
         | None => row
         end)
      table.

(** The id sequence of the table: one past the largest key in use. *)
Definition next_id (table : list SplitTest) : Z :=
  1 + fold_right (fun row acc => Z.max (st_id row) acc) 0 table.

Definition set_id (n : Z) (st : SplitTest) : SplitTest :=
  {| st_id := n;
     st_feature_id := st_feature_id st;
     st_environment_id := st_environment_id st;
     multivariate_feature_option_id := multivariate_feature_option_id st;
     evaluation_count := evaluation_count st;
     conversion_count := conversion_count st;
     pvalue := pvalue st;
     updated_at := updated_at st |}.

Fixpoint assign_ids (n : Z) (objs : list SplitTest) : list SplitTest :=
  match objs with
  | [] => []
  | o :: rest => set_id n o :: assign_ids (n + 1) rest
  end.

(** [bulk_create(objs)]: the objects are appended in order with fresh
    consecutive primary keys. *)
Definition bulk_create (objs table : list SplitTest) : list SplitTest :=
  table ++ assign_ids (next_id table) objs.

(** *** The per-environment pipeline *)

Definition _save_environment_split_test (clock : nat -> time_t) (db : Db)
    (feature : Feature) (environment_id : Z)
    (evaluated_identity_identifiers : list string) : result Db :=
  environment <- objects_get (fun e => env_id e =? environment_id) (environments db) ;;
  let evaluated_identities :=
    evaluated_identities_qs db environment_id evaluated_identity_identifiers in
  feature_state <-
    objects_get (fun fs => fs_environment_id fs =? environment_id)
                (feature_states_of db feature) ;;
  let counts0 := init_counts (multivariate_options_of db feature) in
  let converted := conversion_identities db environment evaluated_identities in
  ' (evaluation_counts, conversion_counts) <-
    aggregate_loop environment feature_state converted evaluated_identities
                   counts0 counts0 ;;
  pvalue' <- gather_split_test_metrics evaluation_counts conversion_counts ;;
  let qs := qs_existing_split_tests db feature environment in
  ' (new_split_tests, existing_split_tests) <-
    reconcile_loop clock qs feature environment conversion_counts pvalue'
                   evaluation_counts [] [] ;;
  Ok (with_split_tests db
        (bulk_create new_split_tests
           (bulk_update existing_split_tests (split_tests db)))).

(** *** The per-feature work item *)

(** Lines 49-56: the distinct (environment, identifier) pairs of the raw
    log for the feature's name, restricted to the feature's environments
    and to records that carry an identifier. *)
Definition qs_values_list (db : Db) (feature : Feature) (environment_ids : list Z)
    : list (Z * string) :=
  distinct []
    (flat_map (fun r =>
                 match fer_identity_identifier r with
                 | Some identity_identifier =>
                     if String.eqb (fer_feature_name r) (feature_name feature)
                        && existsb (Z.eqb (fer_environment_id r)) environment_ids
                     then [(fer_environment_id r, identity_identifier)]
                     else []
                 | None => []
                 end)
              (feature_evaluations_raw db)).

(** Lines 58-60. *)
Definition group_by_environment (rows : list (Z * string)) : defaultdict :=
  fold_left (fun d row => defaultdict_append (fst row) (snd row) d) rows [].

(** Lines 62-70.  [clocks n] is the clock of the [n]-th environment. *)
Fixpoint save_loop (clocks : nat -> nat -> time_t) (feature : Feature)
    (items : defaultdict) (n : nat) (db : Db) : result Db :=
  match items with
  | [] => Ok db
  | (environment_id, evaluated_identity_identifiers) :: rest =>
      db' <- _save_environment_split_test (clocks n) db feature environment_id
                                          evaluated_identity_identifiers ;;
      save_loop clocks feature rest (S n) db'
  end.

Definition environment_identifiers (db : Db) (feature : Feature) : defaultdict :=
  let environment_ids := map fs_environment_id (feature_states_of db feature) in
  group_by_environment (qs_values_list db feature environment_ids).

Definition update_features_split_tests (settings : Settings)
    (clocks : nat -> nat -> time_t) (db : Db) (feature_id' : Z) : result Db :=
  _ <- assert (USE_POSTGRES_FOR_ANALYTICS settings) ;;
  feature <- objects_get (fun f => feature_id f =? feature_id') (features db) ;;
  save_loop clocks feature (environment_identifiers db feature) 0%nat db.

End SplitTesting.

(** ** Vocabulary of the statements *)

(** A dictionary that holds only zeros, as lines 86-95 build it. *)
Definition all_zero (d : dict) : Prop :=
  forall k v, dict_get k d = Some v -> v = 0.

(** The arms of a feature: the control group and one per configured option. *)
Definition configured_arm (options : list MultivariateFeatureOption) (k : arm) : Prop :=
  k = None \/ exists o, In o options /\ k = Some (mvo_id o).

Section Vocabulary.

Context {C : Collaborators}.

(** How many of the identities fall into arm [k] and satisfy [p]. *)
Definition tally (environment : Environment) (feature_state : FeatureState)
    (p : Identity -> bool) (k : arm) (ids : list Identity) : Z :=
  Z.of_nat (List.length
              (filter (fun i => arm_eqb (arm_of environment feature_state i) k && p i)
                      ids)).

(** The identity has at least one conversion event in the environment. *)
Definition has_conversion (db : Db) (environment_id : Z) (i : Identity) : bool :=
  existsb (fun ce =>
             (ce_environment_id ce =? environment_id)
             && (ce_identity_id ce =? identity_id i))
          (conversion_events db).

(** The database after one more conversion event has been recorded. *)
Definition record_conversion (db : Db) (ce : ConversionEvent) : Db :=
  {| features := features db;
     environments := environments db;
     feature_states := feature_states db;
     multivariate_options := multivariate_options db;
     identities := identities db;
     feature_evaluations_raw := feature_evaluations_raw db;
     conversion_events := conversion_events db ++ [ce];
     split_tests := split_tests db |}.

(** The raw log holds an evaluation of the feature in the environment that
    carries the identifier. *)
Definition logged (db : Db) (feature : Feature) (environment_id : Z)
    (identity_identifier : string) : bool :=
  existsb (fun r =>
             String.eqb (fer_feature_name r) (feature_name feature)
             && (fer_environment_id r =? environment_id)
             && match fer_identity_identifier r with
                | Some u => String.eqb u identity_identifier
                | None => false
                end)
          (feature_evaluations_raw db).

(** The stored identities of the environment whose identifier the raw log
    holds for the feature. *)
Definition exposed_identities (db : Db) (feature : Feature) (environment_id : Z)
    : list Identity :=
  filter (fun i =>
            (identity_environment_id i =? environment_id)
            && logged db feature environment_id (identifier i))
         (identities db).

(** [defaultdict] lookup: a missing key reads as the empty list. *)
Fixpoint defaultdict_get (k : Z) (d : defaultdict) : list string :=
  match d with
  | [] => []
  | (k', vs) :: d' => if k =? k' then vs else defaultdict_get k d'
  end.

(** What identifies a result row: feature, environment and arm. *)
Definition row_key (st : SplitTest) : Z * Z * arm :=
  (st_feature_id st, st_environment_id st, multivariate_feature_option_id st).

(** Primary key and key columns: what an update in place leaves alone. *)
Definition row_ident (st : SplitTest) : Z * (Z * Z * arm) :=
  (st_id st, row_key st).

(** The three result columns. *)
Definition row_results (st : SplitTest) : Z * Z * pvalue_t :=
  (evaluation_count st, conversion_count st, pvalue st).

(** Every column but the time stamp. *)
Definition row_values (st : SplitTest) : Z * (Z * Z * arm) * (Z * Z * pvalue_t) :=
  (row_ident st, row_results st).

(** The row belongs to the given feature, environment and arm. *)
Definition row_matches (feature : Feature) (environment : Environment) (k : arm)
    (st : SplitTest) : bool :=
  (st_feature_id st =? feature_id feature)
  && (st_environment_id st =? env_id environment)
  && arm_eqb (multivariate_feature_option_id st) k.

(** Primary keys are unique in the result table. *)
Definition pk_unique (db : Db) : Prop := NoDup (map st_id (split_tests db)).

(** At most one result row per (feature, environment, arm). *)
Definition one_row_per_arm (db : Db) : Prop := NoDup (map row_key (split_tests db)).

(** The states the database goes through: runs of the per-environment
    pipeline, for any feature, environment and identifiers, interleaved
    with arbitrary changes to the other tables. *)
Inductive reachable (db0 : Db) : Db -> Prop :=
| reach_start : reachable db0 db0
| reach_run (db db' : Db) (clock : nat -> time_t) (feature : Feature)
    (environment_id : Z) (ids : list string) :
    reachable db0 db ->
    _save_environment_split_test clock db feature environment_id ids = Ok db' ->
    reachable db0 db'
| reach_data (db db' : Db) :
    reachable db0 db ->
    split_tests db' = split_tests db ->
    reachable db0 db'.

(** The resolver only ever names options configured for the feature. *)
Definition resolver_in_options (db : Db) (feature : Feature) : Prop :=
  forall environment feature_state i,
    configured_arm (multivariate_options_of db feature)
                   (arm_of environment feature_state i).

End Vocabulary.

(** ** A small deployment used to exercise the definitions

    One multivariate feature [checkout] with a single option (id 10) and one
    standard feature [banner]; two environments, of which only the first has
    evaluations.  Identifiers starting with [v] are bucketed into the option,
    everything else falls back to the control group. *)

Module Sample.

Local Open Scope string_scope.

Definition starts_with_v (s : string) : bool :=
  match s with
  | String c _ => Ascii.eqb c "v"%char
  | EmptyString => false
  end.

#[export] Instance collaborators : Collaborators := {|
  pvalue_t := Z;
  time_t := nat;
  get_hash_key := fun i _ => identifier i;
  get_multivariate_feature_state_value := fun _ key =>
    if starts_with_v key then MultivariateOption 10 else FeatureStateValue;
  gather_split_test_metrics := fun ec cc => Ok (dict_sum ec - dict_sum cc);
  updated_at_default := fun clock => clock 0%nat
|}.

Definition settings : Settings := {| USE_POSTGRES_FOR_ANALYTICS := true |}.

Definition checkout : Feature :=
  {| feature_id := 1; feature_name := "checkout"; feature_type := MULTIVARIATE |}.

Definition banner : Feature :=
  {| feature_id := 2; feature_name := "banner"; feature_type := STANDARD |}.

Definition raw (name : string) (e : Z) (u : option string) : FeatureEvaluationRaw :=
  {| fer_feature_name := name; fer_environment_id := e;
     fer_identity_identifier := u |}.

Definition ident (pk : Z) (name : string) (e : Z) : Identity :=
  {| identity_id := pk; identifier := name; identity_environment_id := e |}.

Definition stored (pk f e : Z) (a : arm) (ec cc pv : Z) (t : nat)
    : @SplitTest collaborators :=
  {| st_id := pk; st_feature_id := f; st_environment_id := e;
     multivariate_feature_option_id := a;
     evaluation_count := ec; conversion_count := cc;
     pvalue := pv; updated_at := t |}.

Definition db0 : @Db collaborators :=
  {| features := [checkout; banner];
     environments :=
       [ {| env_id := 1; use_identity_composite_key_for_hashing := false |};
         {| env_id := 2; use_identity_composite_key_for_hashing := true |} ];
     feature_states :=
       [ {| fs_id := 1; fs_feature_id := 1; fs_environment_id := 1 |};
         {| fs_id := 2; fs_feature_id := 1; fs_environment_id := 2 |};
         {| fs_id := 3; fs_feature_id := 2; fs_environment_id := 1 |} ];
     multivariate_options := [ {| mvo_id := 10; mvo_feature_id := 1 |} ];
     identities :=
       [ ident 101 "u1" 1; ident 102 "u2" 1; ident 103 "v3" 1;
         ident 104 "u4" 1; ident 201 "u1" 2 ];
     feature_evaluations_raw :=
       [ raw "checkout" 1 (Some "u1"); raw "checkout" 1 (Some "u1");
         raw "checkout" 1 None; raw "checkout" 1 (Some "u2");
         raw "checkout" 1 (Some "v3"); raw "checkout" 1 (Some "ghost");
         raw "banner" 1 (Some "u4"); raw "checkout" 2 None ];
     conversion_events :=
       [ {| ce_environment_id := 1; ce_identity_id := 101 |};
         {| ce_environment_id := 1; ce_identity_id := 101 |};
         {| ce_environment_id := 1; ce_identity_id := 103 |};
         {| ce_environment_id := 1; ce_identity_id := 104 |};
         {| ce_environment_id := 2; ce_identity_id := 201 |} ];
     split_tests :=
       [ stored 3 1 2 None 5 1 0 7%nat; stored 7 1 1 None 9 9 9 8%nat ] |}.

Definition clock (k : nat) : @time_t collaborators := (100 + k)%nat.
Definition clock' (k : nat) : @time_t collaborators := (500 + k)%nat.
Definition clocks (n k : nat) : @time_t collaborators := (100 * S n + k)%nat.

(** The identifiers the raw log holds for [checkout] in environment 1;
    [ghost] has no stored identity. *)
Definition exposed : list string := ["u1"; "u2"; "v3"; "ghost"].

(** The same without [ghost]. *)
Definition resolved : list string := ["u1"; "u2"; "v3"].

(** Identity 104 ([u4]) converted without having seen [checkout]. *)
Definition unexposed_conversion : ConversionEvent :=
  {| ce_environment_id := 1; ce_identity_id := 104 |}.

(** Identity 101 ([u1]) converts once more. *)
Definition repeated_conversion : ConversionEvent :=
  {| ce_environment_id := 1; ce_identity_id := 101 |}.

(** The database after one run of the pipeline for [checkout] in
    environment 1. *)
Definition db1 : @Db collaborators :=
  Eval vm_compute in
    match _save_environment_split_test clock db0 checkout 1 exposed with
    | Ok db => db
    | Err _ => db0
    end.

(** Ten identities in environment 3 that all saw [checkout]: six fall into
    the control group, four into the option; [u1], [u2] and [v9] converted. *)
Definition scenario_users : list string :=
  ["u1"; "u2"; "u3"; "u4"; "u5"; "u6"; "v7"; "v8"; "v9"; "v10"].

Definition scenario : @Db collaborators :=
  {| features := [checkout];
     environments :=
       [ {| env_id := 3; use_identity_composite_key_for_hashing := false |} ];
     feature_states :=
       [ {| fs_id := 1; fs_feature_id := 1; fs_environment_id := 3 |} ];
     multivariate_options := [ {| mvo_id := 10; mvo_feature_id := 1 |} ];
     identities :=
       [ ident 1 "u1" 3; ident 2 "u2" 3; ident 3 "u3" 3; ident 4 "u4" 3;
         ident 5 "u5" 3; ident 6 "u6" 3; ident 7 "v7" 3; ident 8 "v8" 3;
         ident 9 "v9" 3; ident 10 "v10" 3 ];
     feature_evaluations_raw :=
       map (fun u => raw "checkout" 3 (Some u)) (scenario_users ++ scenario_users);
     conversion_events :=
       [ {| ce_environment_id := 3; ce_identity_id := 1 |};
         {| ce_environment_id := 3; ce_identity_id := 2 |};
         {| ce_environment_id := 3; ce_identity_id := 9 |} ];
     split_tests := [] |}.

(** The database after the work item of [checkout]. *)
Definition db_checkout : @Db collaborators :=
  Eval vm_compute in
    match update_features_split_tests settings clocks db0 1 with
    | Ok db => db
    | Err _ => db0
    end.

End Sample.

(** ** Further vocabulary: frames, scopes and settled tables *)

Section Frames.

Context {C : Collaborators}.

(** The two databases differ at most in the result table. *)
Definition same_data (db db' : Db) : Prop :=
  features db' = features db
  /\ environments db' = environments db
  /\ feature_states db' = feature_states db
  /\ multivariate_options db' = multivariate_options db
  /\ identities db' = identities db
  /\ feature_evaluations_raw db' = feature_evaluations_raw db
  /\ conversion_events db' = conversion_events db.

(** The database after one more identity has been stored. *)
Definition record_identity (db : Db) (i : Identity) : Db :=
  {| features := features db;
     environments := environments db;
     feature_states := feature_states db;
     multivariate_options := multivariate_options db;
     identities := identities db ++ [i];
     feature_evaluations_raw := feature_evaluations_raw db;
     conversion_events := conversion_events db;
     split_tests := split_tests db |}.

(** The database with another raw evaluation log. *)
Definition with_raw_log (db : Db) (log : list FeatureEvaluationRaw) : Db :=
  {| features := features db;
     environments := environments db;
     feature_states := feature_states db;
     multivariate_options := multivariate_options db;
     identities := identities db;
     feature_evaluations_raw := log;
     conversion_events := conversion_events db;
     split_tests := split_tests db |}.

(** The row is not a result of the given feature in the given environment. *)
Definition out_of_scope (feature : Feature) (environment_id : Z) (st : SplitTest)
    : bool :=
  negb ((st_feature_id st =? feature_id feature)
        && (st_environment_id st =? environment_id)).

(** The table already shows, in the first row found for each arm, the
    counts and the p-value of the given aggregation. *)
Definition settled (table : list SplitTest) (feature : Feature)
    (environment : Environment) (ec cc : dict) (pv : pvalue_t) : Prop :=
  forall k ev, In (k, ev) ec ->
    exists r cv,
      dict_get k cc = Some cv
      /\ find (row_matches feature environment k) table = Some r
      /\ row_results r = (ev, cv, pv).

(** The same raw evaluation is already in the log. *)
Definition already_logged (db : Db) (r : FeatureEvaluationRaw) : Prop :=
  exists r0, In r0 (feature_evaluations_raw db)
             /\ fer_feature_name r0 = fer_feature_name r
             /\ fer_environment_id r0 = fer_environment_id r
             /\ fer_identity_identifier r0 = fer_identity_identifier r.

End Frames.

(** ** Further cases of the sample deployment *)

Module Cases.

(** [checkout] gets a second feature state in environment 1, as an override
    would add one. *)
Definition db_override : @Db Sample.collaborators :=
  {| features := features Sample.db0;
     environments := environments Sample.db0;
     feature_states :=
       feature_states Sample.db0
       ++ [ {| fs_id := 4; fs_feature_id := 1; fs_environment_id := 1 |} ];
     multivariate_options := multivariate_options Sample.db0;
     identities := identities Sample.db0;
     feature_evaluations_raw := feature_evaluations_raw Sample.db0;
     conversion_events := conversion_events Sample.db0;
     split_tests := split_tests Sample.db0 |}.

(** The same deployment with an empty result table. *)
Definition db_fresh : @Db Sample.collaborators :=
  with_split_tests Sample.db0 [].

(** [u1] of environment 2, an identity of another environment. *)
Definition foreign_identity : Identity := Sample.ident 301 "u2" 2.

(** A conversion of identity 102 recorded in environment 2. *)
Definition foreign_conversion : ConversionEvent :=
  {| ce_environment_id := 2; ce_identity_id := 102 |}.

(** [u1] evaluates [checkout] in environment 1 once more. *)
Definition relogged : FeatureEvaluationRaw :=
  Sample.raw "checkout" 1 (Some "u1"%string).

(** The database after one run of the pipeline for [banner] in
    environment 1, where the table has no row of [banner] yet. *)
Definition db_banner : @Db Sample.collaborators :=
  Eval vm_compute in
    match _save_environment_split_test Sample.clock Sample.db0 Sample.banner 1
                                       ["u4"%string] with
    | Ok db => db
    | Err _ => Sample.db0
    end.

(** A feature that was never evaluated, added to the deployment. *)
Definition quiet : Feature :=
  {| feature_id := 3; feature_name := "quiet"; feature_type := MULTIVARIATE |}.

Definition db_quiet : @Db Sample.collaborators :=
  {| features := features Sample.db0 ++ [quiet];
     environments := environments Sample.db0;
     feature_states :=
       feature_states Sample.db0
       ++ [ {| fs_id := 5; fs_feature_id := 3; fs_environment_id := 1 |} ];
     multivariate_options := multivariate_options Sample.db0;
     identities := identities Sample.db0;
     feature_evaluations_raw :=
       feature_evaluations_raw Sample.db0 ++ [ Sample.raw "quiet" 1 None ];
     conversion_events := conversion_events Sample.db0;
     split_tests := split_tests Sample.db0 |}.

(** A result row of [checkout] in environment 1 for option 99, which is
    not configured any more, and the database after a run. *)
Definition stale_row : @SplitTest Sample.collaborators :=
  Sample.stored 9 1 1 (Some 99) 4 4 4 1%nat.

Definition db_stale : @Db Sample.collaborators :=
  with_split_tests Sample.db0 (split_tests Sample.db0 ++ [stale_row]).

Definition db_stale_after : @Db Sample.collaborators :=
  Eval vm_compute in
    match _save_environment_split_test Sample.clock db_stale Sample.checkout 1
                                       Sample.exposed with
    | Ok db => db
    | Err _ => Sample.db0
    end.

(** Only [v3] saw [checkout] in environment 1: nobody falls into the
    control group, whose stored row shows 9 evaluations and 9 conversions.
    The database after that run. *)
Definition variant_only : list string := ["v3"%string].

Definition db_zero : @Db Sample.collaborators :=
  Eval vm_compute in
    match _save_environment_split_test Sample.clock Sample.db0 Sample.checkout 1
                                       variant_only with
    | Ok db => db
    | Err _ => Sample.db0
    end.

(** The database after the work item of [checkout] has run twice. *)
Definition db_checkout_twice : @Db Sample.collaborators :=
  Eval vm_compute in
    match update_features_split_tests Sample.settings Sample.clocks
                                      Sample.db_checkout 1 with
    | Ok db => db
    | Err _ => Sample.db0
    end.

End Cases.

(** ** The edge-migration endpoint of [projects/views.py]

    [ProjectViewSet.migrate_to_edge] (lines 161-177).  The framework's
    [get_object], which looks the project up and checks the caller's
    permission, and the [IdentityMigrator] of [environments.dynamodb] are
    outside the file: the first is given by its outcome, the second by its
    [can_migrate] answer, and [trigger_migration] is recorded in the list of
    projects for which a migration was triggered. *)

Module ProjectViews.

Inductive api_exn : Type :=
| DynamoNotEnabledError
| TooManyIdentitiesError
| ProjectMigrationError
| Http404
| PermissionDenied.

Record ApiSettings : Type := {
  PROJECT_METADATA_TABLE_NAME_DYNAMO : option string;
  MAX_SELF_MIGRATABLE_IDENTITIES : Z
}.

Record Project : Type := {
  project_id : Z
}.

(** The project column of an environment row. *)
Record EnvironmentProject : Type := {
  ep_environment_id : Z;
  ep_project_id : Z
}.

Record World : Type := {
  w_environments : list EnvironmentProject;
  w_identities : list Identity;
  triggered_migrations : list Z
}.

(** Python truth of the setting: unset and the empty string are false. *)
Definition truthy (s : option string) : bool :=
  match s with
  | Some (String _ _) => true
  | Some EmptyString => false
  | None => false
  end.

(** [Identity.objects.filter(environment__project=project).count()]: the
    rows of the join of identities with their environment. *)
Definition identity_count (w : World) (project : Project) : Z :=
  Z.of_nat
    (List.length
       (flat_map (fun i =>
                    filter (fun e =>
                              (ep_environment_id e =? identity_environment_id i)
                              && (ep_project_id e =? project_id project))
                           (w_environments w))
                 (w_identities w))).

Definition trigger_migration (w : World) (project_id' : Z) : World :=
  {| w_environments := w_environments w;
     w_identities := w_identities w;
     triggered_migrations := triggered_migrations w ++ [project_id'] |}.

Definition HTTP_202_ACCEPTED : Z := 202.

Definition migrate_to_edge (settings : ApiSettings)
    (get_object : api_exn + Project) (can_migrate : Z -> bool) (w : World)
    : World * (api_exn + Z) :=
  if negb (truthy (PROJECT_METADATA_TABLE_NAME_DYNAMO settings))
  then (w, inl DynamoNotEnabledError)
  else
    match get_object with
    | inl e => (w, inl e)
    | inr project =>
        if identity_count w project >? MAX_SELF_MIGRATABLE_IDENTITIES settings
        then (w, inl TooManyIdentitiesError)
        else if negb (can_migrate (project_id project))
        then (w, inl ProjectMigrationError)
        else (trigger_migration w (project_id project), inr HTTP_202_ACCEPTED)
    end.

(** A project with three identities in two environments, and a limit of
    three. *)
Definition sample_settings : ApiSettings :=
  {| PROJECT_METADATA_TABLE_NAME_DYNAMO := Some "projects"%string;
     MAX_SELF_MIGRATABLE_IDENTITIES := 3 |}.

Definition sample_world : World :=
  {| w_environments :=
       [ {| ep_environment_id := 1; ep_project_id := 7 |};
         {| ep_environment_id := 2; ep_project_id := 7 |};
         {| ep_environment_id := 3; ep_project_id := 8 |} ];
     w_identities :=
       [ Sample.ident 101 "u1" 1; Sample.ident 102 "u2" 1;
         Sample.ident 201 "u1" 2; Sample.ident 301 "u9" 3 ];
     triggered_migrations := [] |}.

Definition sample_project : Project := {| project_id := 7 |}.

End ProjectViews.

(** ** Properties *)

(** *** The error monad *)

Lemma bind_Ok {A B : Type} (m : result A) (k : A -> result B) (b : B) :
  bind m k = Ok b -> exists a, m = Ok a /\ k a = Ok b.
Proof.
  destruct m as [a | e]; simpl; intros H.
  - exists a. split; [reflexivity | exact H].
  - discriminate H.
Qed.

Ltac inv_bind H :=
  let a := fresh "a" in
  let Ha := fresh "Ha" in
  apply bind_Ok in H; destruct H as [a [Ha H]].

(** *** Count dictionaries *)

Lemma arm_eqb_eq (a b : arm) : arm_eqb a b = true <-> a = b.
Proof.
  destruct a as [x |], b as [y |]; simpl; split; intros H;
    try discriminate; try reflexivity.
  - apply Z.eqb_eq in H. now subst.
  - injection H as ->. apply Z.eqb_refl.
Qed.

Lemma arm_eqb_refl (a : arm) : arm_eqb a a = true.
Proof. now apply arm_eqb_eq. Qed.

Lemma arm_eqb_neq (a b : arm) : arm_eqb a b = false <-> a <> b.
Proof.
  split; intros H.
  - intros E. apply arm_eqb_eq in E. congruence.
  - destruct (arm_eqb a b) eqn:E; [| reflexivity].
    apply arm_eqb_eq in E. contradiction.
Qed.

Lemma dict_get_set_same (k : arm) (v : Z) (d : dict) :
  dict_get k (dict_set k v d) = Some v.
Proof.
  induction d as [| [k' v'] d IH]; simpl.
  - now rewrite arm_eqb_refl.
  - destruct (arm_eqb k k') eqn:E; simpl.
    + now rewrite arm_eqb_refl.
    + now rewrite E.
Qed.

Lemma dict_get_set_other (k k' : arm) (v : Z) (d : dict) :
  k <> k' -> dict_get k' (dict_set k v d) = dict_get k' d.
Proof.
  intros Hne. induction d as [| [k0 v0] d IH]; simpl.
  - assert (arm_eqb k' k = false) as -> by (apply arm_eqb_neq; congruence).
    reflexivity.
  - destruct (arm_eqb k k0) eqn:E; simpl.
    + apply arm_eqb_eq in E. subst k0.
      assert (arm_eqb k' k = false) as -> by (apply arm_eqb_neq; congruence).
      reflexivity.
    + destruct (arm_eqb k' k0); [reflexivity | exact IH].
Qed.

Lemma dict_get_In_keys (k : arm) (d : dict) :
  In k (dict_keys d) <-> exists v, dict_get k d = Some v.
Proof.
  induction d as [| [k' v'] d IH]; simpl.
  - split; [intros [] | intros [v H]; discriminate].
  - destruct (arm_eqb k k') eqn:E.
    + apply arm_eqb_eq in E. subst. split; eauto.
    + apply arm_eqb_neq in E. rewrite <- IH. split.
      * intros [H | H]; [congruence | exact H].
      * intros H. now right.
Qed.

Lemma dict_keys_set_present (k : arm) (v v0 : Z) (d : dict) :
  dict_get k d = Some v0 -> dict_keys (dict_set k v d) = dict_keys d.
Proof.
  induction d as [| [k' v'] d IH]; simpl; [discriminate |].
  destruct (arm_eqb k k') eqn:E; simpl; intros H.
  - apply arm_eqb_eq in E. now subst.
  - f_equal. now apply IH.
Qed.

Lemma dict_keys_set_absent (k : arm) (v : Z) (d : dict) :
  dict_get k d = None -> dict_keys (dict_set k v d) = dict_keys d ++ [k].
Proof.
  induction d as [| [k' v'] d IH]; simpl; [reflexivity |].
  destruct (arm_eqb k k') eqn:E; simpl; intros H; [discriminate |].
  f_equal. now apply IH.
Qed.

Lemma dict_sum_set (k : arm) (v v0 : Z) (d : dict) :
  dict_get k d = Some v0 -> dict_sum (dict_set k v d) = dict_sum d - v0 + v.
Proof.
  induction d as [| [k' v'] d IH]; simpl; [discriminate |].
  destruct (arm_eqb k k') eqn:E; simpl; intros H.
  - injection H as ->. lia.
  - rewrite (IH H). lia.
Qed.

Lemma dict_keys_NoDup_set (k : arm) (v : Z) (d : dict) :
  NoDup (dict_keys d) -> NoDup (dict_keys (dict_set k v d)).
Proof.
  intros Hnd. destruct (dict_get k d) as [v0 |] eqn:G.
  - now rewrite (dict_keys_set_present k v v0 d G).
  - rewrite (dict_keys_set_absent k v d G).
    apply NoDup_app; [exact Hnd | constructor; [intros [] | constructor] |].
    intros a Ha [<- | []].
    apply dict_get_In_keys in Ha. destruct Ha as [x Hx]. congruence.
Qed.

Lemma dict_incr_Ok (k : arm) (d d' : dict) :
  dict_incr k d = Ok d' ->
  exists v, dict_get k d = Some v /\ d' = dict_set k (v + 1) d.
Proof.
  unfold dict_incr, dict_getitem. destruct (dict_get k d) as [v |]; simpl.
  - intros H. injection H as <-. eauto.
  - discriminate.
Qed.

Lemma dict_incr_keys (k : arm) (d d' : dict) :
  dict_incr k d = Ok d' -> dict_keys d' = dict_keys d.
Proof.
  intros H. apply dict_incr_Ok in H. destruct H as [v [G ->]].
  now apply dict_keys_set_present with (v0 := v).
Qed.

Lemma dict_incr_sum (k : arm) (d d' : dict) :
  dict_incr k d = Ok d' -> dict_sum d' = dict_sum d + 1.
Proof.
  intros H. apply dict_incr_Ok in H. destruct H as [v [G ->]].
  rewrite (dict_sum_set k (v + 1) v d G). lia.
Qed.

Lemma dict_incr_defined (k : arm) (d : dict) :
  In k (dict_keys d) -> exists d', dict_incr k d = Ok d'.
Proof.
  intros H. apply dict_get_In_keys in H. destruct H as [v G].
  unfold dict_incr, dict_getitem. rewrite G. simpl. eauto.
Qed.

Lemma all_zero_set (k : arm) (d : dict) :
  all_zero d -> all_zero (dict_set k 0 d).
Proof.
  intros Hz k' v. destruct (arm_eqb k k') eqn:E.
  - apply arm_eqb_eq in E. subst k'. rewrite dict_get_set_same. congruence.
  - apply arm_eqb_neq in E. rewrite (dict_get_set_other k k' 0 d E). apply Hz.
Qed.

Lemma init_fold_spec (options : list MultivariateFeatureOption) (d : dict) :
  let d' := fold_left (fun d mv_option => dict_set (Some (mvo_id mv_option)) 0 d)
                      options d in
  (all_zero d -> all_zero d')
  /\ (NoDup (dict_keys d) -> NoDup (dict_keys d'))
  /\ (forall k, In k (dict_keys d') <->
                In k (dict_keys d) \/ In k (map (fun o => Some (mvo_id o)) options)).
Proof.
  revert d. induction options as [| o options IH]; intros d; simpl.
  - repeat split; auto. intros [H | []]. exact H.
  - specialize (IH (dict_set (Some (mvo_id o)) 0 d)). simpl in IH.
    destruct IH as [IHz [IHn IHk]]. repeat split.
    + intros Hz. apply IHz. now apply all_zero_set.
    + intros Hn. apply IHn. now apply dict_keys_NoDup_set.
    + intros H. apply IHk in H. destruct H as [H | H]; [| tauto].
      apply dict_get_In_keys in H. destruct H as [v H].
      destruct (arm_eqb (Some (mvo_id o)) k) eqn:E.
      * apply arm_eqb_eq in E. tauto.
      * apply arm_eqb_neq in E. rewrite dict_get_set_other in H by exact E.
        left. apply dict_get_In_keys. eauto.
    + intros H. apply IHk. destruct H as [H | [H | H]]; [| | tauto].
      * left. apply dict_get_In_keys in H. destruct H as [v H].
        apply dict_get_In_keys.
        destruct (arm_eqb (Some (mvo_id o)) k) eqn:E.
        -- apply arm_eqb_eq in E. subst k. rewrite dict_get_set_same. eauto.
        -- apply arm_eqb_neq in E. rewrite dict_get_set_other by exact E. eauto.
      * left. subst k. apply dict_get_In_keys. rewrite dict_get_set_same. eauto.
Qed.

Lemma init_counts_keys (options : list MultivariateFeatureOption) (k : arm) :
  In k (dict_keys (init_counts options)) <-> configured_arm options k.
Proof.
  unfold init_counts, configured_arm.
  pose proof (init_fold_spec options []) as [_ [_ Hk]]. simpl in Hk.
  remember (fold_left (fun d mv_option => dict_set (Some (mvo_id mv_option)) 0 d)
                      options []) as d eqn:Hd.
  clear Hd.
  split.
  - intros H. apply dict_get_In_keys in H. destruct H as [v H].
    destruct k as [id |]; [| now left]. right.
    rewrite dict_get_set_other in H by discriminate.
    assert (In (Some id) (dict_keys d)) as Hin by (apply dict_get_In_keys; eauto).
    apply Hk in Hin. destruct Hin as [[] | Hin].
    apply in_map_iff in Hin. destruct Hin as [o [Ho Hin]]. exists o. split; congruence.
  - intros [-> | [o [Ho ->]]]; apply dict_get_In_keys.
    + rewrite dict_get_set_same. eauto.
    + rewrite dict_get_set_other by discriminate.
      apply dict_get_In_keys. apply Hk. right.
      apply in_map_iff. exists o. split; [reflexivity | exact Ho].
Qed.

Lemma init_counts_zero (options : list MultivariateFeatureOption) :
  all_zero (init_counts options).
Proof.
  unfold init_counts. apply all_zero_set.
  pose proof (init_fold_spec options []) as [Hz _]. apply Hz.
  intros k v H. discriminate H.
Qed.

Lemma init_counts_NoDup (options : list MultivariateFeatureOption) :
  NoDup (dict_keys (init_counts options)).
Proof.
  unfold init_counts. apply dict_keys_NoDup_set.
  pose proof (init_fold_spec options []) as [_ [Hn _]]. apply Hn. constructor.
Qed.

Lemma all_zero_sum (d : dict) : NoDup (dict_keys d) -> all_zero d -> dict_sum d = 0.
Proof.
  induction d as [| [k v] d IH]; simpl; intros Hn Hz; [reflexivity |].
  inversion Hn as [| ? ? Hk Hn']; subst.
  assert (v = 0) as -> by (apply (Hz k); simpl; now rewrite arm_eqb_refl).
  rewrite IH; [reflexivity | exact Hn' |].
  intros k' v' G. apply (Hz k'). simpl.
  destruct (arm_eqb k' k) eqn:E; [| exact G].
  apply arm_eqb_eq in E. subst k'. exfalso. apply Hk.
  apply dict_get_In_keys. eauto.
Qed.

(** *** The aggregation loop *)

Section Aggregation.

Context {C : Collaborators}.

Variables (environment : Environment) (feature_state : FeatureState).
Variable converted : list Z.

Lemma tally_cons_hit (p : Identity -> bool) (k : arm) (i : Identity)
    (ids : list Identity) :
  arm_of environment feature_state i = k -> p i = true ->
  tally environment feature_state p k (i :: ids)
  = 1 + tally environment feature_state p k ids.
Proof.
  intros Ha Hp. unfold tally. cbn [filter].
  rewrite Ha, arm_eqb_refl, Hp. cbn [andb List.length].
  rewrite Nat2Z.inj_succ. lia.
Qed.

Lemma tally_cons_miss (p : Identity -> bool) (k : arm) (i : Identity)
    (ids : list Identity) :
  arm_of environment feature_state i <> k \/ p i = false ->
  tally environment feature_state p k (i :: ids)
  = tally environment feature_state p k ids.
Proof.
  intros H. unfold tally. cbn [filter].
  destruct H as [H | H].
  - apply arm_eqb_neq in H. now rewrite H.
  - rewrite H. now rewrite andb_false_r.
Qed.

Lemma tally_le (p : Identity -> bool) (k : arm) (ids : list Identity) :
  0 <= tally environment feature_state p k ids
       <= tally environment feature_state (fun _ => true) k ids.
Proof.
  unfold tally. split; [lia |].
  apply inj_le. induction ids as [| i ids IH]; simpl; [lia |].
  destruct (arm_eqb (arm_of environment feature_state i) k); simpl; [| exact IH].
  destruct (p i); simpl; lia.
Qed.

Lemma aggregate_loop_keys (ids : list Identity) :
  forall ec cc ec' cc',
    aggregate_loop environment feature_state converted ids ec cc = Ok (ec', cc') ->
    dict_keys ec' = dict_keys ec /\ dict_keys cc' = dict_keys cc.
Proof.
  induction ids as [| i ids IH]; simpl; intros ec cc ec' cc' H.
  - injection H as <- <-. split; reflexivity.
  - inv_bind H. rename a into ec1. inv_bind H. rename a into cc1.
    apply IH in H. destruct H as [-> ->].
    split; [now apply dict_incr_keys in Ha |].
    destruct (existsb _ converted).
    + now apply dict_incr_keys in Ha0.
    + now injection Ha0 as <-.
Qed.

Lemma aggregate_loop_sum (ids : list Identity) :
  forall ec cc ec' cc',
    aggregate_loop environment feature_state converted ids ec cc = Ok (ec', cc') ->
    dict_sum ec' = dict_sum ec + Z.of_nat (List.length ids).
Proof.
  induction ids as [| i ids IH]; intros ec cc ec' cc' H.
  - simpl in H. injection H as <- <-. simpl. lia.
  - cbn [aggregate_loop] in H.
    inv_bind H. rename a into ec1. inv_bind H. rename a into cc1.
    apply IH in H. apply dict_incr_sum in Ha.
    cbn [List.length]. lia.
Qed.

Lemma dict_incr_get (a k : arm) (d d' : dict) (v : Z) :
  dict_incr a d = Ok d' -> dict_get k d = Some v ->
  dict_get k d' = Some (if arm_eqb a k then v + 1 else v).
Proof.
  intros H G. apply dict_incr_Ok in H. destruct H as [v0 [G0 ->]].
  destruct (arm_eqb a k) eqn:E.
  - apply arm_eqb_eq in E. subst k. rewrite dict_get_set_same. congruence.
  - apply arm_eqb_neq in E. now rewrite dict_get_set_other.
Qed.

(** What the loop leaves in each entry: the evaluated identities of the arm,
    and those of them found in [conversion_identities]. *)
Lemma aggregate_loop_counts (ids : list Identity) :
  forall ec cc ec' cc',
    aggregate_loop environment feature_state converted ids ec cc = Ok (ec', cc') ->
    (forall k v, dict_get k ec = Some v ->
       dict_get k ec'
       = Some (v + tally environment feature_state (fun _ => true) k ids))
    /\ (forall k v, dict_get k cc = Some v ->
          dict_get k cc'
          = Some (v + tally environment feature_state
                            (fun i => existsb (Z.eqb (identity_id i)) converted)
                            k ids)).
Proof.
  induction ids as [| i ids IH]; intros ec cc ec' cc' H.
  - simpl in H. injection H as <- <-.
    unfold tally. simpl. split; intros k v G; rewrite G; f_equal; lia.
  - cbn [aggregate_loop] in H.
    inv_bind H. rename a into ec1. inv_bind H. rename a into cc1.
    apply IH in H. destruct H as [He Hc]. split; intros k v G.
    + rewrite (He k _ (dict_incr_get _ k _ _ v Ha G)). f_equal.
      destruct (arm_eqb (arm_of environment feature_state i) k) eqn:E.
      * apply arm_eqb_eq in E.
        rewrite (tally_cons_hit (fun _ => true) k i ids E eq_refl). lia.
      * apply arm_eqb_neq in E.
        rewrite (tally_cons_miss (fun _ => true) k i ids (or_introl E)). lia.
    + destruct (existsb (Z.eqb (identity_id i)) converted) eqn:Hin.
      * rewrite (Hc k _ (dict_incr_get _ k _ _ v Ha0 G)). f_equal.
        destruct (arm_eqb (arm_of environment feature_state i) k) eqn:E.
        -- apply arm_eqb_eq in E. rewrite tally_cons_hit by assumption. lia.
        -- apply arm_eqb_neq in E. rewrite tally_cons_miss by (now left). lia.
      * injection Ha0 as <-. rewrite (Hc k v G). f_equal.
        rewrite tally_cons_miss by (now right). reflexivity.
Qed.

(** The loop raises no [KeyError] when every resolved arm has an entry. *)
Lemma aggregate_loop_defined (ids : list Identity) :
  forall ec cc,
    dict_keys cc = dict_keys ec ->
    (forall i, In i ids -> In (arm_of environment feature_state i) (dict_keys ec)) ->
    exists r, aggregate_loop environment feature_state converted ids ec cc = Ok r.
Proof.
  induction ids as [| i ids IH]; intros ec cc Hk Hin.
  - simpl. eauto.
  - cbn [aggregate_loop].
    destruct (dict_incr_defined (arm_of environment feature_state i) ec)
      as [ec1 He]; [apply Hin; now left |].
    rewrite He. cbn [bind].
    assert (exists cc1,
               (if existsb (Z.eqb (identity_id i)) converted
                then dict_incr (arm_of environment feature_state i) cc
                else Ok cc) = Ok cc1 /\ dict_keys cc1 = dict_keys cc)
      as [cc1 [Hc Hk1]].
    { destruct (existsb _ converted).
      - destruct (dict_incr_defined (arm_of environment feature_state i) cc)
          as [cc1 Hc]; [rewrite Hk; apply Hin; now left |].
        exists cc1. split; [exact Hc | now apply dict_incr_keys in Hc].
      - eauto. }
    rewrite Hc. cbn [bind]. apply IH.
    + apply dict_incr_keys in He. congruence.
    + intros j Hj. apply dict_incr_keys in He. rewrite He. apply Hin. now right.
Qed.

(** The loop looks at [conversion_identities] through membership only. *)
Lemma aggregate_loop_ext (converted' : list Z) (ids : list Identity) :
  (forall i, In i ids ->
     existsb (Z.eqb (identity_id i)) converted
     = existsb (Z.eqb (identity_id i)) converted') ->
  forall ec cc,
    aggregate_loop environment feature_state converted ids ec cc
    = aggregate_loop environment feature_state converted' ids ec cc.
Proof.
  induction ids as [| i ids IH]; intros Hm ec cc; [reflexivity |].
  cbn [aggregate_loop]. rewrite <- (Hm i) by now left.
  destruct (dict_incr _ ec) as [ec1 |]; cbn [bind]; [| reflexivity].
  destruct (if existsb _ converted then _ else _) as [cc1 |]; cbn [bind];
    [| reflexivity].
  apply IH. intros j Hj. apply Hm. now right.
Qed.

End Aggregation.

(** *** Querysets *)

Lemma objects_get_Ok {A : Type} (p : A -> bool) (table : list A) (x : A) :
  objects_get p table = Ok x -> filter p table = [x] /\ In x table /\ p x = true.
Proof.
  unfold objects_get. destruct (filter p table) as [| y [| z l]] eqn:F;
    try discriminate.
  intros H. injection H as <-.
  assert (In y (filter p table)) as Hin by (rewrite F; now left).
  apply filter_In in Hin. tauto.
Qed.


(** *** The count dictionaries of one environment *)

Section Counts.

Context {C : Collaborators}.

Variables (db : Db) (feature : Feature) (environment_id : Z).

Lemma aggregate_Ok (ids : list string) (ec cc : dict) :
  aggregate db feature environment_id ids = Ok (ec, cc) ->
  exists environment feature_state,
    objects_get (fun e => env_id e =? environment_id) (environments db)
    = Ok environment
    /\ objects_get (fun fs => fs_environment_id fs =? environment_id)
                   (feature_states_of db feature) = Ok feature_state
    /\ aggregate_loop environment feature_state
         (conversion_identities db environment
            (evaluated_identities_qs db environment_id ids))
         (evaluated_identities_qs db environment_id ids)
         (init_counts (multivariate_options_of db feature))
         (init_counts (multivariate_options_of db feature)) = Ok (ec, cc).
Proof.
  unfold aggregate. intros H.
  inv_bind H. rename a into environment. inv_bind H. rename a into feature_state.
  exists environment, feature_state. auto.
Qed.

(** Being in [conversion_identities] is having a conversion event in the
    environment, for an evaluated identity. *)
Lemma conversion_identities_mem (environment : Environment)
    (evaluated : list Identity) (i : Identity) :
  env_id environment = environment_id -> In i evaluated ->
  existsb (Z.eqb (identity_id i)) (conversion_identities db environment evaluated)
  = has_conversion db environment_id i.
Proof.
  intros He Hi. unfold conversion_identities, has_conversion.
  apply eq_true_iff_eq. rewrite !existsb_exists. split.
  - intros [z [Hz Heq]]. apply in_map_iff in Hz. destruct Hz as [ce [<- Hce]].
    apply filter_In in Hce. destruct Hce as [Hce Hc].
    apply andb_true_iff in Hc. destruct Hc as [Hc _].
    exists ce. split; [exact Hce |].
    apply Z.eqb_eq in Heq. rewrite <- He, Hc, Heq. simpl. apply Z.eqb_refl.
  - intros [ce [Hce Hc]]. apply andb_true_iff in Hc. destruct Hc as [Hc1 Hc2].
    exists (ce_identity_id ce). split.
    + apply in_map. apply filter_In. split; [exact Hce |].
      rewrite He, Hc1. simpl. apply existsb_exists. exists i.
      split; [exact Hi |]. now rewrite Z.eqb_sym.
    + now rewrite Z.eqb_sym.
Qed.

Lemma tally_ext (environment : Environment) (feature_state : FeatureState)
    (p q : Identity -> bool) (k : arm) (ids : list Identity) :
  (forall i, In i ids -> p i = q i) ->
  tally environment feature_state p k ids = tally environment feature_state q k ids.
Proof.
  intros H. unfold tally. do 2 f_equal. apply filter_ext_in.
  intros i Hi. now rewrite (H i Hi).
Qed.

(** The pipeline raises nothing before [gather_split_test_metrics] when the
    environment and the feature state are found and the resolver stays
    within the configured options. *)
Lemma aggregate_defined (ids : list string) (environment : Environment)
    (feature_state : FeatureState) :
  objects_get (fun e => env_id e =? environment_id) (environments db)
  = Ok environment ->
  objects_get (fun fs => fs_environment_id fs =? environment_id)
              (feature_states_of db feature) = Ok feature_state ->
  resolver_in_options db feature ->
  exists ec cc, aggregate db feature environment_id ids = Ok (ec, cc).
Proof.
  intros He Hf Hr. unfold aggregate. rewrite He, Hf. cbn [bind].
  destruct (aggregate_loop_defined environment feature_state
              (conversion_identities db environment
                 (evaluated_identities_qs db environment_id ids))
              (evaluated_identities_qs db environment_id ids)
              (init_counts (multivariate_options_of db feature))
              (init_counts (multivariate_options_of db feature)))
    as [[ec cc] H]; [reflexivity | | eauto].
  intros i _. apply init_counts_keys. apply Hr.
Qed.

End Counts.

(** *** Lists *)

Lemma first_filter_find {A : Type} (p : A -> bool) (l : list A) :
  first (filter p l) = find p l.
Proof.
  induction l as [| x l IH]; simpl; [reflexivity |].
  destruct (p x); simpl; [reflexivity | exact IH].
Qed.

Lemma find_filter {A : Type} (p q : A -> bool) (l : list A) :
  find p (filter q l) = find (fun x => q x && p x) l.
Proof.
  induction l as [| x l IH]; simpl; [reflexivity |].
  destruct (q x); simpl; [| exact IH].
  destruct (p x); [reflexivity | exact IH].
Qed.

Lemma find_ext_all {A : Type} (p q : A -> bool) (l : list A) :
  (forall x, p x = q x) -> find p l = find q l.
Proof.
  intros H. induction l as [| x l IH]; simpl; [reflexivity |].
  rewrite (H x). now rewrite IH.
Qed.

Lemma find_map_stable {A : Type} (p : A -> bool) (g : A -> A) (l : list A) :
  (forall x, p (g x) = p x) -> find p (map g l) = option_map g (find p l).
Proof.
  intros H. induction l as [| x l IH]; simpl; [reflexivity |].
  rewrite (H x). destruct (p x); [reflexivity | exact IH].
Qed.

Lemma find_app {A : Type} (p : A -> bool) (l1 l2 : list A) :
  find p (l1 ++ l2)
  = match find p l1 with Some x => Some x | None => find p l2 end.
Proof.
  induction l1 as [| x l1 IH]; simpl; [reflexivity |].
  destruct (p x); [reflexivity | exact IH].
Qed.

Lemma find_defined {A : Type} (p : A -> bool) (l : list A) (x : A) :
  In x l -> p x = true -> exists y, find p l = Some y.
Proof.
  induction l as [| z l IH]; simpl; [intros [] |].
  intros [-> | Hin] Hp.
  - rewrite Hp. eauto.
  - destruct (p z); eauto.
Qed.

Lemma NoDup_map_eq {A B : Type} (f : A -> B) (l : list A) (a b : A) :
  NoDup (map f l) -> In a l -> In b l -> f a = f b -> a = b.
Proof.
  induction l as [| x l IH]; simpl; [intros _ [] |].
  intros Hn Ha Hb E. inversion Hn as [| ? ? Hx Hn']; subst.
  destruct Ha as [-> | Ha], Hb as [-> | Hb].
  - reflexivity.
  - exfalso. apply Hx. rewrite E. now apply in_map.
  - exfalso. apply Hx. rewrite <- E. now apply in_map.
  - now apply IH.
Qed.

Lemma NoDup_map_injective {A B : Type} (f : A -> B) (l : list A) :
  (forall x y, f x = f y -> x = y) -> NoDup l -> NoDup (map f l).
Proof.
  intros Hinj Hn. induction Hn as [| x l Hx Hn IH]; simpl; constructor.
  - intros Hin. apply in_map_iff in Hin. destruct Hin as [y [E Hy]].
    apply Hinj in E. now subst.
  - exact IH.
Qed.

Lemma filter_none {A : Type} (p : A -> bool) (l : list A) :
  (forall x, In x l -> p x = false) -> filter p l = [].
Proof.
  induction l as [| x l IH]; intros H; [reflexivity |].
  cbn [filter]. rewrite (H x (or_introl eq_refl)).
  apply IH. intros y Hy. apply H. now right.
Qed.

Lemma filter_map_fixed {A : Type} (p : A -> bool) (g : A -> A) (l : list A) :
  (forall x, In x l -> p (g x) = p x /\ (p x = true -> g x = x)) ->
  filter p (map g l) = filter p l.
Proof.
  induction l as [| x l IH]; intros H; [reflexivity |].
  cbn [map filter]. destruct (H x (or_introl eq_refl)) as [Hp Hfix].
  rewrite Hp. rewrite IH by (intros y Hy; apply H; now right).
  destruct (p x); [| reflexivity]. now rewrite Hfix.
Qed.


(** *** The reconciliation loop *)

Section Reconciliation.

Context {C : Collaborators}.

Lemma dict_getitem_Ok (k : arm) (d : dict) (v : Z) :
  dict_getitem k d = Ok v <-> dict_get k d = Some v.
Proof.
  unfold dict_getitem. destruct (dict_get k d); split; intros H;
    try discriminate; congruence.
Qed.

Lemma existing_for_find (db : Db) (feature : Feature) (environment : Environment)
    (k : arm) :
  existing_for (qs_existing_split_tests db feature environment) k
  = find (row_matches feature environment k) (split_tests db).
Proof.
  unfold existing_for, qs_existing_split_tests.
  destruct k as [id |]; rewrite first_filter_find, find_filter;
    apply find_ext_all; intros st; unfold row_matches;
    destruct (multivariate_feature_option_id st); reflexivity.
Qed.

Lemma row_matches_true (feature : Feature) (environment : Environment) (k : arm)
    (st : SplitTest) :
  row_matches feature environment k st = true
  <-> row_key st = (feature_id feature, env_id environment, k).
Proof.
  unfold row_matches, row_key. rewrite !andb_true_iff, !Z.eqb_eq, arm_eqb_eq.
  split.
  - intros [[-> ->] ->]. reflexivity.
  - intros H. injection H as -> -> ->. auto.
Qed.

Variables (clock : nat -> time_t) (qs : list SplitTest).
Variables (feature : Feature) (environment : Environment).
Variables (conversion_counts : dict) (pvalue' : pvalue_t).

(** What one pass over [evaluation_counts.items()] appends to the two lists:
    an unsaved row per arm without a stored row, an updated copy of the
    stored row per arm that has one. *)
Lemma reconcile_loop_spec (items : list (arm * Z)) :
  forall new ex new' ex',
    reconcile_loop clock qs feature environment conversion_counts pvalue'
                   items new ex = Ok (new', ex') ->
    exists new1 ex1,
      new' = new ++ new1 /\ ex' = ex ++ ex1
      /\ map multivariate_feature_option_id new1
         = filter (fun k => match existing_for qs k with
                            | None => true
                            | Some _ => false
                            end) (map fst items)
      /\ Forall (fun o => exists kv cv,
                    In kv items /\ dict_get (fst kv) conversion_counts = Some cv
                    /\ existing_for qs (fst kv) = None
                    /\ o = SplitTest_new clock environment feature (fst kv)
                                         (snd kv) cv pvalue') new1
      /\ Forall (fun o => exists kv cv st t,
                    In kv items /\ dict_get (fst kv) conversion_counts = Some cv
                    /\ existing_for qs (fst kv) = Some st
                    /\ o = set_results st (snd kv) cv pvalue' t) ex1
      /\ (forall kv st, In kv items -> existing_for qs (fst kv) = Some st ->
            exists cv t, dict_get (fst kv) conversion_counts = Some cv
                         /\ In (set_results st (snd kv) cv pvalue' t) ex1)
      /\ (forall kv, In kv items -> existing_for qs (fst kv) = None ->
            exists cv, dict_get (fst kv) conversion_counts = Some cv
                       /\ In (SplitTest_new clock environment feature (fst kv)
                                            (snd kv) cv pvalue') new1).
Proof.
  induction items as [| [k ev] rest IH]; intros new ex new' ex' H.
  - simpl in H. injection H as <- <-. exists [], [].
    rewrite !app_nil_r. repeat split; auto.
    + intros kv st [].
    + intros kv [].
  - cbn [reconcile_loop] in H. inv_bind H. rename a into cv.
    apply dict_getitem_Ok in Ha.
    destruct (existing_for qs k) as [st |] eqn:E.
    + apply IH in H. destruct H as [new1 [ex1 [-> [-> [Hm [Hn [Hx [Hex Hnew]]]]]]]].
      exists new1, (set_results st ev cv pvalue' (clock (List.length ex)) :: ex1).
      split; [reflexivity |]. split; [now rewrite <- app_assoc |].
      split; [cbn [map filter fst]; now rewrite E |].
      split; [| split; [| split]].
      * eapply Forall_impl; [| exact Hn]. cbv beta.
        intros o [kv [cv' [Hin Ho]]]. exists kv, cv'. split; [now right | exact Ho].
      * constructor.
        -- exists (k, ev), cv, st, (clock (List.length ex)).
           split; [now left |]. auto.
        -- eapply Forall_impl; [| exact Hx]. cbv beta.
           intros o [kv [cv' [st' [t [Hin Ho]]]]]. exists kv, cv', st', t.
           split; [now right | exact Ho].
      * intros kv st' [<- | Hin] Est.
        -- cbn [fst snd] in *. rewrite E in Est. injection Est as <-.
           exists cv, (clock (List.length ex)). split; [exact Ha | now left].
        -- destruct (Hex kv st' Hin Est) as [cv' [t [Hc Ho]]].
           exists cv', t. split; [exact Hc | now right].
      * intros kv [<- | Hin] Est.
        -- cbn [fst] in Est. congruence.
        -- exact (Hnew kv Hin Est).
    + apply IH in H. destruct H as [new1 [ex1 [-> [-> [Hm [Hn [Hx [Hex Hnew]]]]]]]].
      exists (SplitTest_new clock environment feature k ev cv pvalue' :: new1), ex1.
      split; [now rewrite <- app_assoc |]. split; [reflexivity |].
      split; [cbn [map filter fst]; rewrite E; cbn [map]; now rewrite Hm |].
      split; [| split; [| split]].
      * constructor.
        -- exists (k, ev), cv. split; [now left |]. auto.
        -- eapply Forall_impl; [| exact Hn]. cbv beta.
           intros o [kv [cv' [Hin Ho]]]. exists kv, cv'. split; [now right | exact Ho].
      * eapply Forall_impl; [| exact Hx]. cbv beta.
        intros o [kv [cv' [st' [t [Hin Ho]]]]]. exists kv, cv', st', t.
        split; [now right | exact Ho].
      * intros kv st' [<- | Hin] Est.
        -- cbn [fst] in Est. congruence.
        -- exact (Hex kv st' Hin Est).
      * intros kv [<- | Hin] Est.
        -- exists cv. split; [exact Ha | now left].
        -- destruct (Hnew kv Hin Est) as [cv' [Hc Ho]].
           exists cv'. split; [exact Hc | now right].
Qed.

(** The loop raises no [KeyError] when both dictionaries have the same keys. *)
Lemma reconcile_loop_defined (items : list (arm * Z)) :
  (forall kv, In kv items -> In (fst kv) (dict_keys conversion_counts)) ->
  forall new ex,
    exists r, reconcile_loop clock qs feature environment conversion_counts
                             pvalue' items new ex = Ok r.
Proof.
  induction items as [| [k ev] rest IH]; intros Hk new ex.
  - simpl. eauto.
  - cbn [reconcile_loop].
    destruct (proj1 (dict_get_In_keys k conversion_counts) (Hk (k, ev) (or_introl eq_refl)))
      as [cv Hcv].
    apply dict_getitem_Ok in Hcv. rewrite Hcv. cbn [bind].
    destruct (existing_for qs k); apply IH; intros kv Hin; apply Hk; now right.
Qed.

End Reconciliation.

(** *** Claims about the aggregated counts *)

Section AggregationClaims.

Context {C : Collaborators}.

Variables (db : Db) (feature : Feature) (environment_id : Z).

(** The evaluation counts of all arms add up to the number of identities
    the queryset of lines 79-82 yields. *)
Lemma aggregate_sum (ids : list string) (ec cc : dict) :
  aggregate db feature environment_id ids = Ok (ec, cc) ->
  dict_sum ec
  = Z.of_nat (List.length (evaluated_identities_qs db environment_id ids)).
Proof.
  intros H. apply aggregate_Ok in H.
  destruct H as [environment [feature_state [_ [_ H]]]].
  apply aggregate_loop_sum in H. rewrite H.
  rewrite all_zero_sum; [reflexivity | apply init_counts_NoDup | apply init_counts_zero].
Qed.

(** C3: after the aggregation loop every arm, the control group and each
    configured option, has a conversion count that is at most its evaluation
    count (and not negative). *)
Theorem conversion_count_le_evaluation_count (ids : list string) (ec cc : dict) :
  aggregate db feature environment_id ids = Ok (ec, cc) ->
  forall k, configured_arm (multivariate_options_of db feature) k ->
    exists e c, dict_get k ec = Some e /\ dict_get k cc = Some c /\ 0 <= c <= e.
Proof.
  intros H k Hk. apply aggregate_Ok in H.
  destruct H as [environment [feature_state [_ [_ H]]]].
  apply aggregate_loop_counts in H. destruct H as [He Hc].
  apply init_counts_keys, dict_get_In_keys in Hk. destruct Hk as [v Hv].
  assert (v = 0) as -> by (eapply init_counts_zero; eassumption).
  eexists. eexists. split; [apply (He k 0 Hv) |]. split; [apply (Hc k 0 Hv) |].
  match goal with
  | |- 0 <= 0 + tally ?e ?f ?p k ?l <= _ => pose proof (tally_le e f p k l)
  end.
  lia.
Qed.

(** C5: recording a conversion event of an identity that is not among the
    evaluated identities of the environment changes no count. *)
Theorem unexposed_conversion_not_counted (ids : list string) (ce : ConversionEvent) :
  (forall i, In i (evaluated_identities_qs db environment_id ids) ->
             identity_id i <> ce_identity_id ce) ->
  aggregate (record_conversion db ce) feature environment_id ids
  = aggregate db feature environment_id ids.
Proof.
  intros Hout. unfold aggregate. cbn [record_conversion environments].
  destruct (objects_get _ (environments db)) as [environment |]; [| reflexivity].
  cbn [bind].
  change (feature_states_of (record_conversion db ce) feature)
    with (feature_states_of db feature).
  destruct (objects_get _ (feature_states_of db feature)) as [feature_state |];
    [| reflexivity].
  cbn [bind].
  change (evaluated_identities_qs (record_conversion db ce) environment_id ids)
    with (evaluated_identities_qs db environment_id ids).
  change (multivariate_options_of (record_conversion db ce) feature)
    with (multivariate_options_of db feature).
  f_equal. unfold conversion_identities. cbn [record_conversion conversion_events].
  rewrite filter_app. cbn [filter].
  assert (existsb (fun i => identity_id i =? ce_identity_id ce)
                  (evaluated_identities_qs db environment_id ids) = false) as ->.
  { destruct (existsb _ _) eqn:E; [| reflexivity].
    apply existsb_exists in E. destruct E as [i [Hi E]].
    apply Z.eqb_eq in E. exfalso. exact (Hout i Hi E). }
  rewrite andb_false_r. now rewrite app_nil_r.
Qed.

(** C6: an arm's conversion count is the number of its evaluated identities
    that have at least one conversion event in the environment, and recording
    a further event for an identity that already has one changes no count. *)
Theorem conversion_presence_counted_once (ids : list string) (ec cc : dict) :
  aggregate db feature environment_id ids = Ok (ec, cc) ->
  (exists environment feature_state,
      objects_get (fun e => env_id e =? environment_id) (environments db)
      = Ok environment
      /\ objects_get (fun fs => fs_environment_id fs =? environment_id)
                     (feature_states_of db feature) = Ok feature_state
      /\ forall k c, dict_get k cc = Some c ->
           c = tally environment feature_state (has_conversion db environment_id)
                     k (evaluated_identities_qs db environment_id ids))
  /\ (forall ce, In ce (conversion_events db) ->
        aggregate (record_conversion db ce) feature environment_id ids
        = Ok (ec, cc)).
Proof.
  intros H. split.
  - apply aggregate_Ok in H.
    destruct H as [environment [feature_state [He [Hf H]]]].
    exists environment, feature_state. split; [exact He |]. split; [exact Hf |].
    intros k c Hc.
    pose proof (aggregate_loop_keys _ _ _ _ _ _ _ _ H) as [_ Hkeys].
    apply aggregate_loop_counts in H. destruct H as [_ Hcc].
    assert (exists v, dict_get k (init_counts (multivariate_options_of db feature))
                      = Some v) as [v Hv].
    { apply dict_get_In_keys. rewrite <- Hkeys. apply dict_get_In_keys. eauto. }
    assert (v = 0) as -> by (eapply init_counts_zero; eassumption).
    rewrite (Hcc k 0 Hv) in Hc. injection Hc as <-.
    rewrite ?Z.add_0_l. apply tally_ext. intros i Hi.
    apply conversion_identities_mem; [| exact Hi].
    apply objects_get_Ok in He. destruct He as [_ [_ He]]. now apply Z.eqb_eq in He.
  - intros ce Hce. rewrite <- H. unfold aggregate.
    cbn [record_conversion environments].
    destruct (objects_get _ (environments db)) as [environment |] eqn:He;
      [| reflexivity].
    cbn [bind].
    change (feature_states_of (record_conversion db ce) feature)
      with (feature_states_of db feature).
    destruct (objects_get _ (feature_states_of db feature)) as [feature_state |];
      [| reflexivity].
    cbn [bind].
    change (evaluated_identities_qs (record_conversion db ce) environment_id ids)
      with (evaluated_identities_qs db environment_id ids).
    change (multivariate_options_of (record_conversion db ce) feature)
      with (multivariate_options_of db feature).
    apply aggregate_loop_ext. intros i Hi.
    apply objects_get_Ok in He. destruct He as [_ [_ He]]. apply Z.eqb_eq in He.
    rewrite !(conversion_identities_mem _ _ environment _ i He Hi).
    unfold has_conversion. cbn [record_conversion conversion_events].
    rewrite existsb_app. cbn [existsb]. rewrite orb_false_r.
    destruct (existsb _ (conversion_events db)) eqn:E; [reflexivity |].
    cbn [orb].
    destruct ((ce_environment_id ce =? environment_id)
              && (ce_identity_id ce =? identity_id i)) eqn:E1; [| reflexivity].
    rewrite <- E. symmetry. apply existsb_exists. exists ce. auto.
Qed.

End AggregationClaims.

(** *** The result table *)

Section Tables.

Context {C : Collaborators}.

Lemma bulk_update_ident (objs table : list SplitTest) :
  map row_ident (bulk_update objs table) = map row_ident table.
Proof.
  unfold bulk_update. rewrite map_map. apply map_ext. intros row.
  destruct (find _ objs); reflexivity.
Qed.

Lemma map_row_key_ident (table : list SplitTest) :
  map row_key table = map snd (map row_ident table).
Proof. rewrite map_map. reflexivity. Qed.

Lemma map_st_id_ident (table : list SplitTest) :
  map st_id table = map fst (map row_ident table).
Proof. rewrite map_map. reflexivity. Qed.

Lemma assign_ids_key (objs : list SplitTest) :
  forall n, map row_key (assign_ids n objs) = map row_key objs.
Proof.
  induction objs as [| o objs IH]; intros n; simpl; [reflexivity |].
  now rewrite IH.
Qed.

Lemma assign_ids_results (objs : list SplitTest) :
  forall n, map row_results (assign_ids n objs) = map row_results objs.
Proof.
  induction objs as [| o objs IH]; intros n; simpl; [reflexivity |].
  now rewrite IH.
Qed.

Lemma assign_ids_In (objs : list SplitTest) :
  forall n r, In r (assign_ids n objs) ->
    exists o, In o objs /\ row_key r = row_key o /\ row_results r = row_results o
              /\ n <= st_id r.
Proof.
  induction objs as [| o objs IH]; intros n r; simpl; [intros [] |].
  intros [<- | Hin].
  - exists o. cbn. repeat split; auto. lia.
  - apply IH in Hin. destruct Hin as [o' [Ho' [Hk [Hr Hle]]]].
    exists o'. repeat split; auto. lia.
Qed.

Lemma assign_ids_NoDup (objs : list SplitTest) :
  forall n, NoDup (map st_id (assign_ids n objs)).
Proof.
  induction objs as [| o objs IH]; intros n; simpl; constructor; [| apply IH].
  intros Hin. apply in_map_iff in Hin. destruct Hin as [r [Hr Hin]].
  apply assign_ids_In in Hin. destruct Hin as [_ [_ [_ [_ Hle]]]]. lia.
Qed.

Lemma next_id_fresh (table : list SplitTest) (r : SplitTest) :
  In r table -> st_id r < next_id table.
Proof.
  unfold next_id. induction table as [| x table IH]; cbn [In fold_right];
    [intros [] |].
  intros [-> | Hin]; [lia |]. specialize (IH Hin). lia.
Qed.

Lemma bulk_create_pk_unique (objs table : list SplitTest) :
  NoDup (map st_id table) -> NoDup (map st_id (bulk_create objs table)).
Proof.
  intros Hn. unfold bulk_create. rewrite map_app.
  apply NoDup_app; [exact Hn | apply assign_ids_NoDup |].
  intros x Hx Hy.
  apply in_map_iff in Hx. destruct Hx as [r [<- Hr]].
  apply in_map_iff in Hy. destruct Hy as [r' [E Hr']].
  apply next_id_fresh in Hr.
  apply assign_ids_In in Hr'. destruct Hr' as [_ [_ [_ [_ Hle]]]]. lia.
Qed.

Lemma bulk_update_pk_unique (objs table : list SplitTest) :
  NoDup (map st_id table) -> NoDup (map st_id (bulk_update objs table)).
Proof.
  intros Hn. now rewrite map_st_id_ident, bulk_update_ident, <- map_st_id_ident.
Qed.

End Tables.

(** *** One run of the per-environment pipeline *)

Section OneRun.

Context {C : Collaborators}.

Variables (clock : nat -> time_t) (db : Db) (feature : Feature).
Variables (environment_id : Z) (ids : list string).

Lemma aggregate_keys (ec cc : dict) :
  aggregate db feature environment_id ids = Ok (ec, cc) ->
  dict_keys ec = dict_keys (init_counts (multivariate_options_of db feature))
  /\ dict_keys cc = dict_keys (init_counts (multivariate_options_of db feature)).
Proof.
  intros H. apply aggregate_Ok in H.
  destruct H as [environment [feature_state [_ [_ H]]]].
  now apply aggregate_loop_keys in H.
Qed.

Lemma save_Ok (db' : Db) :
  _save_environment_split_test clock db feature environment_id ids = Ok db' ->
  exists environment ec cc pv new ex,
    objects_get (fun e => env_id e =? environment_id) (environments db)
    = Ok environment
    /\ aggregate db feature environment_id ids = Ok (ec, cc)
    /\ gather_split_test_metrics ec cc = Ok pv
    /\ reconcile_loop clock (qs_existing_split_tests db feature environment)
                      feature environment cc pv ec [] [] = Ok (new, ex)
    /\ db' = with_split_tests db
               (bulk_create new (bulk_update ex (split_tests db))).
Proof.
  unfold _save_environment_split_test, aggregate. intros H.
  inv_bind H. rename a into environment. rewrite Ha. cbn [bind].
  inv_bind H. rename a into feature_state. rewrite Ha0. cbn [bind].
  inv_bind H. destruct a as [ec cc]. inv_bind H. rename a into pv.
  inv_bind H. destruct a as [new ex]. injection H as <-.
  exists environment, ec, cc, pv, new, ex. auto.
Qed.

Lemma save_intro (environment : Environment) (ec cc : dict) (pv : pvalue_t)
    (new ex : list SplitTest) :
  objects_get (fun e => env_id e =? environment_id) (environments db)
  = Ok environment ->
  aggregate db feature environment_id ids = Ok (ec, cc) ->
  gather_split_test_metrics ec cc = Ok pv ->
  reconcile_loop clock (qs_existing_split_tests db feature environment)
                 feature environment cc pv ec [] [] = Ok (new, ex) ->
  _save_environment_split_test clock db feature environment_id ids
  = Ok (with_split_tests db (bulk_create new (bulk_update ex (split_tests db)))).
Proof.
  intros He Hagg Hg Hrec. unfold _save_environment_split_test.
  unfold aggregate in Hagg. rewrite He in *. cbn [bind] in *.
  destruct (objects_get _ (feature_states_of db feature)) as [feature_state |];
    cbn [bind] in *; [| discriminate].
  rewrite Hagg. cbn [bind]. rewrite Hg. cbn [bind]. rewrite Hrec. reflexivity.
Qed.

(** The pipeline runs through when the environment and the feature state
    are found, the resolver stays within the configured options and the
    helper returns a p-value. *)
Lemma save_defined (environment : Environment) (feature_state : FeatureState) :
  objects_get (fun e => env_id e =? environment_id) (environments db)
  = Ok environment ->
  objects_get (fun fs => fs_environment_id fs =? environment_id)
              (feature_states_of db feature) = Ok feature_state ->
  resolver_in_options db feature ->
  (forall ec cc, exists pv, gather_split_test_metrics ec cc = Ok pv) ->
  exists db', _save_environment_split_test clock db feature environment_id ids
              = Ok db'.
Proof.
  intros He Hf Hr Hg.
  destruct (aggregate_defined db feature environment_id ids environment
              feature_state He Hf Hr) as [ec [cc Hagg]].
  destruct (Hg ec cc) as [pv Hpv].
  destruct (reconcile_loop_defined clock
              (qs_existing_split_tests db feature environment)
              feature environment cc pv ec) with (new := @nil SplitTest)
                                                 (ex := @nil SplitTest)
    as [[new ex] Hrec].
  { intros kv Hin. destruct (aggregate_keys ec cc Hagg) as [Hkec Hkcc].
    rewrite Hkcc, <- Hkec. now apply in_map. }
  eexists. eapply save_intro; eassumption.
Qed.

Lemma dict_In_get (d : dict) (k : arm) (v : Z) :
  NoDup (dict_keys d) -> In (k, v) d -> dict_get k d = Some v.
Proof.
  induction d as [| [k' v'] d IH]; simpl; [intros _ [] |].
  intros Hn [E | Hin]; inversion Hn as [| ? ? Hk Hn']; subst.
  - injection E as -> ->. now rewrite arm_eqb_refl.
  - destruct (arm_eqb k k') eqn:E; [| now apply IH].
    apply arm_eqb_eq in E. subst k'. exfalso. apply Hk.
    apply in_map_iff. exists (k, v). auto.
Qed.

(** One run keeps every stored row where it is, with its primary key and
    its key columns, appends the new rows after them, and never brings in a
    second row for a (feature, environment, arm). *)
Lemma save_keeps_rows (db' : Db) :
  _save_environment_split_test clock db feature environment_id ids = Ok db' ->
  (exists rows,
      map row_ident (split_tests db') = map row_ident (split_tests db) ++ rows)
  /\ (one_row_per_arm db -> one_row_per_arm db')
  /\ (pk_unique db -> pk_unique db').
Proof.
  intros H. apply save_Ok in H.
  destruct H as [environment [ec [cc [pv [new [ex [He [Hagg [_ [Hrec ->]]]]]]]]]].
  cbn [with_split_tests split_tests]. unfold one_row_per_arm, pk_unique.
  cbn [with_split_tests split_tests]. split; [| split].
  - unfold bulk_create. rewrite map_app, bulk_update_ident. eauto.
  - intros Hn. unfold bulk_create.
    rewrite map_app, assign_ids_key, (map_row_key_ident (bulk_update _ _)),
      bulk_update_ident, <- map_row_key_ident.
    apply reconcile_loop_spec in Hrec.
    destruct Hrec as [new1 [ex1 [-> [_ [Hm [Hnew _]]]]]]. cbn [app].
    assert (map row_key new1
            = map (fun k => (feature_id feature, env_id environment, k))
                  (map multivariate_feature_option_id new1)) as Hkeys.
    { rewrite map_map. clear Hm. induction Hnew as [| o l Ho _ IH]; [reflexivity |].
      cbn [map]. rewrite IH. f_equal.
      destruct Ho as [kv [cv [_ [_ [_ ->]]]]]. reflexivity. }
    apply NoDup_app; [exact Hn | |].
    + rewrite Hkeys, Hm. apply NoDup_map_injective.
      * intros x y E. now injection E.
      * apply NoDup_filter. apply aggregate_keys in Hagg.
        destruct Hagg as [Hk _]. unfold dict_keys in Hk. rewrite Hk.
        apply init_counts_NoDup.
    + intros key Hold Hin. apply in_map_iff in Hin. destruct Hin as [o [<- Ho]].
      rewrite Forall_forall in Hnew. destruct (Hnew o Ho) as [kv [cv [_ [_ [Hnone ->]]]]].
      rewrite existing_for_find in Hnone.
      apply in_map_iff in Hold. destruct Hold as [st [Hst Hin]].
      pose proof (find_none _ _ Hnone st Hin) as Hno.
      assert (row_matches feature environment (fst kv) st = true) as Hyes
        by (apply row_matches_true; exact Hst).
      congruence.
  - intros Hn. apply bulk_create_pk_unique. now apply bulk_update_pk_unique.
Qed.

End OneRun.

(** *** What a run leaves in the table for each arm *)

Section Idempotence.

Context {C : Collaborators}.

Lemma assign_ids_In_key (objs : list SplitTest) (o : SplitTest) :
  forall n, In o objs -> exists r, In r (assign_ids n objs) /\ row_key r = row_key o.
Proof.
  induction objs as [| x objs IH]; intros n; simpl; [intros [] |].
  intros [-> | Hin].
  - eexists. split; [now left | reflexivity].
  - destruct (IH (n + 1) Hin) as [r [Hr Hk]]. exists r. auto.
Qed.

Lemma row_matches_key (feature : Feature) (environment : Environment) (k : arm)
    (a b : SplitTest) :
  row_key a = row_key b ->
  row_matches feature environment k a = row_matches feature environment k b.
Proof.
  unfold row_key, row_matches. intros E. injection E as -> -> ->. reflexivity.
Qed.

Lemma row_matches_arm (feature : Feature) (environment : Environment) (k k' : arm)
    (st : SplitTest) :
  row_matches feature environment k st = true ->
  row_matches feature environment k' st = true -> k = k'.
Proof.
  intros H H'. apply row_matches_true in H. apply row_matches_true in H'.
  congruence.
Qed.

Variables (db : Db) (feature : Feature) (environment : Environment).
Variables (ec cc : dict) (pv : pvalue_t).
Variables (clock : nat -> time_t) (new ex : list SplitTest).

Hypothesis Hpk : pk_unique db.
Hypothesis Hkeys : NoDup (dict_keys ec).
Hypothesis Hrec :
  reconcile_loop clock (qs_existing_split_tests db feature environment)
                 feature environment cc pv ec [] [] = Ok (new, ex).

(** After the two bulk operations the first row found for an arm carries
    exactly the counts and the p-value computed for that arm. *)
Lemma first_match_after_run (k : arm) (ev : Z) :
  In (k, ev) ec ->
  exists r cv,
    dict_get k cc = Some cv
    /\ find (row_matches feature environment k)
            (bulk_create new (bulk_update ex (split_tests db))) = Some r
    /\ row_results r = (ev, cv, pv).
Proof.
  intros Hin.
  destruct (reconcile_loop_spec _ _ _ _ _ _ _ _ _ _ _ Hrec)
    as [new1 [ex1 [Enew [Eex [_ [Hnew [Hx [Hex Hnewex]]]]]]]].
  cbn [app] in Enew, Eex. subst new1 ex1.
  unfold bulk_create. rewrite find_app.
  unfold bulk_update at 1. rewrite find_map_stable.
  2:{ intros row. apply row_matches_key. destruct (find _ ex); reflexivity. }
  destruct (find (row_matches feature environment k) (split_tests db))
    as [st |] eqn:E; cbn [option_map].
  - destruct (Hex (k, ev) st Hin) as [cv [t [Hcv Ho]]];
      [cbn [fst]; now rewrite existing_for_find |].
    cbn [fst snd] in Hcv, Ho.
    destruct (find_defined (fun o => st_id o =? st_id st) ex _ Ho (Z.eqb_refl _))
      as [o' Ho'].
    rewrite Ho'. eexists. exists cv. split; [exact Hcv |]. split; [reflexivity |].
    apply find_some in Ho'. destruct Ho' as [Hin' Hid]. apply Z.eqb_eq in Hid.
    rewrite Forall_forall in Hx.
    destruct (Hx o' Hin') as [kv' [cv' [st' [t' [Hkv' [Hcv' [Hst' ->]]]]]]].
    cbn [set_results st_id] in Hid.
    rewrite existing_for_find in Hst'.
    apply find_some in E. destruct E as [HstT Hm].
    apply find_some in Hst'. destruct Hst' as [HstT' Hm'].
    assert (st' = st) as -> by (eapply NoDup_map_eq; eassumption).
    pose proof (row_matches_arm _ _ _ _ _ Hm Hm') as Ek.
    destruct kv' as [k' ev']. cbn [fst snd] in *. subst k'.
    apply (dict_In_get ec k ev Hkeys) in Hin.
    apply (dict_In_get ec k ev' Hkeys) in Hkv'.
    unfold row_results. cbn. congruence.
  - destruct (Hnewex (k, ev) Hin) as [cv [Hcv Ho]];
      [cbn [fst]; now rewrite existing_for_find |].
    cbn [fst snd] in Hcv, Ho.
    destruct (assign_ids_In_key new _
                (next_id (bulk_update ex (split_tests db))) Ho) as [r0 [Hr0 Hk0]].
    destruct (find_defined (row_matches feature environment k) _ r0 Hr0)
      as [r Hr].
    { rewrite (row_matches_key _ _ _ _ _ Hk0). apply row_matches_true. reflexivity. }
    rewrite Hr. exists r, cv. split; [exact Hcv |]. split; [reflexivity |].
    apply find_some in Hr. destruct Hr as [HrIn Hm].
    apply assign_ids_In in HrIn. destruct HrIn as [o' [Ho' [Hk' [Hres _]]]].
    rewrite Forall_forall in Hnew.
    destruct (Hnew o' Ho') as [kv' [cv' [Hkv' [Hcv' [_ ->]]]]].
    rewrite (row_matches_key _ _ _ _ _ Hk') in Hm.
    apply row_matches_true in Hm. unfold row_key in Hm. cbn in Hm.
    injection Hm as Ek. destruct kv' as [k' ev']. cbn [fst snd] in *. subst k'.
    apply (dict_In_get ec k ev Hkeys) in Hin.
    apply (dict_In_get ec k ev' Hkeys) in Hkv'.
    rewrite Hres. unfold row_results. cbn. congruence.
Qed.

End Idempotence.

(** *** Claims about the reconciler *)

Section ReconcilerClaims.

Context {C : Collaborators}.

(** C1: when the per-environment pipeline has run once, running it again
    on the data it left (the same tables, with only the result rows changed
    by the first run) succeeds and leaves every result row with the same
    primary key, key columns, evaluation count, conversion count and
    p-value; the clock of the second run is arbitrary, so only time stamps
    can differ. *)
Theorem second_run_same_values (clock1 clock2 : nat -> time_t) (db : Db)
    (feature : Feature) (environment_id : Z) (ids : list string) (db1 : Db) :
  pk_unique db ->
  _save_environment_split_test clock1 db feature environment_id ids = Ok db1 ->
  exists db2,
    _save_environment_split_test clock2 db1 feature environment_id ids = Ok db2
    /\ map row_values (split_tests db2) = map row_values (split_tests db1).
Proof.
  intros Hpk H1.
  pose proof (save_keeps_rows _ _ _ _ _ _ H1) as [_ [_ Hpk1]]. specialize (Hpk1 Hpk).
  apply save_Ok in H1.
  destruct H1 as [environment [ec [cc [pv [new [ex [He [Hagg [Hg [Hrec ->]]]]]]]]]].
  set (T1 := bulk_create new (bulk_update ex (split_tests db))) in *.
  set (db1 := with_split_tests db T1) in *.
  pose proof (aggregate_keys _ _ _ _ _ _ Hagg) as [Hkec Hkcc].
  assert (NoDup (dict_keys ec)) as Hnd by (rewrite Hkec; apply init_counts_NoDup).
  destruct (reconcile_loop_defined clock2
              (qs_existing_split_tests db1 feature environment)
              feature environment cc pv ec) with (new := @nil SplitTest)
                                                 (ex := @nil SplitTest)
    as [[new2 ex2] Hrec2].
  { intros kv Hin. rewrite Hkcc, <- Hkec. now apply in_map. }
  exists (with_split_tests db1 (bulk_create new2 (bulk_update ex2 (split_tests db1)))).
  split.
  - apply save_intro with (environment := environment) (ec := ec) (cc := cc) (pv := pv).
    + exact He.
    + exact Hagg.
    + exact Hg.
    + exact Hrec2.
  - cbn [with_split_tests split_tests].
    destruct (reconcile_loop_spec _ _ _ _ _ _ _ _ _ _ _ Hrec2)
      as [new1' [ex1' [Enew [Eex [Hm [_ [Hx _]]]]]]].
    cbn [app] in Enew, Eex. subst new1' ex1'.
    assert (forall k ev, In (k, ev) ec ->
              exists r cv, dict_get k cc = Some cv
                /\ existing_for (qs_existing_split_tests db1 feature environment) k
                   = Some r
                /\ row_results r = (ev, cv, pv)) as Hfirst.
    { intros k ev Hin. rewrite existing_for_find.
      exact (first_match_after_run db feature environment ec cc pv clock1 new ex
                                   Hpk Hnd Hrec k ev Hin). }
    assert (new2 = []) as ->.
    { apply map_eq_nil with (f := multivariate_feature_option_id). rewrite Hm.
      clear - Hfirst. 
      assert (forall k, In k (map fst ec) ->
                match existing_for (qs_existing_split_tests db1 feature environment) k
                with None => true | Some _ => false end = false) as Hall.
      { intros k Hk. apply in_map_iff in Hk. destruct Hk as [[k' ev] [<- Hin]].
        destruct (Hfirst k' ev Hin) as [r [cv [_ [E _]]]]. cbn [fst]. now rewrite E. }
      induction (map fst ec) as [| k l IH]; [reflexivity |].
      cbn [filter]. rewrite (Hall k (or_introl eq_refl)).
      apply IH. intros k' Hk'. apply Hall. now right. }
    unfold bulk_create. cbn [assign_ids]. rewrite app_nil_r.
    unfold bulk_update. rewrite map_map. apply map_ext_in. intros row Hrow.
    destruct (find (fun o => st_id o =? st_id row) ex2) as [o |] eqn:F;
      [| reflexivity].
    apply find_some in F. destruct F as [Ho Hid]. apply Z.eqb_eq in Hid.
    rewrite Forall_forall in Hx.
    destruct (Hx o Ho) as [[k ev] [cv [st [t [Hin [Hcv [Hst ->]]]]]]].
    cbn [fst snd] in *.
    destruct (Hfirst k ev Hin) as [r [cv' [Hcv' [Hr Hres]]]].
    rewrite Hst in Hr. injection Hr as <-.
    rewrite existing_for_find in Hst. apply find_some in Hst.
    destruct Hst as [HstIn _]. cbn [set_results st_id] in Hid.
    assert (st = row) as -> by (eapply NoDup_map_eq; eassumption).
    unfold row_values, row_ident, row_key, row_results in *. cbn.
    injection Hres as -> E2 ->. rewrite E2. congruence.
Qed.

(** C7: starting from a table with at most one row per (feature,
    environment, arm), any number of runs leaves at most one row per
    (feature, environment, arm); every row that was there is still there, in
    its place and with its primary key and key columns, so rows are updated
    in place, never deleted, and a row is added only for an arm that had
    none. *)
Theorem upsert_keeps_one_row_per_arm (db0 db : Db) :
  one_row_per_arm db0 ->
  reachable db0 db ->
  one_row_per_arm db
  /\ exists rows,
       map row_ident (split_tests db) = map row_ident (split_tests db0) ++ rows.
Proof.
  intros H0 Hr. induction Hr as [| db db' clock feature environment_id ids Hr IH Hrun
                                  | db db' Hr IH Hdata].
  - split; [exact H0 |]. exists []. now rewrite app_nil_r.
  - destruct IH as [Hone [rows Hrows]].
    apply save_keeps_rows in Hrun. destruct Hrun as [[rows' Hrows'] [Hkeep _]].
    split; [now apply Hkeep |].
    exists (rows ++ rows'). now rewrite Hrows', Hrows, app_assoc.
  - destruct IH as [Hone [rows Hrows]]. unfold one_row_per_arm in *.
    rewrite Hdata. eauto.
Qed.

(** C4: the count dictionaries start with a zero entry for the control
    group and for every configured option, and after a run the table holds a
    row for every one of these arms of the feature and environment, whether
    or not any identity was counted for it.  With unique primary keys that
    row shows what the run computed for the arm: its evaluation count, its
    conversion count and the p-value of the run; for an arm into which no
    evaluated identity falls, both counts on the row are zero, whatever the
    row showed before. *)
Theorem every_configured_arm_has_a_row (db : Db) (feature : Feature) :
  (forall k, configured_arm (multivariate_options_of db feature) k ->
             dict_get k (init_counts (multivariate_options_of db feature)) = Some 0)
  /\ (forall clock environment_id ids db',
        _save_environment_split_test clock db feature environment_id ids = Ok db' ->
        forall k, configured_arm (multivariate_options_of db feature) k ->
          exists row, In row (split_tests db')
                      /\ row_key row = (feature_id feature, environment_id, k))
  /\ (forall clock environment_id ids db',
        pk_unique db ->
        _save_environment_split_test clock db feature environment_id ids = Ok db' ->
        exists environment feature_state ec cc pv,
          objects_get (fun e => env_id e =? environment_id) (environments db)
          = Ok environment
          /\ objects_get (fun fs => fs_environment_id fs =? environment_id)
                         (feature_states_of db feature) = Ok feature_state
          /\ aggregate db feature environment_id ids = Ok (ec, cc)
          /\ gather_split_test_metrics ec cc = Ok pv
          /\ forall k, configured_arm (multivariate_options_of db feature) k ->
               exists row ev cv,
                 In row (split_tests db')
                 /\ row_key row = (feature_id feature, environment_id, k)
                 /\ dict_get k ec = Some ev
                 /\ dict_get k cc = Some cv
                 /\ row_results row = (ev, cv, pv)
                 /\ ((forall i,
                         In i (evaluated_identities_qs db environment_id ids) ->
                         arm_of environment feature_state i <> k) ->
                     ev = 0 /\ cv = 0)).
Proof.
  split; [| split].
  - intros k Hk. apply init_counts_keys, dict_get_In_keys in Hk.
    destruct Hk as [v Hv]. rewrite Hv. f_equal.
    eapply init_counts_zero; eassumption.
  - intros clock environment_id ids db' H k Hk. apply save_Ok in H.
    destruct H as [environment [ec [cc [pv [new [ex [He [Hagg [_ [Hrec ->]]]]]]]]]].
    cbn [with_split_tests split_tests].
    apply objects_get_Ok in He. destruct He as [_ [_ He]]. apply Z.eqb_eq in He.
    subst environment_id.
    apply aggregate_keys in Hagg. destruct Hagg as [Hkeys _].
    apply init_counts_keys in Hk. rewrite <- Hkeys in Hk.
    apply in_map_iff in Hk. destruct Hk as [[k' ev] [Ek Hin]]. cbn [fst] in Ek.
    subst k'.
    apply reconcile_loop_spec in Hrec.
    destruct Hrec as [new1 [ex1 [-> [-> [_ [_ [_ [_ Hnew]]]]]]]]. cbn [app].
    unfold bulk_create.
    destruct (existing_for (qs_existing_split_tests db feature environment) k)
      as [st |] eqn:E.
    + rewrite existing_for_find in E. apply find_some in E. destruct E as [Hst Hm].
      apply row_matches_true in Hm.
      assert (In (row_key st) (map row_key (bulk_update ex1 (split_tests db)))) as Hrow.
      { rewrite map_row_key_ident, bulk_update_ident, <- map_row_key_ident.
        now apply in_map. }
      apply in_map_iff in Hrow. destruct Hrow as [row [Hkey Hrow]].
      exists row. split; [apply in_or_app; now left | congruence].
    + destruct (Hnew (k, ev) Hin E) as [cv [_ Ho]]. cbn [fst snd] in Ho.
      assert (In (feature_id feature, env_id environment, k)
                 (map row_key (assign_ids (next_id (bulk_update ex1 (split_tests db)))
                                          new1))) as Hrow.
      { rewrite assign_ids_key.
        apply in_map_iff. eexists. split; [| exact Ho]. reflexivity. }
      apply in_map_iff in Hrow. destruct Hrow as [row [Hkey Hrow]].
      exists row. split; [apply in_or_app; now right | exact Hkey].
  - intros clock environment_id ids db' Hpk H. apply save_Ok in H.
    destruct H as [environment [ec [cc [pv [new [ex [He [Hagg [Hg [Hrec ->]]]]]]]]]].
    cbn [with_split_tests split_tests].
    destruct (aggregate_Ok _ _ _ _ _ _ Hagg)
      as [environment0 [feature_state [He0 [Hf Hloop]]]].
    rewrite He in He0. injection He0 as <-.
    exists environment, feature_state, ec, cc, pv.
    split; [exact He |]. split; [exact Hf |]. split; [exact Hagg |].
    split; [exact Hg |].
    intros k Hk.
    pose proof (aggregate_keys _ _ _ _ _ _ Hagg) as [Hkec _].
    assert (NoDup (dict_keys ec)) as Hnd by (rewrite Hkec; apply init_counts_NoDup).
    pose proof (aggregate_loop_counts _ _ _ _ _ _ _ _ Hloop) as [Hec Hcc].
    apply init_counts_keys in Hk.
    assert (dict_get k (init_counts (multivariate_options_of db feature)) = Some 0)
      as Hzero.
    { apply dict_get_In_keys in Hk. destruct Hk as [v Hv]. rewrite Hv. f_equal.
      eapply init_counts_zero; eassumption. }
    rewrite <- Hkec in Hk.
    apply in_map_iff in Hk. destruct Hk as [[k' ev] [Ek Hin]]. cbn [fst] in Ek.
    subst k'.
    destruct (first_match_after_run db feature environment ec cc pv clock new ex
                Hpk Hnd Hrec k ev Hin) as [r [cv [Hcv [Hr Hres]]]].
    apply find_some in Hr. destruct Hr as [HrIn Hm].
    apply row_matches_true in Hm.
    pose proof (dict_In_get ec k ev Hnd Hin) as Hev.
    exists r, ev, cv. split; [exact HrIn |]. split.
    { apply objects_get_Ok in He. destruct He as [_ [_ He]].
      apply Z.eqb_eq in He. now rewrite <- He. }
    split; [exact Hev |]. split; [exact Hcv |]. split; [exact Hres |].
    intros Hno.
    assert (forall p,
              tally environment feature_state p k
                    (evaluated_identities_qs db environment_id ids) = 0) as Htally.
    { intros p. unfold tally. rewrite filter_none; [reflexivity |].
      intros i Hi. apply Hno in Hi. apply arm_eqb_neq in Hi. now rewrite Hi. }
    rewrite (Hec k 0 Hzero), Htally in Hev.
    rewrite (Hcc k 0 Hzero), Htally in Hcv.
    injection Hev as <-. injection Hcv as <-. split; reflexivity.
Qed.

(** C9: an evaluated identifier that matches no stored identity of the
    environment is dropped: with or without it the counts are the same and
    so is everything the run writes. *)
Theorem unresolved_identifier_dropped (clock : nat -> time_t) (db : Db)
    (feature : Feature) (environment_id : Z) (l1 l2 : list string) (ghost : string) :
  (forall i, In i (identities db) -> identity_environment_id i = environment_id ->
             identifier i <> ghost) ->
  evaluated_identities_qs db environment_id (l1 ++ ghost :: l2)
  = evaluated_identities_qs db environment_id (l1 ++ l2)
  /\ aggregate db feature environment_id (l1 ++ ghost :: l2)
     = aggregate db feature environment_id (l1 ++ l2)
  /\ _save_environment_split_test clock db feature environment_id (l1 ++ ghost :: l2)
     = _save_environment_split_test clock db feature environment_id (l1 ++ l2).
Proof.
  intros Hghost.
  assert (evaluated_identities_qs db environment_id (l1 ++ ghost :: l2)
          = evaluated_identities_qs db environment_id (l1 ++ l2)) as Hqs.
  { unfold evaluated_identities_qs. apply filter_ext_in. intros i Hi.
    destruct (identity_environment_id i =? environment_id) eqn:E; [| reflexivity].
    apply Z.eqb_eq in E. cbn [andb].
    rewrite !existsb_app. cbn [existsb].
    assert (String.eqb (identifier i) ghost = false) as ->
      by (apply String.eqb_neq; now apply Hghost).
    reflexivity. }
  split; [exact Hqs |].
  unfold aggregate, _save_environment_split_test. rewrite Hqs. split; reflexivity.
Qed.

End ReconcilerClaims.

(** *** The per-feature work item *)

Section WorkItem.

Context {C : Collaborators}.

Lemma distinct_In (rows : list (Z * string)) :
  forall seen x, In x (distinct seen rows) -> In x rows.
Proof.
  induction rows as [| r rows IH]; intros seen x; cbn [distinct]; [intros [] |].
  destruct (existsb (pair_eqb r) seen).
  - intros H. right. now apply IH in H.
  - intros [<- | H]; [now left | right; now apply IH in H].
Qed.

Lemma defaultdict_append_keys (k : Z) (v : string) (d : defaultdict) (x : Z) :
  In x (map fst (defaultdict_append k v d)) -> x = k \/ In x (map fst d).
Proof.
  induction d as [| [k' vs] d IH]; cbn [defaultdict_append map fst In].
  - intros [<- | []]. now left.
  - destruct (k =? k'); cbn [map fst In].
    + intros [<- | H]; auto.
    + intros [<- | H]; auto. apply IH in H. tauto.
Qed.

Lemma group_by_environment_keys (rows : list (Z * string)) :
  forall d x,
    In x (map fst (fold_left (fun d row => defaultdict_append (fst row) (snd row) d)
                             rows d)) ->
    In x (map fst d) \/ In x (map fst rows).
Proof.
  induction rows as [| r rows IH]; intros d x; cbn [fold_left map In]; [tauto |].
  intros H. apply IH in H. destruct H as [H | H]; [| tauto].
  apply defaultdict_append_keys in H. destruct H as [-> | H]; tauto.
Qed.

(** An environment gets an entry in [environment_identifiers] only through a
    raw evaluation of the feature's name that carries an identifier. *)
Lemma environment_identifiers_keys (db : Db) (feature : Feature) (e : Z) :
  In e (map fst (environment_identifiers db feature)) ->
  exists r identity_identifier,
    In r (feature_evaluations_raw db)
    /\ fer_feature_name r = feature_name feature
    /\ fer_environment_id r = e
    /\ fer_identity_identifier r = Some identity_identifier.
Proof.
  unfold environment_identifiers, group_by_environment, qs_values_list.
  intros H. apply group_by_environment_keys in H. destruct H as [[] | H].
  apply in_map_iff in H. destruct H as [[e' u] [E H]]. cbn [fst] in E. subst e'.
  apply distinct_In in H. apply in_flat_map in H. destruct H as [r [Hr H]].
  destruct (fer_identity_identifier r) as [u' |] eqn:Eu; [| destruct H].
  destruct (String.eqb (fer_feature_name r) (feature_name feature)) eqn:En;
    [| destruct H].
  destruct (existsb _ _); cbn [andb] in H; [| destruct H].
  destruct H as [H | []]. injection H as <- <-.
  apply String.eqb_eq in En. exists r, u'. auto.
Qed.

(** A run for one environment leaves the rows of every other environment as
    they are. *)
Lemma save_other_environment (clock : nat -> time_t) (db db' : Db)
    (feature : Feature) (environment_id : Z) (ids : list string) (e : Z) :
  pk_unique db ->
  _save_environment_split_test clock db feature environment_id ids = Ok db' ->
  e <> environment_id ->
  filter (fun st => st_environment_id st =? e) (split_tests db')
  = filter (fun st => st_environment_id st =? e) (split_tests db).
Proof.
  intros Hpk H Hne. apply save_Ok in H.
  destruct H as [environment [ec [cc [pv [new [ex [He [_ [_ [Hrec ->]]]]]]]]]].
  cbn [with_split_tests split_tests].
  apply objects_get_Ok in He. destruct He as [_ [_ He]]. apply Z.eqb_eq in He.
  apply reconcile_loop_spec in Hrec.
  destruct Hrec as [new1 [ex1 [-> [-> [_ [Hnew [Hx _]]]]]]]. cbn [app].
  rewrite Forall_forall in Hnew, Hx.
  unfold bulk_create. rewrite filter_app.
  rewrite (filter_none _ (assign_ids _ new1)).
  - rewrite app_nil_r. unfold bulk_update. apply filter_map_fixed.
    intros row Hrow.
    destruct (find (fun o => st_id o =? st_id row) ex1) as [o |] eqn:F;
      [| split; reflexivity].
    split; [reflexivity |]. intros Henv. apply Z.eqb_eq in Henv. exfalso.
    apply find_some in F. destruct F as [Ho Hid]. apply Z.eqb_eq in Hid.
    destruct (Hx o Ho) as [kv [cv [st [t [_ [_ [Hst ->]]]]]]].
    rewrite existing_for_find in Hst. apply find_some in Hst.
    destruct Hst as [HstIn Hm]. cbn [set_results st_id] in Hid.
    assert (st = row) as -> by (eapply NoDup_map_eq; eassumption).
    apply row_matches_true in Hm. unfold row_key in Hm. injection Hm as _ Hm _.
    congruence.
  - intros r Hr. apply assign_ids_In in Hr. destruct Hr as [o [Ho [Hk _]]].
    destruct (Hnew o Ho) as [kv [cv [_ [_ [_ ->]]]]].
    unfold row_key in Hk. cbn in Hk. injection Hk as _ Hk _.
    apply Z.eqb_neq. congruence.
Qed.

Lemma save_loop_other_environment (clocks : nat -> nat -> time_t)
    (feature : Feature) (e : Z) (items : defaultdict) :
  forall n db db',
    pk_unique db ->
    save_loop clocks feature items n db = Ok db' ->
    ~ In e (map fst items) ->
    filter (fun st => st_environment_id st =? e) (split_tests db')
    = filter (fun st => st_environment_id st =? e) (split_tests db).
Proof.
  induction items as [| [environment_id ids] items IH]; intros n db db' Hpk H Hnot.
  - simpl in H. now injection H as <-.
  - cbn [save_loop] in H. inv_bind H. rename a into db1.
    cbn [map fst In] in Hnot.
    rewrite (IH _ _ _ (proj2 (proj2 (save_keeps_rows _ _ _ _ _ _ Ha)) Hpk) H)
      by tauto.
    apply (save_other_environment _ _ _ _ _ _ e Hpk Ha). intros E. apply Hnot.
    now left.
Qed.

Lemma pair_eqb_eq (a b : Z * string) : pair_eqb a b = true <-> a = b.
Proof.
  destruct a as [x s1], b as [y s2]. unfold pair_eqb. cbn [fst snd].
  rewrite andb_true_iff, Z.eqb_eq, String.eqb_eq. split.
  - intros [-> ->]. reflexivity.
  - intros E. injection E as -> ->. auto.
Qed.

Lemma distinct_In_iff (rows : list (Z * string)) :
  forall seen x, In x (distinct seen rows) <-> In x rows /\ ~ In x seen.
Proof.
  induction rows as [| r rows IH]; intros seen x; cbn [distinct In]; [tauto |].
  destruct (existsb (pair_eqb r) seen) eqn:E.
  - rewrite IH. apply existsb_exists in E. destruct E as [y [Hy E]].
    apply pair_eqb_eq in E. subst y. split; [tauto |].
    intros [[<- | H] Hs]; [contradiction | tauto].
  - assert (~ In r seen) as Hr.
    { intros Hin. assert (existsb (pair_eqb r) seen = true) as E'.
      { apply existsb_exists. exists r. split; [exact Hin | now apply pair_eqb_eq]. }
      congruence. }
    cbn [In]. rewrite IH. cbn [In]. split.
    + intros [<- | [H Hs]]; [tauto |]. tauto.
    + intros [[<- | H] Hs]; [tauto |].
      destruct (pair_eqb r x) eqn:Ex.
      * apply pair_eqb_eq in Ex. tauto.
      * right. split; [exact H |]. intros [<- | Hin]; [| contradiction].
        assert (pair_eqb r r = true) by now apply pair_eqb_eq. congruence.
Qed.

Lemma defaultdict_get_append (k : Z) (v : string) (d : defaultdict) (e : Z)
    (u : string) :
  In u (defaultdict_get e (defaultdict_append k v d))
  <-> In u (defaultdict_get e d) \/ (e = k /\ u = v).
Proof.
  induction d as [| [k' vs] d IH]; cbn [defaultdict_append defaultdict_get].
  - destruct (e =? k) eqn:E; cbn [In].
    + apply Z.eqb_eq in E. intuition congruence.
    + apply Z.eqb_neq in E. intuition congruence.
  - destruct (k =? k') eqn:Ek; cbn [defaultdict_get].
    + apply Z.eqb_eq in Ek. subst k'.
      destruct (e =? k) eqn:E.
      * apply Z.eqb_eq in E. rewrite in_app_iff. cbn [In]. intuition congruence.
      * apply Z.eqb_neq in E. intuition congruence.
    + destruct (e =? k') eqn:E; [| exact IH].
      apply Z.eqb_eq in E. apply Z.eqb_neq in Ek. intuition congruence.
Qed.

Lemma defaultdict_append_NoDup (k : Z) (v : string) (d : defaultdict) :
  NoDup (map fst d) -> NoDup (map fst (defaultdict_append k v d)).
Proof.
  induction d as [| [k' vs] d IH]; cbn [defaultdict_append map fst]; intros Hn.
  - constructor; [intros [] | constructor].
  - inversion Hn as [| ? ? Hk Hn']; subst.
    destruct (k =? k') eqn:E; cbn [map fst].
    + constructor; assumption.
    + constructor; [| now apply IH].
      intros Hin. apply defaultdict_append_keys in Hin.
      apply Z.eqb_neq in E. destruct Hin as [-> | Hin]; [congruence | contradiction].
Qed.

Lemma defaultdict_In_get (d : defaultdict) (e : Z) (vs : list string) :
  NoDup (map fst d) -> In (e, vs) d -> defaultdict_get e d = vs.
Proof.
  induction d as [| [k' vs'] d IH]; cbn [map fst In defaultdict_get];
    [intros _ [] |].
  intros Hn Hin. inversion Hn as [| ? ? Hk Hn']; subst.
  destruct Hin as [E | Hin].
  - injection E as -> ->. now rewrite Z.eqb_refl.
  - destruct (e =? k') eqn:E; [| now apply IH].
    apply Z.eqb_eq in E. subst k'. exfalso. apply Hk.
    apply in_map_iff. exists (e, vs). auto.
Qed.

Lemma group_by_environment_spec (rows : list (Z * string)) :
  forall d,
    NoDup (map fst d) ->
    NoDup (map fst (fold_left
                      (fun d row => defaultdict_append (fst row) (snd row) d)
                      rows d))
    /\ forall e u,
         In u (defaultdict_get e
                 (fold_left (fun d row => defaultdict_append (fst row) (snd row) d)
                            rows d))
         <-> In u (defaultdict_get e d) \/ In (e, u) rows.
Proof.
  induction rows as [| [e0 u0] rows IH]; intros d Hn; cbn [fold_left In].
  - split; [exact Hn | tauto].
  - destruct (IH (defaultdict_append e0 u0 d) (defaultdict_append_NoDup e0 u0 d Hn))
      as [Hn' Hget].
    cbn [fst snd]. split; [exact Hn' |]. intros e u.
    rewrite Hget, defaultdict_get_append. intuition congruence.
Qed.

(** An entry of [environment_identifiers] lists exactly the identifiers the
    raw log holds for the feature in that environment. *)
Lemma environment_identifiers_spec (db : Db) (feature : Feature) (e : Z)
    (ids : list string) :
  In (e, ids) (environment_identifiers db feature) ->
  forall u, In u ids <-> logged db feature e u = true.
Proof.
  intros Hin u.
  assert (In e (map fst (environment_identifiers db feature))) as Hkey
    by (apply in_map_iff; exists (e, ids); auto).
  unfold environment_identifiers, group_by_environment in *.
  set (environment_ids := map fs_environment_id (feature_states_of db feature)) in *.
  destruct (group_by_environment_spec (qs_values_list db feature environment_ids) [])
    as [Hn Hget]; [constructor |].
  rewrite <- (defaultdict_In_get _ e ids Hn Hin), Hget. cbn [defaultdict_get In].
  apply group_by_environment_keys in Hkey. destruct Hkey as [[] | Hkey].
  assert (existsb (Z.eqb e) environment_ids = true) as Henv.
  { apply in_map_iff in Hkey. destruct Hkey as [[e' u'] [E Hk]]. cbn [fst] in E.
    subst e'. unfold qs_values_list in Hk. apply distinct_In in Hk.
    apply in_flat_map in Hk. destruct Hk as [r [_ Hk]].
    destruct (fer_identity_identifier r); [| destruct Hk].
    destruct (String.eqb _ _); [| destruct Hk].
    destruct (existsb (Z.eqb (fer_environment_id r)) environment_ids) eqn:Ex;
      [| destruct Hk].
    destruct Hk as [Hk | []]. injection Hk as <- _. exact Ex. }
  unfold qs_values_list, logged. rewrite distinct_In_iff, in_flat_map, existsb_exists.
  split.
  - intros [[] | [[r [Hr H]] _]]. exists r. split; [exact Hr |].
    destruct (fer_identity_identifier r) as [u' |]; [| destruct H].
    destruct (String.eqb (fer_feature_name r) (feature_name feature));
      [| destruct H].
    destruct (existsb (Z.eqb (fer_environment_id r)) environment_ids);
      [| destruct H].
    destruct H as [H | []]. injection H as <- <-.
    cbn [andb]. now rewrite Z.eqb_refl, String.eqb_refl.
  - intros [r [Hr H]]. right. split; [| intros []]. exists r. split; [exact Hr |].
    apply andb_true_iff in H. destruct H as [H Hu].
    apply andb_true_iff in H. destruct H as [Hname He].
    apply Z.eqb_eq in He. subst e.
    destruct (fer_identity_identifier r) as [u' |]; [| discriminate].
    apply String.eqb_eq in Hu. subst u'.
    rewrite Hname, Henv. cbn [andb]. now left.
Qed.

(** C2 (as amended): for every environment the work item processes, the
    evaluation counts of all arms add up to the number of stored identities
    of that environment whose identifier the raw log holds, with a non-null
    identifier, for the feature in that environment; identifiers without a
    stored identity are not counted. *)
Theorem evaluation_counts_sum_resolved (db : Db) (feature : Feature)
    (environment_id : Z) (ids : list string) (ec cc : dict) :
  In (environment_id, ids) (environment_identifiers db feature) ->
  aggregate db feature environment_id ids = Ok (ec, cc) ->
  dict_sum ec
  = Z.of_nat (List.length (exposed_identities db feature environment_id)).
Proof.
  intros Hin H. apply aggregate_sum in H. rewrite H. do 2 f_equal.
  unfold evaluated_identities_qs, exposed_identities. apply filter_ext.
  intros i. f_equal. apply eq_true_iff_eq.
  rewrite <- (environment_identifiers_spec db feature environment_id ids Hin).
  rewrite existsb_exists. split.
  - intros [u [Hu E]]. apply String.eqb_eq in E. now subst.
  - intros Hi. exists (identifier i). split; [exact Hi | apply String.eqb_refl].
Qed.

(** C10: an environment for which the raw log holds no evaluation of the
    feature with an identifier gets no entry in [environment_identifiers],
    so the pipeline is not run for it, and the work item leaves every result
    row of that environment exactly as it was and adds none. *)
Theorem environment_without_evaluations_untouched (settings : Settings)
    (clocks : nat -> nat -> time_t) (db db' : Db) (feature_id' e : Z) :
  pk_unique db ->
  update_features_split_tests settings clocks db feature_id' = Ok db' ->
  (forall f r, In f (features db) -> feature_id f = feature_id' ->
               In r (feature_evaluations_raw db) ->
               fer_feature_name r = feature_name f ->
               fer_environment_id r = e ->
               fer_identity_identifier r = None) ->
  (forall f, In f (features db) -> feature_id f = feature_id' ->
             ~ In e (map fst (environment_identifiers db f)))
  /\ filter (fun st => st_environment_id st =? e) (split_tests db')
     = filter (fun st => st_environment_id st =? e) (split_tests db).
Proof.
  intros Hpk H Hraw.
  assert (forall f, In f (features db) -> feature_id f = feature_id' ->
                    ~ In e (map fst (environment_identifiers db f))) as Hskip.
  { intros f Hf Hid Hin. apply environment_identifiers_keys in Hin.
    destruct Hin as [r [u [Hr [Hn [He Hu]]]]].
    rewrite (Hraw f r Hf Hid Hr Hn He) in Hu. discriminate. }
  split; [exact Hskip |].
  unfold update_features_split_tests in H. inv_bind H. inv_bind H.
  rename a0 into feature. apply objects_get_Ok in Ha0.
  destruct Ha0 as [_ [Hf Hid]]. apply Z.eqb_eq in Hid.
  eapply save_loop_other_environment; eauto.
Qed.


End WorkItem.

(** ** The statements at work on the sample deployment *)

(** The worked scenario: control 6 evaluations and 2 conversions, the
    option 4 and 1, and one row per arm after the work item. *)
Example scenario_counts :
  environment_identifiers Sample.scenario Sample.checkout
  = [(3, Sample.scenario_users)]
  /\ aggregate Sample.scenario Sample.checkout 3 Sample.scenario_users
     = Ok ([(Some 10, 4); (None, 6)], [(Some 10, 1); (None, 2)]).
Proof. split; reflexivity. Qed.

Example scenario_rows :
  match update_features_split_tests Sample.settings Sample.clocks
                                    Sample.scenario 1 with
  | Ok db => map row_values (split_tests db)
  | Err _ => []
  end
  = [ ((1, (1, 3, Some 10)), (4, 1, 7)); ((2, (1, 3, None)), (6, 2, 7)) ].
Proof. reflexivity. Qed.

Lemma evaluation_counts_sum_resolved_witness :
  In (1, Sample.exposed) (environment_identifiers Sample.db0 Sample.checkout)
  /\ aggregate Sample.db0 Sample.checkout 1 Sample.exposed
     = Ok ([(Some 10, 1); (None, 2)], [(Some 10, 1); (None, 1)])
  /\ dict_sum [(Some 10, 1); (None, 2)]
     = Z.of_nat (List.length (exposed_identities Sample.db0 Sample.checkout 1)).
Proof.
  assert (In (1, Sample.exposed) (environment_identifiers Sample.db0 Sample.checkout))
    as Hin by (now left).
  split; [exact Hin |]. split; [reflexivity |].
  exact (evaluation_counts_sum_resolved Sample.db0 Sample.checkout 1 Sample.exposed
           [(Some 10, 1); (None, 2)] [(Some 10, 1); (None, 1)] Hin eq_refl).
Defined.

(** C2 as stated fails: the raw log of [checkout] in environment 1 holds
    four distinct identifiers, but the evaluation counts add up to three,
    because [ghost] has no stored identity. *)
Lemma evaluation_counts_sum_counterexample :
  environment_identifiers Sample.db0 Sample.checkout = [(1, Sample.exposed)]
  /\ exists ec cc,
       aggregate Sample.db0 Sample.checkout 1 Sample.exposed = Ok (ec, cc)
       /\ dict_sum ec <> Z.of_nat (List.length Sample.exposed).
Proof.
  split; [reflexivity |].
  exists [(Some 10, 1); (None, 2)], [(Some 10, 1); (None, 1)].
  split; [reflexivity | discriminate].
Qed.

Lemma conversion_count_le_evaluation_count_witness :
  aggregate Sample.db0 Sample.checkout 1 Sample.exposed
  = Ok ([(Some 10, 1); (None, 2)], [(Some 10, 1); (None, 1)])
  /\ configured_arm (multivariate_options_of Sample.db0 Sample.checkout) None
  /\ exists e c, dict_get None [(Some 10, 1); (None, 2)] = Some e
                 /\ dict_get None [(Some 10, 1); (None, 1)] = Some c
                 /\ 0 <= c <= e.
Proof.
  split; [reflexivity |]. split; [now left |].
  apply (conversion_count_le_evaluation_count Sample.db0 Sample.checkout 1
           Sample.exposed [(Some 10, 1); (None, 2)] [(Some 10, 1); (None, 1)]).
  - reflexivity.
  - now left.
Defined.

Lemma unexposed_conversion_not_counted_witness :
  (forall i, In i (evaluated_identities_qs Sample.db0 1 Sample.exposed) ->
             identity_id i <> ce_identity_id Sample.unexposed_conversion)
  /\ aggregate (record_conversion Sample.db0 Sample.unexposed_conversion)
               Sample.checkout 1 Sample.exposed
     = aggregate Sample.db0 Sample.checkout 1 Sample.exposed.
Proof.
  assert (forall i, In i (evaluated_identities_qs Sample.db0 1 Sample.exposed) ->
                    identity_id i <> ce_identity_id Sample.unexposed_conversion)
    as Hout.
  { intros i Hi. vm_compute in Hi.
    destruct Hi as [<- | [<- | [<- | []]]]; discriminate. }
  split; [exact Hout |].
  exact (unexposed_conversion_not_counted Sample.db0 Sample.checkout 1
           Sample.exposed Sample.unexposed_conversion Hout).
Defined.

Lemma conversion_presence_counted_once_witness :
  aggregate Sample.db0 Sample.checkout 1 Sample.exposed
  = Ok ([(Some 10, 1); (None, 2)], [(Some 10, 1); (None, 1)])
  /\ In Sample.repeated_conversion (conversion_events Sample.db0)
  /\ aggregate (record_conversion Sample.db0 Sample.repeated_conversion)
               Sample.checkout 1 Sample.exposed
     = Ok ([(Some 10, 1); (None, 2)], [(Some 10, 1); (None, 1)]).
Proof.
  split; [reflexivity |]. split; [now left |].
  apply (proj2 (conversion_presence_counted_once Sample.db0 Sample.checkout 1
                  Sample.exposed [(Some 10, 1); (None, 2)]
                  [(Some 10, 1); (None, 1)] eq_refl)).
  now left.
Defined.

Lemma second_run_same_values_witness :
  pk_unique Sample.db0
  /\ _save_environment_split_test Sample.clock Sample.db0 Sample.checkout 1
                                  Sample.exposed = Ok Sample.db1
  /\ exists db2,
       _save_environment_split_test Sample.clock' Sample.db1 Sample.checkout 1
                                    Sample.exposed = Ok db2
       /\ map row_values (split_tests db2) = map row_values (split_tests Sample.db1).
Proof.
  assert (pk_unique Sample.db0) as Hpk.
  { unfold pk_unique. cbn. repeat constructor; cbn; intuition discriminate. }
  split; [exact Hpk |]. split; [reflexivity |].
  apply (second_run_same_values Sample.clock Sample.clock' Sample.db0
           Sample.checkout 1 Sample.exposed Sample.db1 Hpk).
  reflexivity.
Defined.

Lemma upsert_keeps_one_row_per_arm_witness :
  one_row_per_arm Sample.db0
  /\ reachable Sample.db0 Sample.db1
  /\ one_row_per_arm Sample.db1
  /\ exists rows,
       map row_ident (split_tests Sample.db1)
       = map row_ident (split_tests Sample.db0) ++ rows.
Proof.
  assert (one_row_per_arm Sample.db0) as Hone.
  { unfold one_row_per_arm. cbn. repeat constructor; cbn; intuition discriminate. }
  assert (reachable Sample.db0 Sample.db1) as Hreach.
  { apply (reach_run Sample.db0 Sample.db0 Sample.db1 Sample.clock Sample.checkout
                     1 Sample.exposed (reach_start Sample.db0)).
    reflexivity. }
  split; [exact Hone |]. split; [exact Hreach |].
  exact (upsert_keeps_one_row_per_arm Sample.db0 Sample.db1 Hone Hreach).
Defined.

Lemma every_configured_arm_has_a_row_witness :
  pk_unique Sample.db0
  /\ configured_arm (multivariate_options_of Sample.db0 Sample.checkout) None
  /\ In (Sample.stored 7 1 1 None 9 9 9 8%nat) (split_tests Sample.db0)
  /\ _save_environment_split_test Sample.clock Sample.db0 Sample.checkout 1
                                  Cases.variant_only = Ok Cases.db_zero
  /\ exists row pv,
       In row (split_tests Cases.db_zero)
       /\ row_key row = (feature_id Sample.checkout, 1, None)
       /\ row_results row = (0, 0, pv).
Proof.
  assert (pk_unique Sample.db0) as Hpk.
  { unfold pk_unique. cbn. repeat constructor; cbn; intuition discriminate. }
  assert (configured_arm (multivariate_options_of Sample.db0 Sample.checkout) None)
    as Harm by (now left).
  split; [exact Hpk |]. split; [exact Harm |].
  split; [right; now left |]. split; [reflexivity |].
  destruct (proj2 (proj2 (every_configured_arm_has_a_row Sample.db0 Sample.checkout))
              Sample.clock 1 Cases.variant_only Cases.db_zero Hpk eq_refl)
    as [environment [feature_state [ec [cc [pv [_ [_ [_ [_ Hrows]]]]]]]]].
  destruct (Hrows None Harm) as [row [ev [cv [Hin [Hkey [_ [_ [Hres Hz]]]]]]]].
  exists row, pv. split; [exact Hin |]. split; [exact Hkey |].
  destruct Hz as [-> ->]; [| exact Hres].
  intros i Hi. vm_compute in Hi.
  destruct Hi as [<- | []]. discriminate.
Defined.

Lemma unresolved_identifier_dropped_witness :
  (forall i, In i (identities Sample.db0) -> identity_environment_id i = 1 ->
             identifier i <> "ghost"%string)
  /\ _save_environment_split_test Sample.clock Sample.db0 Sample.checkout 1
       (Sample.resolved ++ "ghost"%string :: [])
     = _save_environment_split_test Sample.clock Sample.db0 Sample.checkout 1
         (Sample.resolved ++ []).
Proof.
  assert (forall i, In i (identities Sample.db0) -> identity_environment_id i = 1 ->
                    identifier i <> "ghost"%string) as Hghost.
  { intros i Hi _. cbn in Hi.
    destruct Hi as [<- | [<- | [<- | [<- | [<- | []]]]]]; discriminate. }
  split; [exact Hghost |].
  exact (proj2 (proj2 (unresolved_identifier_dropped Sample.clock Sample.db0
                         Sample.checkout 1 Sample.resolved []
                         "ghost"%string Hghost))).
Defined.

Lemma environment_without_evaluations_untouched_witness :
  pk_unique Sample.db0
  /\ update_features_split_tests Sample.settings Sample.clocks Sample.db0 1
     = Ok Sample.db_checkout
  /\ filter (fun st => st_environment_id st =? 2) (split_tests Sample.db_checkout)
     = filter (fun st => st_environment_id st =? 2) (split_tests Sample.db0).
Proof.
  assert (pk_unique Sample.db0) as Hpk.
  { unfold pk_unique. cbn. repeat constructor; cbn; intuition discriminate. }
  split; [exact Hpk |]. split; [reflexivity |].
  refine (proj2 (environment_without_evaluations_untouched Sample.settings
                   Sample.clocks Sample.db0 Sample.db_checkout 1 2 Hpk eq_refl _)).
  intros f r Hf Hid Hr Hname Henv. cbn in Hf, Hr.
  destruct Hr as [<- | [<- | [<- | [<- | [<- | [<- | [<- | [<- | []]]]]]]]];
    try reflexivity; cbn in Henv; discriminate.
Defined.



(** ** Further properties of the aggregation *)

Section FurtherAggregation.

Context {C : Collaborators}.

Lemma dict_incr_Err (k : arm) (d : dict) (e : exn) :
  dict_incr k d = Err e -> e = KeyError /\ ~ In k (dict_keys d).
Proof.
  unfold dict_incr, dict_getitem. destruct (dict_get k d) as [v |] eqn:G; cbn [bind].
  - discriminate.
  - intros H. injection H as <-. split; [reflexivity |].
    intros Hin. apply dict_get_In_keys in Hin. destruct Hin as [v Hv]. congruence.
Qed.

Lemma aggregate_loop_sum_conversions (environment : Environment)
    (feature_state : FeatureState) (converted : list Z) (ids : list Identity) :
  forall ec cc ec' cc',
    aggregate_loop environment feature_state converted ids ec cc = Ok (ec', cc') ->
    dict_sum cc'
    = dict_sum cc
      + Z.of_nat (List.length
                    (filter (fun i => existsb (Z.eqb (identity_id i)) converted) ids)).
Proof.
  induction ids as [| i ids IH]; intros ec cc ec' cc' H.
  - simpl in H. injection H as <- <-. simpl. lia.
  - cbn [aggregate_loop] in H.
    inv_bind H. rename a into ec1. inv_bind H. rename a into cc1.
    apply IH in H. rewrite H. cbn [filter].
    destruct (existsb (Z.eqb (identity_id i)) converted).
    + apply dict_incr_sum in Ha0. cbn [List.length]. lia.
    + injection Ha0 as <-. lia.
Qed.

(** An identity whose arm has no entry makes the loop stop with [KeyError],
    wherever it stands among the evaluated identities. *)
Lemma aggregate_loop_KeyError (environment : Environment)
    (feature_state : FeatureState) (converted : list Z) (ids : list Identity)
    (i : Identity) :
  forall ec cc,
    dict_keys cc = dict_keys ec ->
    In i ids ->
    ~ In (arm_of environment feature_state i) (dict_keys ec) ->
    aggregate_loop environment feature_state converted ids ec cc = Err KeyError.
Proof.
  induction ids as [| j ids IH]; intros ec cc Hk Hin Hnot; [destruct Hin |].
  cbn [aggregate_loop].
  destruct (dict_incr (arm_of environment feature_state j) ec) as [ec1 | e] eqn:He;
    cbn [bind].
  - pose proof (dict_incr_keys _ _ _ He) as Hk1.
    assert (exists cc1,
               (if existsb (Z.eqb (identity_id j)) converted
                then dict_incr (arm_of environment feature_state j) cc
                else Ok cc) = Ok cc1 /\ dict_keys cc1 = dict_keys cc)
      as [cc1 [Hc Hkc]].
    { destruct (existsb _ converted); [| eauto].
      destruct (dict_incr_defined (arm_of environment feature_state j) cc)
        as [cc1 Hc].
      - rewrite Hk. apply dict_incr_Ok in He. destruct He as [v [G _]].
        apply dict_get_In_keys. eauto.
      - exists cc1. split; [exact Hc | now apply dict_incr_keys in Hc]. }
    rewrite Hc. cbn [bind]. apply IH.
    + congruence.
    + destruct Hin as [-> | Hin]; [| exact Hin].
      exfalso. apply Hnot. apply dict_incr_Ok in He. destruct He as [v [G _]].
      apply dict_get_In_keys. eauto.
    + now rewrite Hk1.
  - apply dict_incr_Err in He. destruct He as [-> _]. reflexivity.
Qed.

Variables (db : Db) (feature : Feature) (environment_id : Z).

(** X1: an arm's evaluation count is the number of evaluated identities the
    resolver puts into that arm. *)
Theorem evaluation_count_is_arm_size (ids : list string) (ec cc : dict) :
  aggregate db feature environment_id ids = Ok (ec, cc) ->
  exists environment feature_state,
    objects_get (fun e => env_id e =? environment_id) (environments db)
    = Ok environment
    /\ objects_get (fun fs => fs_environment_id fs =? environment_id)
                   (feature_states_of db feature) = Ok feature_state
    /\ forall k e, dict_get k ec = Some e ->
         e = tally environment feature_state (fun _ => true) k
                   (evaluated_identities_qs db environment_id ids).
Proof.
  intros H. apply aggregate_Ok in H.
  destruct H as [environment [feature_state [He [Hf H]]]].
  exists environment, feature_state. split; [exact He |]. split; [exact Hf |].
  intros k e Hk.
  pose proof (aggregate_loop_keys _ _ _ _ _ _ _ _ H) as [Hkeys _].
  apply aggregate_loop_counts in H. destruct H as [Hec _].
  assert (exists v, dict_get k (init_counts (multivariate_options_of db feature))
                    = Some v) as [v Hv].
  { apply dict_get_In_keys. rewrite <- Hkeys. apply dict_get_In_keys. eauto. }
  assert (v = 0) as -> by (eapply init_counts_zero; eassumption).
  rewrite (Hec k 0 Hv) in Hk. injection Hk as <-. now rewrite ?Z.add_0_l.
Qed.

(** X2: the conversion counts of all arms add up to the number of evaluated
    identities that have a conversion event in the environment. *)
Theorem conversion_counts_sum (ids : list string) (ec cc : dict) :
  aggregate db feature environment_id ids = Ok (ec, cc) ->
  dict_sum cc
  = Z.of_nat (List.length
                (filter (has_conversion db environment_id)
                        (evaluated_identities_qs db environment_id ids))).
Proof.
  intros H. apply aggregate_Ok in H.
  destruct H as [environment [feature_state [He [_ H]]]].
  apply aggregate_loop_sum_conversions in H. rewrite H.
  rewrite all_zero_sum by (apply init_counts_NoDup || apply init_counts_zero).
  rewrite Z.add_0_l. do 2 f_equal. apply filter_ext_in. intros i Hi.
  apply conversion_identities_mem; [| exact Hi].
  apply objects_get_Ok in He. destruct He as [_ [_ He]]. now apply Z.eqb_eq in He.
Qed.

(** X3: when the resolver hands back an option that is not configured for
    the feature, for any one of the evaluated identities, the run stops with
    [KeyError] and writes nothing. *)
Theorem unconfigured_option_raises_KeyError (clock : nat -> time_t)
    (ids : list string) (environment : Environment) (feature_state : FeatureState)
    (i : Identity) :
  objects_get (fun e => env_id e =? environment_id) (environments db)
  = Ok environment ->
  objects_get (fun fs => fs_environment_id fs =? environment_id)
              (feature_states_of db feature) = Ok feature_state ->
  In i (evaluated_identities_qs db environment_id ids) ->
  ~ configured_arm (multivariate_options_of db feature)
                   (arm_of environment feature_state i) ->
  aggregate db feature environment_id ids = Err KeyError
  /\ _save_environment_split_test clock db feature environment_id ids
     = Err KeyError.
Proof.
  intros He Hf Hi Hnot.
  assert (aggregate_loop environment feature_state
            (conversion_identities db environment
               (evaluated_identities_qs db environment_id ids))
            (evaluated_identities_qs db environment_id ids)
            (init_counts (multivariate_options_of db feature))
            (init_counts (multivariate_options_of db feature)) = Err KeyError)
    as Hloop.
  { apply aggregate_loop_KeyError with (i := i); [reflexivity | exact Hi |].
    intros Hin. apply Hnot. now apply init_counts_keys. }
  unfold aggregate, _save_environment_split_test.
  rewrite He, Hf. cbn [bind]. rewrite Hloop. split; reflexivity.
Qed.

(** X4: a conversion event recorded in another environment changes no
    count, even for an identity that was evaluated. *)
Theorem other_environment_conversion_not_counted (ids : list string)
    (ce : ConversionEvent) :
  ce_environment_id ce <> environment_id ->
  aggregate (record_conversion db ce) feature environment_id ids
  = aggregate db feature environment_id ids.
Proof.
  intros Hne. unfold aggregate. cbn [record_conversion environments].
  destruct (objects_get _ (environments db)) as [environment |] eqn:He;
    [| reflexivity].
  cbn [bind].
  change (feature_states_of (record_conversion db ce) feature)
    with (feature_states_of db feature).
  destruct (objects_get _ (feature_states_of db feature)) as [feature_state |];
    [| reflexivity].
  cbn [bind].
  change (evaluated_identities_qs (record_conversion db ce) environment_id ids)
    with (evaluated_identities_qs db environment_id ids).
  change (multivariate_options_of (record_conversion db ce) feature)
    with (multivariate_options_of db feature).
  f_equal. unfold conversion_identities. cbn [record_conversion conversion_events].
  rewrite filter_app. cbn [filter].
  apply objects_get_Ok in He. destruct He as [_ [_ He]]. apply Z.eqb_eq in He.
  assert ((ce_environment_id ce =? env_id environment) = false) as ->
    by (apply Z.eqb_neq; congruence).
  cbn [andb]. now rewrite app_nil_r.
Qed.

(** X5: an identity stored in another environment is never counted, even
    when its identifier is among the evaluated ones. *)
Theorem other_environment_identity_not_counted (clock : nat -> time_t)
    (ids : list string) (i : Identity) :
  identity_environment_id i <> environment_id ->
  aggregate (record_identity db i) feature environment_id ids
  = aggregate db feature environment_id ids
  /\ (forall db', _save_environment_split_test clock db feature environment_id ids
                  = Ok db' ->
       exists db'', _save_environment_split_test clock (record_identity db i)
                      feature environment_id ids = Ok db''
                    /\ split_tests db'' = split_tests db').
Proof.
  intros Hne.
  assert (evaluated_identities_qs (record_identity db i) environment_id ids
          = evaluated_identities_qs db environment_id ids) as Hqs.
  { unfold evaluated_identities_qs. cbn [record_identity identities].
    rewrite filter_app. cbn [filter].
    assert ((identity_environment_id i =? environment_id) = false) as ->
      by now apply Z.eqb_neq.
    cbn [andb]. now rewrite app_nil_r. }
  split.
  - unfold aggregate. rewrite Hqs. reflexivity.
  - intros db' H. unfold _save_environment_split_test in *.
    rewrite Hqs. cbn [record_identity environments].
    change (feature_states_of (record_identity db i) feature)
      with (feature_states_of db feature).
    change (multivariate_options_of (record_identity db i) feature)
      with (multivariate_options_of db feature).
    inv_bind H. rename a into environment. rewrite Ha. cbn [bind].
    inv_bind H. rename a into feature_state. rewrite Ha0. cbn [bind].
    inv_bind H. destruct a as [ec cc].
    change (conversion_identities (record_identity db i) environment)
      with (conversion_identities db environment).
    rewrite Ha1. cbn [bind].
    inv_bind H. rename a into pv. rewrite Ha2. cbn [bind].
    inv_bind H. destruct a as [new ex].
    change (qs_existing_split_tests (record_identity db i) feature environment)
      with (qs_existing_split_tests db feature environment).
    rewrite Ha3. cbn [bind]. injection H as <-.
    eexists. split; reflexivity.
Qed.

End FurtherAggregation.

(** ** Further properties of one run *)

Section FurtherRun.

Context {C : Collaborators}.

Lemma dict_get_In (d : dict) (k : arm) (v : Z) :
  dict_get k d = Some v -> In (k, v) d.
Proof.
  induction d as [| [k' v'] d IH]; cbn [dict_get In]; [discriminate |].
  destruct (arm_eqb k k') eqn:E.
  - apply arm_eqb_eq in E. intros H. injection H as ->. subst. now left.
  - intros H. right. now apply IH.
Qed.

Lemma bulk_update_nil (table : list SplitTest) : bulk_update [] table = table.
Proof. unfold bulk_update. cbn [find]. apply map_id. Qed.

Lemma Forall_absurd {A : Type} (P : A -> Prop) (l : list A) :
  Forall P l -> (forall x, In x l -> ~ P x) -> l = [].
Proof.
  intros HF Hno. destruct l as [| x l]; [reflexivity |].
  inversion HF; subst. exfalso. apply (Hno x); [now left | assumption].
Qed.

Lemma out_of_scope_matches (feature : Feature) (environment : Environment)
    (k : arm) (st : SplitTest) :
  row_matches feature environment k st = true ->
  out_of_scope feature (env_id environment) st = false.
Proof.
  unfold row_matches, out_of_scope. intros H.
  apply andb_true_iff in H. destruct H as [H _]. now rewrite H.
Qed.

Variables (clock : nat -> time_t) (db : Db) (feature : Feature).
Variables (environment_id : Z) (ids : list string).

(** X6: after a run every arm's row shows what the run computed: the
    evaluation count and the conversion count of that arm and the one
    p-value of the run, the same on all rows. *)
Theorem run_persists_aggregate (db' : Db) :
  pk_unique db ->
  _save_environment_split_test clock db feature environment_id ids = Ok db' ->
  exists ec cc pv,
    aggregate db feature environment_id ids = Ok (ec, cc)
    /\ gather_split_test_metrics ec cc = Ok pv
    /\ forall k ev, dict_get k ec = Some ev ->
         exists row cv,
           In row (split_tests db')
           /\ row_key row = (feature_id feature, environment_id, k)
           /\ dict_get k cc = Some cv
           /\ row_results row = (ev, cv, pv).
Proof.
  intros Hpk H. apply save_Ok in H.
  destruct H as [environment [ec [cc [pv [new [ex [He [Hagg [Hg [Hrec ->]]]]]]]]]].
  exists ec, cc, pv. split; [exact Hagg |]. split; [exact Hg |].
  intros k ev Hk. cbn [with_split_tests split_tests].
  pose proof (aggregate_keys _ _ _ _ _ _ Hagg) as [Hkec _].
  assert (NoDup (dict_keys ec)) as Hnd by (rewrite Hkec; apply init_counts_NoDup).
  destruct (first_match_after_run db feature environment ec cc pv clock new ex
              Hpk Hnd Hrec k ev (dict_get_In ec k ev Hk)) as [r [cv [Hcv [Hr Hres]]]].
  apply find_some in Hr. destruct Hr as [Hin Hm].
  apply row_matches_true in Hm.
  apply objects_get_Ok in He. destruct He as [_ [_ He]]. apply Z.eqb_eq in He.
  exists r, cv. rewrite <- He. auto.
Qed.

(** X7: a run touches only the rows of its own feature and environment:
    every other row of the table is left exactly as it was, time stamp
    included, and none is added. *)
Theorem run_leaves_other_rows (db' : Db) :
  pk_unique db ->
  _save_environment_split_test clock db feature environment_id ids = Ok db' ->
  filter (out_of_scope feature environment_id) (split_tests db')
  = filter (out_of_scope feature environment_id) (split_tests db).
Proof.
  intros Hpk H. apply save_Ok in H.
  destruct H as [environment [ec [cc [pv [new [ex [He [_ [_ [Hrec ->]]]]]]]]]].
  cbn [with_split_tests split_tests].
  apply objects_get_Ok in He. destruct He as [_ [_ He]]. apply Z.eqb_eq in He.
  subst environment_id.
  apply reconcile_loop_spec in Hrec.
  destruct Hrec as [new1 [ex1 [-> [-> [_ [Hnew [Hx _]]]]]]]. cbn [app].
  rewrite Forall_forall in Hnew, Hx.
  unfold bulk_create. rewrite filter_app.
  rewrite (filter_none _ (assign_ids _ new1)).
  - rewrite app_nil_r. unfold bulk_update. apply filter_map_fixed.
    intros row Hrow.
    destruct (find (fun o => st_id o =? st_id row) ex1) as [o |] eqn:F;
      [| split; reflexivity].
    split; [reflexivity |]. intros Hout. exfalso.
    apply find_some in F. destruct F as [Ho Hid]. apply Z.eqb_eq in Hid.
    destruct (Hx o Ho) as [kv [cv [st [t [_ [_ [Hst ->]]]]]]].
    rewrite existing_for_find in Hst. apply find_some in Hst.
    destruct Hst as [HstIn Hm]. cbn [set_results st_id] in Hid.
    assert (st = row) as -> by (eapply NoDup_map_eq; eassumption).
    apply out_of_scope_matches in Hm. congruence.
  - intros r Hr. apply assign_ids_In in Hr. destruct Hr as [o [Ho [Hk _]]].
    destruct (Hnew o Ho) as [kv [cv [_ [_ [_ ->]]]]].
    unfold row_key in Hk. cbn in Hk. injection Hk as Hf Hk _.
    unfold out_of_scope. rewrite Hf, Hk, !Z.eqb_refl. reflexivity.
Qed.

(** X8: when the table has no row yet for the feature and environment, a
    run changes no stored row and appends one row per arm, in the order of
    the count dictionary: the configured options first, the control group
    last. *)
Theorem first_run_creates_one_row_per_arm (db' : Db) :
  (forall st, In st (split_tests db) ->
              out_of_scope feature environment_id st = true) ->
  _save_environment_split_test clock db feature environment_id ids = Ok db' ->
  exists rows,
    split_tests db' = split_tests db ++ rows
    /\ map row_key rows
       = map (fun k => (feature_id feature, environment_id, k))
             (dict_keys (init_counts (multivariate_options_of db feature))).
Proof.
  intros Hnone H. apply save_Ok in H.
  destruct H as [environment [ec [cc [pv [new [ex [He [Hagg [_ [Hrec ->]]]]]]]]]].
  cbn [with_split_tests split_tests].
  apply objects_get_Ok in He. destruct He as [_ [_ He]]. apply Z.eqb_eq in He.
  subst environment_id.
  assert (forall k, existing_for (qs_existing_split_tests db feature environment) k
                    = None) as Hmiss.
  { intros k. rewrite existing_for_find.
    destruct (find _ (split_tests db)) as [st |] eqn:F; [| reflexivity].
    apply find_some in F. destruct F as [Hin Hm].
    apply out_of_scope_matches in Hm. rewrite (Hnone st Hin) in Hm. discriminate. }
  apply reconcile_loop_spec in Hrec.
  destruct Hrec as [new1 [ex1 [-> [-> [Hm [Hnew [Hx _]]]]]]]. cbn [app].
  assert (ex1 = []) as ->.
  { apply (Forall_absurd _ _ Hx). intros o _ [kv [cv [st [t [_ [_ [Hst _]]]]]]].
    rewrite Hmiss in Hst. discriminate. }
  rewrite bulk_update_nil. unfold bulk_create. eexists. split; [reflexivity |].
  rewrite assign_ids_key.
  pose proof (aggregate_keys _ _ _ _ _ _ Hagg) as [Hkec _].
  rewrite <- Hkec.
  assert (map multivariate_feature_option_id new1 = dict_keys ec) as Harms.
  { rewrite Hm. unfold dict_keys. apply forallb_filter_id.
    apply forallb_forall. intros k _. now rewrite Hmiss. }
  rewrite <- Harms, map_map. clear Hm Harms.
  induction Hnew as [| o l Ho _ IH]; [reflexivity |].
  cbn [map]. rewrite IH. f_equal.
  destruct Ho as [kv [cv [_ [_ [_ ->]]]]]. reflexivity.
Qed.

(** X9: a feature with two feature states in the environment, as overrides
    add them, makes the run stop with [MultipleObjectsReturned] at the
    feature-state lookup, before anything is counted or written. *)
Theorem second_feature_state_raises (environment : Environment)
    (fs1 fs2 : FeatureState) :
  objects_get (fun e => env_id e =? environment_id) (environments db)
  = Ok environment ->
  In fs1 (feature_states db) -> In fs2 (feature_states db) -> fs1 <> fs2 ->
  fs_feature_id fs1 = feature_id feature -> fs_environment_id fs1 = environment_id ->
  fs_feature_id fs2 = feature_id feature -> fs_environment_id fs2 = environment_id ->
  _save_environment_split_test clock db feature environment_id ids
  = Err MultipleObjectsReturned.
Proof.
  intros He H1 H2 Hne Hf1 He1 Hf2 He2.
  unfold _save_environment_split_test. rewrite He. cbn [bind].
  assert (forall fs, In fs (feature_states db) ->
                     fs_feature_id fs = feature_id feature ->
                     fs_environment_id fs = environment_id ->
                     In fs (filter (fun fs => fs_environment_id fs =? environment_id)
                                   (feature_states_of db feature))) as Hin.
  { intros fs Hfs Hf Hfe. apply filter_In. split.
    - apply filter_In. split; [exact Hfs | now apply Z.eqb_eq].
    - now apply Z.eqb_eq. }
  pose proof (Hin fs1 H1 Hf1 He1) as Hin1.
  pose proof (Hin fs2 H2 Hf2 He2) as Hin2.
  unfold objects_get.
  destruct (filter _ (feature_states_of db feature)) as [| x [| y l]];
    [destruct Hin1 | | reflexivity].
  destruct Hin1 as [<- | []]. destruct Hin2 as [<- | []]. contradiction.
Qed.

(** X19: a stored row whose arm is not configured for the feature any
    more is left exactly as it was: a run neither updates nor removes it. *)
Theorem stale_row_left_alone (db' : Db) (row : SplitTest) :
  pk_unique db ->
  _save_environment_split_test clock db feature environment_id ids = Ok db' ->
  In row (split_tests db) ->
  ~ configured_arm (multivariate_options_of db feature)
                   (multivariate_feature_option_id row) ->
  In row (split_tests db').
Proof.
  intros Hpk H Hrow Hstale. apply save_Ok in H.
  destruct H as [environment [ec [cc [pv [new [ex [_ [Hagg [_ [Hrec ->]]]]]]]]]].
  cbn [with_split_tests split_tests].
  apply reconcile_loop_spec in Hrec.
  destruct Hrec as [new1 [ex1 [-> [-> [_ [_ [Hx _]]]]]]]. cbn [app].
  rewrite Forall_forall in Hx.
  unfold bulk_create. apply in_or_app. left.
  unfold bulk_update. apply in_map_iff. exists row. split; [| exact Hrow].
  destruct (find (fun o => st_id o =? st_id row) ex1) as [o |] eqn:F;
    [| reflexivity].
  exfalso. apply find_some in F. destruct F as [Ho Hid]. apply Z.eqb_eq in Hid.
  destruct (Hx o Ho) as [kv [cv [st [t [Hkv [_ [Hst ->]]]]]]].
  rewrite existing_for_find in Hst. apply find_some in Hst.
  destruct Hst as [HstIn Hm]. cbn [set_results st_id] in Hid.
  assert (st = row) as -> by (eapply NoDup_map_eq; eassumption).
  apply row_matches_true in Hm. unfold row_key in Hm. injection Hm as _ _ Hm.
  apply Hstale. rewrite Hm. apply init_counts_keys.
  pose proof (aggregate_keys _ _ _ _ _ _ Hagg) as [Hkec _].
  rewrite <- Hkec. apply in_map_iff. exists kv. auto.
Qed.

End FurtherRun.

(** ** Further properties of the work item and the fan-out *)

Section FurtherWorkItem.

Context {C : Collaborators}.

Lemma distinct_NoDup (rows : list (Z * string)) :
  forall seen, NoDup (distinct seen rows).
Proof.
  induction rows as [| r rows IH]; intros seen; cbn [distinct]; [constructor |].
  destruct (existsb (pair_eqb r) seen); [apply IH |].
  constructor; [| apply IH].
  intros Hin. apply distinct_In_iff in Hin. destruct Hin as [_ Hnot].
  apply Hnot. now left.
Qed.

Lemma defaultdict_get_append_eq (k : Z) (v : string) (d : defaultdict) (e : Z) :
  defaultdict_get e (defaultdict_append k v d)
  = if e =? k then defaultdict_get e d ++ [v] else defaultdict_get e d.
Proof.
  induction d as [| [k' vs] d IH]; cbn [defaultdict_append defaultdict_get].
  - destruct (e =? k); reflexivity.
  - destruct (k =? k') eqn:Ek; cbn [defaultdict_get].
    + apply Z.eqb_eq in Ek. subst k'. destruct (e =? k); reflexivity.
    + rewrite IH. destruct (e =? k') eqn:E; [| reflexivity].
      apply Z.eqb_eq in E. subst k'. rewrite Z.eqb_sym, Ek. reflexivity.
Qed.

Lemma defaultdict_get_key (d : defaultdict) (e : Z) (u : string) :
  In u (defaultdict_get e d) -> In e (map fst d).
Proof.
  induction d as [| [k' vs] d IH]; cbn [defaultdict_get map fst In]; [intros [] |].
  destruct (e =? k') eqn:E.
  - apply Z.eqb_eq in E. auto.
  - intros H. right. now apply IH.
Qed.

Lemma group_by_environment_NoDup (rows : list (Z * string)) :
  forall d,
    NoDup rows ->
    (forall e, NoDup (defaultdict_get e d)) ->
    (forall e u, In u (defaultdict_get e d) -> ~ In (e, u) rows) ->
    forall e,
      NoDup (defaultdict_get e
               (fold_left (fun d row => defaultdict_append (fst row) (snd row) d)
                          rows d)).
Proof.
  induction rows as [| [e0 u0] rows IH]; intros d Hn Hd Hnew e; cbn [fold_left].
  - apply Hd.
  - inversion Hn as [| ? ? Hhead Hn']; subst. cbn [fst snd]. apply IH.
    + exact Hn'.
    + intros e'. rewrite defaultdict_get_append_eq.
      destruct (e' =? e0) eqn:E; [| apply Hd].
      apply Z.eqb_eq in E. subst e'.
      apply NoDup_app; [apply Hd | constructor; [intros [] | constructor] |].
      intros u Hu [Eu | []]. apply (Hnew e0 u Hu). left. now rewrite Eu.
    + intros e' u. rewrite defaultdict_get_append_eq.
      destruct (e' =? e0) eqn:E.
      * apply Z.eqb_eq in E. subst e'. rewrite in_app_iff. cbn [In].
        intros [Hu | [Eu | []]]; [| now rewrite <- Eu].
        intros Hin. apply (Hnew e0 u Hu). now right.
      * intros Hu Hin. apply (Hnew e' u Hu). now right.
Qed.

Lemma group_by_environment_nonempty (rows : list (Z * string)) :
  forall d,
    (forall kv, In kv d -> snd kv <> []) ->
    forall kv,
      In kv (fold_left (fun d row => defaultdict_append (fst row) (snd row) d)
                       rows d) ->
      snd kv <> [].
Proof.
  induction rows as [| [e0 u0] rows IH]; intros d Hd kv; cbn [fold_left];
    [apply Hd |].
  apply IH. clear kv. cbn [fst snd]. intros kv.
  induction d as [| [k' vs] d IHd]; cbn [defaultdict_append In].
  - intros [<- | []]. discriminate.
  - destruct (e0 =? k'); cbn [In].
    + intros [<- | Hin]; [| apply Hd; now right].
      cbn [snd]. destruct vs; discriminate.
    + intros [<- | Hin]; [apply Hd; now left |].
      apply IHd; [| exact Hin]. intros kv' Hkv'. apply Hd. now right.
Qed.

Lemma environment_identifiers_NoDup_keys (db : Db) (feature : Feature) :
  NoDup (map fst (environment_identifiers db feature)).
Proof.
  unfold environment_identifiers, group_by_environment.
  apply group_by_environment_spec. constructor.
Qed.

Lemma environment_identifiers_environment (db : Db) (feature : Feature) (e : Z) :
  In e (map fst (environment_identifiers db feature)) ->
  In e (map fs_environment_id (feature_states_of db feature)).
Proof.
  unfold environment_identifiers, group_by_environment. intros Hkey.
  apply group_by_environment_keys in Hkey. destruct Hkey as [[] | Hkey].
  apply in_map_iff in Hkey. destruct Hkey as [[e' u'] [E Hk]]. cbn [fst] in E.
  subst e'. unfold qs_values_list in Hk. apply distinct_In in Hk.
  apply in_flat_map in Hk. destruct Hk as [r [_ Hk]].
  destruct (fer_identity_identifier r); [| destruct Hk].
  destruct (String.eqb _ _); [| destruct Hk].
  destruct (existsb (Z.eqb (fer_environment_id r))
                    (map fs_environment_id (feature_states_of db feature))) eqn:Ex;
    [| destruct Hk].
  destruct Hk as [Hk | []]. injection Hk as <- _.
  apply existsb_exists in Ex. destruct Ex as [x [Hx E]].
  apply Z.eqb_eq in E. now subst.
Qed.

Lemma same_data_environment_identifiers (db db' : Db) (feature : Feature) :
  same_data db db' ->
  environment_identifiers db' feature = environment_identifiers db feature.
Proof.
  intros [_ [_ [Hfs [_ [_ [Hraw _]]]]]].
  unfold environment_identifiers, qs_values_list, feature_states_of.
  now rewrite Hfs, Hraw.
Qed.

Lemma save_same_data (clock : nat -> time_t) (db db' : Db) (feature : Feature)
    (environment_id : Z) (ids : list string) :
  _save_environment_split_test clock db feature environment_id ids = Ok db' ->
  same_data db db'.
Proof.
  intros H. apply save_Ok in H.
  destruct H as [environment [ec [cc [pv [new [ex [_ [_ [_ [_ ->]]]]]]]]]].
  repeat split.
Qed.

Lemma same_data_trans (db1 db2 db3 : Db) :
  same_data db1 db2 -> same_data db2 db3 -> same_data db1 db3.
Proof.
  unfold same_data. intros H12 H23.
  destruct H12 as [A1 [A2 [A3 [A4 [A5 [A6 A7]]]]]].
  destruct H23 as [B1 [B2 [B3 [B4 [B5 [B6 B7]]]]]].
  repeat split; congruence.
Qed.

Lemma save_loop_frame (clocks : nat -> nat -> time_t) (feature : Feature)
    (items : defaultdict) :
  forall n db db',
    save_loop clocks feature items n db = Ok db' ->
    same_data db db'
    /\ (pk_unique db -> pk_unique db')
    /\ (one_row_per_arm db -> one_row_per_arm db')
    /\ exists rows,
         map row_ident (split_tests db') = map row_ident (split_tests db) ++ rows.
Proof.
  induction items as [| [environment_id ids] items IH]; intros n db db' H.
  - simpl in H. injection H as <-. split; [repeat split |].
    split; [auto |]. split; [auto |]. exists []. now rewrite app_nil_r.
  - cbn [save_loop] in H. inv_bind H. rename a into db1.
    destruct (IH _ _ _ H) as [Hsame [Hpk [Hone [rows Hrows]]]].
    pose proof (save_same_data _ _ _ _ _ _ Ha) as Hsame1.
    destruct (save_keeps_rows _ _ _ _ _ _ Ha) as [[rows1 Hrows1] [Hone1 Hpk1]].
    split; [eapply same_data_trans; eassumption |].
    split; [auto |]. split; [auto |].
    exists (rows1 ++ rows). now rewrite Hrows, Hrows1, app_assoc.
Qed.

(** X10: every environment the work item processes appears once, with a
    non-empty list of identifiers that holds no identifier twice, and is an
    environment in which the feature has a feature state. *)
Theorem environment_identifiers_deduplicated (db : Db) (feature : Feature) :
  NoDup (map fst (environment_identifiers db feature))
  /\ forall e ids, In (e, ids) (environment_identifiers db feature) ->
       NoDup ids /\ ids <> []
       /\ In e (map fs_environment_id (feature_states_of db feature)).
Proof.
  split; [apply environment_identifiers_NoDup_keys |].
  intros e ids Hin. split; [| split].
  - rewrite <- (defaultdict_In_get _ e ids
                  (environment_identifiers_NoDup_keys db feature) Hin).
    unfold environment_identifiers, group_by_environment.
    apply group_by_environment_NoDup.
    + unfold qs_values_list. apply distinct_NoDup.
    + intros e'. constructor.
    + intros e' u [].
  - unfold environment_identifiers, group_by_environment in Hin.
    apply (group_by_environment_nonempty _ [] (fun kv H => match H with end)
                                         (e, ids) Hin).
  - apply environment_identifiers_environment.
    apply in_map_iff. exists (e, ids). auto.
Qed.

(** X11: an environment is processed exactly when the feature has a feature
    state in it and the raw log holds an evaluation of the feature's name
    there with an identifier; the identifiers handed to the run are exactly
    the logged ones, so anonymous evaluations and evaluations of other
    features never contribute. *)
Theorem environment_identifiers_are_the_logged_ones (db : Db) (feature : Feature) :
  (forall e, In e (map fst (environment_identifiers db feature))
             <-> In e (map fs_environment_id (feature_states_of db feature))
                 /\ exists u, logged db feature e u = true)
  /\ (forall e ids, In (e, ids) (environment_identifiers db feature) ->
        forall u, In u ids <-> logged db feature e u = true).
Proof.
  split; [| apply environment_identifiers_spec].
  intros e. split.
  - intros Hkey. split; [now apply environment_identifiers_environment |].
    pose proof Hkey as Hentry.
    apply in_map_iff in Hentry. destruct Hentry as [[e' ids] [E Hin]].
    cbn [fst] in E. subst e'.
    assert (ids <> []) as Hne.
    { unfold environment_identifiers, group_by_environment in Hin.
      apply (group_by_environment_nonempty _ [] (fun kv H => match H with end)
                                           (e, ids) Hin). }
    destruct ids as [| u ids]; [contradiction |].
    exists u. apply (environment_identifiers_spec db feature e (u :: ids) Hin).
    now left.
  - intros [Henv [u Hu]].
    unfold environment_identifiers, group_by_environment.
    apply defaultdict_get_key with (u := u).
    apply group_by_environment_spec; [constructor |]. right.
    unfold qs_values_list. apply distinct_In_iff. split; [| intros []].
    unfold logged in Hu. apply existsb_exists in Hu. destruct Hu as [r [Hr H]].
    apply in_flat_map. exists r. split; [exact Hr |].
    apply andb_true_iff in H. destruct H as [H Hid].
    apply andb_true_iff in H. destruct H as [Hname He].
    apply Z.eqb_eq in He. subst e.
    destruct (fer_identity_identifier r) as [u' |]; [| discriminate].
    apply String.eqb_eq in Hid. subst u'. rewrite Hname.
    assert (existsb (Z.eqb (fer_environment_id r))
                    (map fs_environment_id (feature_states_of db feature)) = true)
      as ->.
    { apply existsb_exists. exists (fer_environment_id r).
      split; [exact Henv | apply Z.eqb_refl]. }
    now left.
Qed.

(** The processed environments, read off the raw log. *)
Lemma environment_identifiers_keys_iff (db : Db) (feature : Feature) (e : Z) :
  In e (map fst (environment_identifiers db feature))
  <-> In e (map fs_environment_id (feature_states_of db feature))
      /\ exists u, logged db feature e u = true.
Proof.
  split.
  - intros Hkey. split; [now apply environment_identifiers_environment |].
    pose proof Hkey as Hentry.
    apply in_map_iff in Hentry. destruct Hentry as [[e' ids] [E Hin]].
    cbn [fst] in E. subst e'.
    assert (ids <> []) as Hne.
    { unfold environment_identifiers, group_by_environment in Hin.
      apply (group_by_environment_nonempty _ [] (fun kv H => match H with end)
                                           (e, ids) Hin). }
    destruct ids as [| u ids]; [contradiction |].
    exists u. apply (environment_identifiers_spec db feature e (u :: ids) Hin).
    now left.
  - intros [Henv [u Hu]].
    unfold environment_identifiers, group_by_environment.
    apply defaultdict_get_key with (u := u).
    apply group_by_environment_spec; [constructor |]. right.
    unfold qs_values_list. apply distinct_In_iff. split; [| intros []].
    unfold logged in Hu. apply existsb_exists in Hu. destruct Hu as [r [Hr H]].
    apply in_flat_map. exists r. split; [exact Hr |].
    apply andb_true_iff in H. destruct H as [H Hid].
    apply andb_true_iff in H. destruct H as [Hname He].
    apply Z.eqb_eq in He. subst e.
    destruct (fer_identity_identifier r) as [u' |]; [| discriminate].
    apply String.eqb_eq in Hid. subst u'. rewrite Hname.
    assert (existsb (Z.eqb (fer_environment_id r))
                    (map fs_environment_id (feature_states_of db feature)) = true)
      as ->.
    { apply existsb_exists. exists (fer_environment_id r).
      split; [exact Henv | apply Z.eqb_refl]. }
    now left.
Qed.

(** The run reads the evaluated identifiers through membership only. *)
Lemma aggregate_ids_ext (db : Db) (feature : Feature) (environment_id : Z)
    (ids ids' : list string) :
  (forall u, In u ids <-> In u ids') ->
  aggregate db feature environment_id ids
  = aggregate db feature environment_id ids'.
Proof.
  intros Hmem.
  assert (evaluated_identities_qs db environment_id ids
          = evaluated_identities_qs db environment_id ids') as Hqs.
  { unfold evaluated_identities_qs. apply filter_ext. intros i. f_equal.
    apply eq_true_iff_eq. rewrite !existsb_exists. split.
    - intros [u [Hu E]]. exists u. split; [now apply Hmem | exact E].
    - intros [u [Hu E]]. exists u. split; [now apply Hmem | exact E]. }
  unfold aggregate. now rewrite Hqs.
Qed.

(** X12: an evaluation that is anonymous, or names another feature, or
    repeats one already in the log, changes nothing in what the work item
    processes, wherever it stands in the log: the same environments are
    processed, each with the same identifiers, and the counts of each are
    the same. *)
Theorem redundant_evaluation_changes_nothing (db : Db) (feature : Feature)
    (l1 l2 : list FeatureEvaluationRaw) (r : FeatureEvaluationRaw) :
  feature_evaluations_raw db = l1 ++ l2 ->
  fer_identity_identifier r = None
  \/ fer_feature_name r <> feature_name feature
  \/ already_logged db r ->
  (forall e,
      In e (map fst (environment_identifiers (with_raw_log db (l1 ++ r :: l2))
                                             feature))
      <-> In e (map fst (environment_identifiers db feature)))
  /\ (forall e ids ids',
        In (e, ids) (environment_identifiers (with_raw_log db (l1 ++ r :: l2))
                                             feature) ->
        In (e, ids') (environment_identifiers db feature) ->
        (forall u, In u ids <-> In u ids')
        /\ aggregate (with_raw_log db (l1 ++ r :: l2)) feature e ids
           = aggregate db feature e ids').
Proof.
  intros Hlog Hr.
  assert (forall e u,
            logged (with_raw_log db (l1 ++ r :: l2)) feature e u
            = logged db feature e u) as Hlogged.
  { intros e u. unfold logged. cbn [with_raw_log feature_evaluations_raw].
    rewrite Hlog. apply eq_true_iff_eq. rewrite !existsb_exists. split.
    - intros [x [Hx Hp]]. apply in_app_iff in Hx.
      destruct Hx as [Hx | [<- | Hx]].
      + exists x. split; [apply in_or_app; now left | exact Hp].
      + apply andb_true_iff in Hp. destruct Hp as [Hp Hu].
        apply andb_true_iff in Hp. destruct Hp as [Hn He].
        destruct Hr as [Hnone | [Hname | [r0 [Hin [Hn0 [He0 Hu0]]]]]].
        * rewrite Hnone in Hu. discriminate.
        * apply String.eqb_eq in Hn. contradiction.
        * exists r0. rewrite Hlog in Hin. split; [exact Hin |].
          now rewrite Hn0, He0, Hu0, Hn, He, Hu.
      + exists x. split; [apply in_or_app; now right | exact Hp].
    - intros [x [Hx Hp]]. exists x. split; [| exact Hp].
      apply in_app_iff in Hx. apply in_or_app. cbn [In]. tauto. }
  split.
  - intros e. rewrite !environment_identifiers_keys_iff.
    change (feature_states_of (with_raw_log db (l1 ++ r :: l2)) feature)
      with (feature_states_of db feature).
    split; intros [He [u Hu]]; (split; [exact He |]); exists u.
    + now rewrite <- Hlogged.
    + now rewrite Hlogged.
  - intros e ids ids' Hin Hin'.
    assert (forall u, In u ids <-> In u ids') as Hmem.
    { intros u.
      rewrite (environment_identifiers_spec _ feature e ids Hin u).
      rewrite (environment_identifiers_spec _ feature e ids' Hin' u).
      now rewrite Hlogged. }
    split; [exact Hmem |].
    rewrite <- (aggregate_ids_ext db feature e ids ids' Hmem). reflexivity.
Qed.

(** X13: the work item changes nothing but the result table, keeps primary
    keys unique and rows unique per (feature, environment, arm), and keeps
    every stored row in place with its primary key and key columns. *)
Theorem work_item_frame (settings : Settings) (clocks : nat -> nat -> time_t)
    (db db' : Db) (feature_id' : Z) :
  update_features_split_tests settings clocks db feature_id' = Ok db' ->
  same_data db db'
  /\ (pk_unique db -> pk_unique db')
  /\ (one_row_per_arm db -> one_row_per_arm db')
  /\ exists rows,
       map row_ident (split_tests db') = map row_ident (split_tests db) ++ rows.
Proof.
  unfold update_features_split_tests. intros H. inv_bind H. inv_bind H.
  now apply save_loop_frame in H.
Qed.

(** X14: for a feature whose name the raw log never holds with an
    identifier, the work item returns without touching the database. *)
Theorem no_identified_evaluation_no_change (settings : Settings)
    (clocks : nat -> nat -> time_t) (db : Db) (feature : Feature) :
  USE_POSTGRES_FOR_ANALYTICS settings = true ->
  objects_get (fun f => feature_id f =? feature_id feature) (features db)
  = Ok feature ->
  (forall r, In r (feature_evaluations_raw db) ->
             fer_feature_name r = feature_name feature ->
             fer_identity_identifier r = None) ->
  update_features_split_tests settings clocks db (feature_id feature) = Ok db.
Proof.
  intros Hflag Hget Hraw. unfold update_features_split_tests.
  rewrite Hflag, Hget. cbn [assert bind].
  destruct (environment_identifiers db feature) as [| [e ids] items] eqn:E;
    [reflexivity |].
  exfalso.
  assert (In e (map fst (environment_identifiers db feature))) as Hkey
    by (rewrite E; now left).
  apply environment_identifiers_keys in Hkey.
  destruct Hkey as [r [u [Hr [Hn [_ Hu]]]]].
  rewrite (Hraw r Hr Hn) in Hu. discriminate.
Qed.

(** X15: within the work item the feature-state lookup of a processed
    environment never fails with [DoesNotExist]: it finds the feature state,
    or there are several and it raises [MultipleObjectsReturned]. *)
Theorem processed_environment_has_feature_state (db : Db) (feature : Feature)
    (e : Z) (ids : list string) :
  In (e, ids) (environment_identifiers db feature) ->
  (exists fs, objects_get (fun fs => fs_environment_id fs =? e)
                          (feature_states_of db feature) = Ok fs)
  \/ objects_get (fun fs => fs_environment_id fs =? e)
                 (feature_states_of db feature) = Err MultipleObjectsReturned.
Proof.
  intros Hin.
  assert (In e (map fs_environment_id (feature_states_of db feature))) as Henv.
  { apply environment_identifiers_environment.
    apply in_map_iff. exists (e, ids). auto. }
  apply in_map_iff in Henv. destruct Henv as [fs [He Hfs]].
  assert (In fs (filter (fun fs => fs_environment_id fs =? e)
                        (feature_states_of db feature))) as Hf
    by (apply filter_In; split; [exact Hfs | now apply Z.eqb_eq]).
  unfold objects_get.
  destruct (filter _ (feature_states_of db feature)) as [| x [| y l]];
    [destruct Hf | left; eauto | now right].
Qed.

(** X16: the fan-out dispatches one work item per multivariate feature and
    none for any other feature; with the analytics setting off it raises
    [AssertionError], and so does the work item, before reading anything. *)
Theorem fan_out_dispatches_multivariate_features (settings : Settings)
    (clocks : nat -> nat -> time_t) (db : Db) :
  (USE_POSTGRES_FOR_ANALYTICS settings = true ->
   exists dispatched,
     _update_split_tests settings db = Ok dispatched
     /\ List.length dispatched
        = List.length (filter (fun f => FeatureType_eqb (feature_type f) MULTIVARIATE)
                              (features db))
     /\ forall id, In id dispatched
                   <-> exists f, In f (features db) /\ feature_id f = id
                                 /\ feature_type f = MULTIVARIATE)
  /\ (USE_POSTGRES_FOR_ANALYTICS settings = false ->
      _update_split_tests settings db = Err AssertionError
      /\ forall feature_id',
           update_features_split_tests settings clocks db feature_id'
           = Err AssertionError).
Proof.
  split; intros Hflag.
  - unfold _update_split_tests. rewrite Hflag. cbn [assert bind].
    eexists. split; [reflexivity |]. split; [apply length_map |].
    intros id. rewrite in_map_iff. split.
    + intros [f [<- Hf]]. apply filter_In in Hf. destruct Hf as [Hf Ht].
      exists f. repeat split; [exact Hf |].
      destruct (feature_type f); [discriminate | reflexivity].
    + intros [f [Hf [<- Ht]]]. exists f. split; [reflexivity |].
      apply filter_In. split; [exact Hf |]. now rewrite Ht.
  - unfold _update_split_tests, update_features_split_tests.
    rewrite Hflag. cbn [assert bind]. split; reflexivity.
Qed.

End FurtherWorkItem.

(** ** Running the work item twice *)

Section WorkItemTwice.

Context {C : Collaborators}.

Lemma find_map_fixed {A : Type} (p : A -> bool) (g : A -> A) (l : list A) :
  (forall x, In x l -> p (g x) = p x /\ (p x = true -> g x = x)) ->
  find p (map g l) = find p l.
Proof.
  induction l as [| x l IH]; intros H; [reflexivity |].
  cbn [map find]. destruct (H x (or_introl eq_refl)) as [Hp Hfix].
  rewrite Hp. destruct (p x) eqn:E.
  - now rewrite Hfix.
  - apply IH. intros y Hy. apply H. now right.
Qed.

Lemma aggregate_same_data (db db' : Db) (feature : Feature) (environment_id : Z)
    (ids : list string) :
  same_data db db' ->
  aggregate db' feature environment_id ids
  = aggregate db feature environment_id ids.
Proof.
  intros [_ [He [Hfs [Hmv [Hid [_ Hce]]]]]].
  unfold aggregate, evaluated_identities_qs, feature_states_of,
    multivariate_options_of, conversion_identities.
  now rewrite He, Hfs, Hmv, Hid, Hce.
Qed.

(** A run on a table that is settled for its environment goes through and
    changes no value. *)
Lemma run_on_settled (clock : nat -> time_t) (db : Db) (feature : Feature)
    (environment_id : Z) (ids : list string) (environment : Environment)
    (ec cc : dict) (pv : pvalue_t) :
  pk_unique db ->
  objects_get (fun e => env_id e =? environment_id) (environments db)
  = Ok environment ->
  aggregate db feature environment_id ids = Ok (ec, cc) ->
  gather_split_test_metrics ec cc = Ok pv ->
  settled (split_tests db) feature environment ec cc pv ->
  exists db2,
    _save_environment_split_test clock db feature environment_id ids = Ok db2
    /\ map row_values (split_tests db2) = map row_values (split_tests db).
Proof.
  intros Hpk He Hagg Hg Hset.
  pose proof (aggregate_keys _ _ _ _ _ _ Hagg) as [Hkec Hkcc].
  destruct (reconcile_loop_defined clock
              (qs_existing_split_tests db feature environment)
              feature environment cc pv ec) with (new := @nil SplitTest)
                                                 (ex := @nil SplitTest)
    as [[new2 ex2] Hrec2].
  { intros kv Hin. rewrite Hkcc, <- Hkec. now apply in_map. }
  eexists. split; [eapply save_intro; eassumption |].
  cbn [with_split_tests split_tests].
  destruct (reconcile_loop_spec _ _ _ _ _ _ _ _ _ _ _ Hrec2)
    as [new1' [ex1' [Enew [Eex [Hm [_ [Hx _]]]]]]].
  cbn [app] in Enew, Eex. subst new1' ex1'.
  assert (new2 = []) as ->.
  { apply map_eq_nil with (f := multivariate_feature_option_id). rewrite Hm.
    apply filter_none. intros k Hk.
    apply in_map_iff in Hk. destruct Hk as [[k' ev] [<- Hin]]. cbn [fst].
    destruct (Hset k' ev Hin) as [r [cv [_ [E _]]]].
    rewrite existing_for_find, E. reflexivity. }
  unfold bulk_create. cbn [assign_ids]. rewrite app_nil_r.
  unfold bulk_update. rewrite map_map. apply map_ext_in. intros row Hrow.
  destruct (find (fun o => st_id o =? st_id row) ex2) as [o |] eqn:F;
    [| reflexivity].
  apply find_some in F. destruct F as [Ho Hid]. apply Z.eqb_eq in Hid.
  rewrite Forall_forall in Hx.
  destruct (Hx o Ho) as [[k ev] [cv [st [t [Hin [Hcv [Hst ->]]]]]]].
  cbn [fst snd] in *.
  destruct (Hset k ev Hin) as [r [cv' [Hcv' [Hr Hres]]]].
  rewrite existing_for_find in Hst. rewrite Hst in Hr. injection Hr as <-.
  apply find_some in Hst. destruct Hst as [HstIn _].
  cbn [set_results st_id] in Hid.
  assert (st = row) as -> by (eapply NoDup_map_eq; eassumption).
  unfold row_values, row_ident, row_key, row_results in *. cbn.
  injection Hres as -> E2 ->. rewrite E2. congruence.
Qed.

(** A run for another environment leaves a settled table settled. *)
Lemma save_preserves_settled (clock : nat -> time_t) (db db1 : Db)
    (feature : Feature) (environment_id : Z) (ids : list string)
    (environment : Environment) (ec cc : dict) (pv : pvalue_t) :
  pk_unique db ->
  _save_environment_split_test clock db feature environment_id ids = Ok db1 ->
  env_id environment <> environment_id ->
  settled (split_tests db) feature environment ec cc pv ->
  settled (split_tests db1) feature environment ec cc pv.
Proof.
  intros Hpk H Hne Hset k ev Hin.
  destruct (Hset k ev Hin) as [r [cv [Hcv [Hfind Hres]]]].
  exists r, cv. split; [exact Hcv |]. split; [| exact Hres].
  apply save_Ok in H.
  destruct H as [environment' [ec' [cc' [pv' [new [ex [He [_ [_ [Hrec ->]]]]]]]]]].
  cbn [with_split_tests split_tests].
  apply objects_get_Ok in He. destruct He as [_ [_ He]]. apply Z.eqb_eq in He.
  apply reconcile_loop_spec in Hrec.
  destruct Hrec as [new1 [ex1 [-> [-> [_ [_ [Hx _]]]]]]]. cbn [app].
  rewrite Forall_forall in Hx.
  unfold bulk_create. rewrite find_app.
  assert (find (row_matches feature environment k)
               (bulk_update ex1 (split_tests db))
          = find (row_matches feature environment k) (split_tests db)) as ->.
  { unfold bulk_update. apply find_map_fixed. intros row Hrow.
    destruct (find (fun o => st_id o =? st_id row) ex1) as [o |] eqn:F;
      [| split; reflexivity].
    split; [apply row_matches_key; reflexivity |]. intros Hp. exfalso.
    apply find_some in F. destruct F as [Ho Hid]. apply Z.eqb_eq in Hid.
    destruct (Hx o Ho) as [kv [cv0 [st [t [_ [_ [Hst ->]]]]]]].
    rewrite existing_for_find in Hst. apply find_some in Hst.
    destruct Hst as [HstIn Hm]. cbn [set_results st_id] in Hid.
    assert (st = row) as -> by (eapply NoDup_map_eq; eassumption).
    apply row_matches_true in Hm. apply row_matches_true in Hp.
    rewrite Hm in Hp. injection Hp as E _. congruence. }
  now rewrite Hfind.
Qed.

Lemma save_loop_preserves_settled (clocks : nat -> nat -> time_t)
    (feature : Feature) (environment : Environment) (ec cc : dict)
    (pv : pvalue_t) (items : defaultdict) :
  forall n db db',
    pk_unique db ->
    save_loop clocks feature items n db = Ok db' ->
    ~ In (env_id environment) (map fst items) ->
    settled (split_tests db) feature environment ec cc pv ->
    settled (split_tests db') feature environment ec cc pv.
Proof.
  induction items as [| [e ids] items IH]; intros n db db' Hpk H Hnot Hset.
  - simpl in H. now injection H as <-.
  - cbn [save_loop] in H. inv_bind H. rename a into db1.
    cbn [map fst In] in Hnot.
    apply (IH _ _ _ (proj2 (proj2 (save_keeps_rows _ _ _ _ _ _ Ha)) Hpk) H);
      [tauto |].
    apply (save_preserves_settled _ _ _ _ _ _ _ _ _ _ Hpk Ha); [| exact Hset].
    intros E. apply Hnot. now left.
Qed.

(** After the work item's loop the table is settled for every environment
    that was processed. *)
Lemma save_loop_settles (clocks : nat -> nat -> time_t) (feature : Feature)
    (items : defaultdict) :
  forall n db db',
    pk_unique db ->
    NoDup (map fst items) ->
    save_loop clocks feature items n db = Ok db' ->
    forall e ids, In (e, ids) items ->
      exists environment ec cc pv,
        objects_get (fun x => env_id x =? e) (environments db) = Ok environment
        /\ aggregate db feature e ids = Ok (ec, cc)
        /\ gather_split_test_metrics ec cc = Ok pv
        /\ settled (split_tests db') feature environment ec cc pv.
Proof.
  induction items as [| [e1 ids1] items IH]; intros n db db' Hpk Hn H e ids Hin;
    [destruct Hin |].
  cbn [save_loop] in H. inv_bind H. rename a into db1.
  cbn [map fst] in Hn. inversion Hn as [| ? ? Hhead Hn']; subst.
  pose proof (proj2 (proj2 (save_keeps_rows _ _ _ _ _ _ Ha)) Hpk) as Hpk1.
  pose proof (save_same_data _ _ _ _ _ _ Ha) as Hsame.
  destruct Hin as [E | Hin].
  - injection E as <- <-.
    pose proof Ha as Hrun. apply save_Ok in Hrun.
    destruct Hrun as [environment [ec [cc [pv [new [ex [He [Hagg [Hg [Hrec Hdb1]]]]]]]]]].
    exists environment, ec, cc, pv.
    split; [exact He |]. split; [exact Hagg |]. split; [exact Hg |].
    apply (save_loop_preserves_settled clocks feature environment ec cc pv
             items (S n) db1 db' Hpk1 H).
    + apply objects_get_Ok in He. destruct He as [_ [_ He]].
      apply Z.eqb_eq in He. now rewrite He.
    + subst db1. cbn [with_split_tests split_tests]. intros k ev Hk.
      pose proof (aggregate_keys _ _ _ _ _ _ Hagg) as [Hkec _].
      assert (NoDup (dict_keys ec)) as Hnd
        by (rewrite Hkec; apply init_counts_NoDup).
      exact (first_match_after_run db feature environment ec cc pv (clocks n)
               new ex Hpk Hnd Hrec k ev Hk).
  - destruct (IH _ _ _ Hpk1 Hn' H e ids Hin)
      as [environment [ec [cc [pv [He [Hagg [Hg Hset]]]]]]].
    exists environment, ec, cc, pv.
    rewrite (aggregate_same_data db db1 feature e ids Hsame) in Hagg.
    destruct Hsame as [_ [Henv _]]. rewrite Henv in He. auto.
Qed.

(** On a table settled for all its environments the loop goes through and
    changes no value. *)
Lemma save_loop_on_settled (clocks : nat -> nat -> time_t) (feature : Feature)
    (items : defaultdict) :
  forall n db,
    pk_unique db ->
    NoDup (map fst items) ->
    (forall e ids, In (e, ids) items ->
       exists environment ec cc pv,
         objects_get (fun x => env_id x =? e) (environments db) = Ok environment
         /\ aggregate db feature e ids = Ok (ec, cc)
         /\ gather_split_test_metrics ec cc = Ok pv
         /\ settled (split_tests db) feature environment ec cc pv) ->
    exists db2,
      save_loop clocks feature items n db = Ok db2
      /\ map row_values (split_tests db2) = map row_values (split_tests db).
Proof.
  induction items as [| [e1 ids1] items IH]; intros n db Hpk Hn Hall.
  - exists db. split; reflexivity.
  - cbn [map fst] in Hn. inversion Hn as [| ? ? Hhead Hn']; subst.
    destruct (Hall e1 ids1 (or_introl eq_refl))
      as [environment [ec [cc [pv [He [Hagg [Hg Hset]]]]]]].
    destruct (run_on_settled (clocks n) db feature e1 ids1 environment ec cc pv
                Hpk He Hagg Hg Hset) as [db1 [Hrun Hvals]].
    pose proof (proj2 (proj2 (save_keeps_rows _ _ _ _ _ _ Hrun)) Hpk) as Hpk1.
    pose proof (save_same_data _ _ _ _ _ _ Hrun) as Hsame.
    destruct (IH (S n) db1 Hpk1 Hn') as [db2 [Hloop Hvals2]].
    { intros e ids Hin.
      destruct (Hall e ids (or_intror Hin))
        as [environment' [ec' [cc' [pv' [He' [Hagg' [Hg' Hset']]]]]]].
      exists environment', ec', cc', pv'.
      rewrite (aggregate_same_data db db1 feature e ids Hsame).
      pose proof Hsame as [_ [Henv _]]. rewrite Henv.
      split; [exact He' |]. split; [exact Hagg' |]. split; [exact Hg' |].
      apply (save_preserves_settled _ _ _ _ _ _ _ _ _ _ Hpk Hrun); [| exact Hset'].
      apply objects_get_Ok in He'. destruct He' as [_ [_ He']].
      apply Z.eqb_eq in He'. rewrite He'. intros E. apply Hhead.
      apply in_map_iff. exists (e, ids). split; [exact E | exact Hin]. }
    exists db2. cbn [save_loop]. rewrite Hrun. cbn [bind].
    split; [exact Hloop | congruence].
Qed.

(** X17: when the work item has run once, running it again on the database
    it left goes through for every environment and leaves every result row
    with the same primary key, key columns, counts and p-value; whatever the
    clock of the second run shows, only time stamps can differ. *)
Theorem work_item_twice_same_values (settings : Settings)
    (clocks clocks' : nat -> nat -> time_t) (db db1 : Db) (feature_id' : Z) :
  pk_unique db ->
  update_features_split_tests settings clocks db feature_id' = Ok db1 ->
  exists db2,
    update_features_split_tests settings clocks' db1 feature_id' = Ok db2
    /\ map row_values (split_tests db2) = map row_values (split_tests db1).
Proof.
  intros Hpk H. unfold update_features_split_tests in *.
  inv_bind H. inv_bind H. rename a0 into feature.
  rewrite Ha. cbn [bind].
  destruct (save_loop_frame _ _ _ _ _ _ H) as [Hsame [Hpk1 _]].
  specialize (Hpk1 Hpk).
  pose proof Hsame as [Hfeat [Henv _]].
  rewrite Hfeat, Ha0. cbn [bind].
  rewrite (same_data_environment_identifiers db db1 feature Hsame).
  apply save_loop_on_settled.
  - exact Hpk1.
  - apply environment_identifiers_NoDup_keys.
  - intros e ids Hin.
    destruct (save_loop_settles _ _ _ _ _ _ Hpk
                (environment_identifiers_NoDup_keys db feature) H e ids Hin)
      as [environment [ec [cc [pv [He [Hagg [Hg Hset]]]]]]].
    exists environment, ec, cc, pv.
    rewrite (aggregate_same_data db db1 feature e ids Hsame), Henv. auto.
Qed.

End WorkItemTwice.

(** ** The edge-migration endpoint *)

Module ProjectViewsFacts.

Import ProjectViews.

(** X18: the endpoint answers 202 exactly when the Dynamo table is
    configured, the project is found, it has at most
    [MAX_SELF_MIGRATABLE_IDENTITIES] identities and the migrator can migrate
    it; it then triggers one migration, for that project.  In every other
    case it raises and triggers none. *)
Theorem migrate_to_edge_accepts_exactly (settings : ApiSettings)
    (get_object : api_exn + Project) (can_migrate : Z -> bool) (w : World) :
  (forall status,
      snd (migrate_to_edge settings get_object can_migrate w) = inr status <->
      status = HTTP_202_ACCEPTED
      /\ truthy (PROJECT_METADATA_TABLE_NAME_DYNAMO settings) = true
      /\ exists project,
           get_object = inr project
           /\ identity_count w project <= MAX_SELF_MIGRATABLE_IDENTITIES settings
           /\ can_migrate (project_id project) = true
           /\ fst (migrate_to_edge settings get_object can_migrate w)
              = trigger_migration w (project_id project))
  /\ (forall e,
        snd (migrate_to_edge settings get_object can_migrate w) = inl e ->
        fst (migrate_to_edge settings get_object can_migrate w) = w).
Proof.
  unfold migrate_to_edge.
  destruct (truthy (PROJECT_METADATA_TABLE_NAME_DYNAMO settings)) eqn:Ht;
    cbn [negb].
  2:{ split.
      - intros status. split; [discriminate |]. intros [_ [H _]]. discriminate.
      - reflexivity. }
  destruct get_object as [e0 | project].
  { split.
    - intros status. split; [discriminate |].
      intros [_ [_ [p [H _]]]]. discriminate.
    - reflexivity. }
  destruct (identity_count w project >? MAX_SELF_MIGRATABLE_IDENTITIES settings)
    eqn:Hc.
  { split.
    - intros status. split; [discriminate |].
      intros [_ [_ [p [H [Hle _]]]]]. injection H as <-.
      apply Z.gtb_lt in Hc. lia.
    - reflexivity. }
  destruct (can_migrate (project_id project)) eqn:Hm; cbn [negb].
  - split.
    + intros status. cbn [fst snd]. split.
      * intros H. injection H as <-. split; [reflexivity |]. split; [reflexivity |].
        exists project. repeat split; auto.
        destruct (Z.gtb_spec (identity_count w project)
                             (MAX_SELF_MIGRATABLE_IDENTITIES settings));
          [discriminate | lia].
      * intros [-> _]. reflexivity.
    + cbn [snd]. discriminate.
  - split.
    + intros status. split; [discriminate |].
      intros [_ [_ [p [H [_ [Hp _]]]]]]. injection H as <-. congruence.
    + reflexivity.
Qed.

End ProjectViewsFacts.

(** ** The further properties at work on the sample deployment *)

Lemma evaluation_count_is_arm_size_witness :
  aggregate Sample.db0 Sample.checkout 1 Sample.exposed
  = Ok ([(Some 10, 1); (None, 2)], [(Some 10, 1); (None, 1)])
  /\ exists environment feature_state,
       objects_get (fun e => env_id e =? 1) (environments Sample.db0)
       = Ok environment
       /\ objects_get (fun fs => fs_environment_id fs =? 1)
                      (feature_states_of Sample.db0 Sample.checkout)
          = Ok feature_state
       /\ forall k e, dict_get k [(Some 10, 1); (None, 2)] = Some e ->
            e = @tally Sample.collaborators environment feature_state
                       (fun _ => true) k
                       (evaluated_identities_qs Sample.db0 1 Sample.exposed).
Proof.
  split; [reflexivity |].
  exact (evaluation_count_is_arm_size Sample.db0 Sample.checkout 1 Sample.exposed
           [(Some 10, 1); (None, 2)] [(Some 10, 1); (None, 1)] eq_refl).
Defined.

Lemma conversion_counts_sum_witness :
  aggregate Sample.db0 Sample.checkout 1 Sample.exposed
  = Ok ([(Some 10, 1); (None, 2)], [(Some 10, 1); (None, 1)])
  /\ dict_sum [(Some 10, 1); (None, 1)]
     = Z.of_nat (List.length
                   (filter (has_conversion Sample.db0 1)
                           (evaluated_identities_qs Sample.db0 1 Sample.exposed))).
Proof.
  split; [reflexivity |].
  exact (conversion_counts_sum Sample.db0 Sample.checkout 1 Sample.exposed
           [(Some 10, 1); (None, 2)] [(Some 10, 1); (None, 1)] eq_refl).
Defined.

Lemma unconfigured_option_raises_KeyError_witness :
  In (Sample.ident 103 "v3" 1)
     (evaluated_identities_qs Sample.db0 1 ["v3"%string])
  /\ ~ configured_arm (multivariate_options_of Sample.db0 Sample.banner) (Some 10)
  /\ _save_environment_split_test Sample.clock Sample.db0 Sample.banner 1
                                  ["v3"%string] = Err KeyError.
Proof.
  assert (In (Sample.ident 103 "v3" 1)
             (evaluated_identities_qs Sample.db0 1 ["v3"%string])) as Hin
    by (now left).
  assert (~ configured_arm (multivariate_options_of Sample.db0 Sample.banner)
                           (Some 10)) as Hnot.
  { intros [H | [o [[] _]]]. discriminate H. }
  split; [exact Hin |]. split; [exact Hnot |].
  exact (proj2 (unconfigured_option_raises_KeyError Sample.db0 Sample.banner 1
                  Sample.clock ["v3"%string]
                  {| env_id := 1; use_identity_composite_key_for_hashing := false |}
                  {| fs_id := 3; fs_feature_id := 2; fs_environment_id := 1 |}
                  (Sample.ident 103 "v3" 1) eq_refl eq_refl Hin Hnot)).
Defined.

Lemma other_environment_conversion_not_counted_witness :
  ce_environment_id Cases.foreign_conversion <> 1
  /\ aggregate (record_conversion Sample.db0 Cases.foreign_conversion)
               Sample.checkout 1 Sample.exposed
     = aggregate Sample.db0 Sample.checkout 1 Sample.exposed.
Proof.
  assert (ce_environment_id Cases.foreign_conversion <> 1) as Hne
    by (cbn; discriminate).
  split; [exact Hne |].
  exact (other_environment_conversion_not_counted Sample.db0 Sample.checkout 1
           Sample.exposed Cases.foreign_conversion Hne).
Defined.

Lemma other_environment_identity_not_counted_witness :
  identity_environment_id Cases.foreign_identity <> 1
  /\ aggregate (record_identity Sample.db0 Cases.foreign_identity)
               Sample.checkout 1 Sample.exposed
     = aggregate Sample.db0 Sample.checkout 1 Sample.exposed.
Proof.
  assert (identity_environment_id Cases.foreign_identity <> 1) as Hne
    by (cbn; discriminate).
  split; [exact Hne |].
  exact (proj1 (other_environment_identity_not_counted Sample.db0 Sample.checkout 1
                  Sample.clock Sample.exposed Cases.foreign_identity Hne)).
Defined.

Lemma run_persists_aggregate_witness :
  pk_unique Sample.db0
  /\ _save_environment_split_test Sample.clock Sample.db0 Sample.checkout 1
                                  Sample.exposed = Ok Sample.db1
  /\ exists ec cc pv,
       aggregate Sample.db0 Sample.checkout 1 Sample.exposed = Ok (ec, cc)
       /\ gather_split_test_metrics ec cc = Ok pv
       /\ forall k ev, dict_get k ec = Some ev ->
            exists row cv,
              In row (split_tests Sample.db1)
              /\ row_key row = (feature_id Sample.checkout, 1, k)
              /\ dict_get k cc = Some cv
              /\ row_results row = (ev, cv, pv).
Proof.
  assert (pk_unique Sample.db0) as Hpk.
  { unfold pk_unique. cbn. repeat constructor; cbn; intuition discriminate. }
  split; [exact Hpk |]. split; [reflexivity |].
  exact (run_persists_aggregate Sample.clock Sample.db0 Sample.checkout 1
           Sample.exposed Sample.db1 Hpk eq_refl).
Defined.

Lemma run_leaves_other_rows_witness :
  pk_unique Sample.db0
  /\ _save_environment_split_test Sample.clock Sample.db0 Sample.checkout 1
                                  Sample.exposed = Ok Sample.db1
  /\ filter (out_of_scope Sample.checkout 1) (split_tests Sample.db1)
     = filter (out_of_scope Sample.checkout 1) (split_tests Sample.db0).
Proof.
  assert (pk_unique Sample.db0) as Hpk.
  { unfold pk_unique. cbn. repeat constructor; cbn; intuition discriminate. }
  split; [exact Hpk |]. split; [reflexivity |].
  exact (run_leaves_other_rows Sample.clock Sample.db0 Sample.checkout 1
           Sample.exposed Sample.db1 Hpk eq_refl).
Defined.

Lemma first_run_creates_one_row_per_arm_witness :
  (forall st, In st (split_tests Sample.db0) ->
              out_of_scope Sample.banner 1 st = true)
  /\ _save_environment_split_test Sample.clock Sample.db0 Sample.banner 1
                                  ["u4"%string] = Ok Cases.db_banner
  /\ exists rows,
       split_tests Cases.db_banner = split_tests Sample.db0 ++ rows
       /\ map row_key rows
          = map (fun k => (feature_id Sample.banner, 1, k))
                (dict_keys (init_counts
                              (multivariate_options_of Sample.db0 Sample.banner))).
Proof.
  assert (forall st, In st (split_tests Sample.db0) ->
                     out_of_scope Sample.banner 1 st = true) as Hnone.
  { intros st Hst. cbn in Hst. destruct Hst as [<- | [<- | []]]; reflexivity. }
  split; [exact Hnone |]. split; [reflexivity |].
  exact (first_run_creates_one_row_per_arm Sample.clock Sample.db0 Sample.banner 1
           ["u4"%string] Cases.db_banner Hnone eq_refl).
Defined.

Lemma stale_row_left_alone_witness :
  pk_unique Cases.db_stale
  /\ _save_environment_split_test Sample.clock Cases.db_stale Sample.checkout 1
                                  Sample.exposed = Ok Cases.db_stale_after
  /\ ~ configured_arm (multivariate_options_of Cases.db_stale Sample.checkout)
                      (multivariate_feature_option_id Cases.stale_row)
  /\ In Cases.stale_row (split_tests Cases.db_stale_after).
Proof.
  assert (pk_unique Cases.db_stale) as Hpk.
  { unfold pk_unique. cbn. repeat constructor; cbn; intuition discriminate. }
  assert (~ configured_arm (multivariate_options_of Cases.db_stale Sample.checkout)
                           (multivariate_feature_option_id Cases.stale_row))
    as Hstale.
  { intros [H | [o [Ho H]]]; [discriminate H |]. cbn in Ho.
    destruct Ho as [<- | []]. discriminate H. }
  split; [exact Hpk |]. split; [reflexivity |]. split; [exact Hstale |].
  apply (stale_row_left_alone Sample.clock Cases.db_stale Sample.checkout 1
           Sample.exposed Cases.db_stale_after Cases.stale_row Hpk eq_refl);
    [| exact Hstale].
  cbn. tauto.
Defined.

Lemma second_feature_state_raises_witness :
  _save_environment_split_test Sample.clock Cases.db_override Sample.checkout 1
                               Sample.exposed
  = Err MultipleObjectsReturned.
Proof.
  apply (second_feature_state_raises Sample.clock Cases.db_override Sample.checkout
           1 Sample.exposed
           {| env_id := 1; use_identity_composite_key_for_hashing := false |}
           {| fs_id := 1; fs_feature_id := 1; fs_environment_id := 1 |}
           {| fs_id := 4; fs_feature_id := 1; fs_environment_id := 1 |}).
  - reflexivity.
  - now left.
  - cbn. tauto.
  - discriminate.
  - reflexivity.
  - reflexivity.
  - reflexivity.
  - reflexivity.
Defined.

Lemma environment_identifiers_deduplicated_witness :
  In (1, Sample.exposed) (environment_identifiers Sample.db0 Sample.checkout)
  /\ NoDup Sample.exposed /\ Sample.exposed <> []
  /\ In 1 (map fs_environment_id (feature_states_of Sample.db0 Sample.checkout)).
Proof.
  assert (In (1, Sample.exposed) (environment_identifiers Sample.db0 Sample.checkout))
    as Hin by (now left).
  split; [exact Hin |].
  exact (proj2 (environment_identifiers_deduplicated Sample.db0 Sample.checkout)
           1 Sample.exposed Hin).
Defined.

Lemma environment_identifiers_are_the_logged_ones_witness :
  In (1, Sample.exposed) (environment_identifiers Sample.db0 Sample.checkout)
  /\ (In "ghost"%string Sample.exposed
      <-> logged Sample.db0 Sample.checkout 1 "ghost" = true)
  /\ ~ In 2 (map fst (environment_identifiers Sample.db0 Sample.checkout)).
Proof.
  assert (In (1, Sample.exposed) (environment_identifiers Sample.db0 Sample.checkout))
    as Hin by (now left).
  destruct (environment_identifiers_are_the_logged_ones Sample.db0 Sample.checkout)
    as [Hkeys Hids].
  split; [exact Hin |]. split; [exact (Hids 1 Sample.exposed Hin "ghost"%string) |].
  intros H2. apply Hkeys in H2. destruct H2 as [_ [u Hu]].
  vm_compute in Hu. discriminate Hu.
Defined.

Lemma redundant_evaluation_changes_nothing_witness :
  already_logged Sample.db0 Cases.relogged
  /\ (In 1 (map fst (environment_identifiers
                       (with_raw_log Sample.db0 (Cases.relogged ::
                                                 feature_evaluations_raw Sample.db0))
                       Sample.checkout))
      <-> In 1 (map fst (environment_identifiers Sample.db0 Sample.checkout))).
Proof.
  assert (already_logged Sample.db0 Cases.relogged) as Hdup.
  { exists (Sample.raw "checkout" 1 (Some "u1"%string)).
    split; [now left |]. repeat split. }
  split; [exact Hdup |].
  exact (proj1 (redundant_evaluation_changes_nothing Sample.db0 Sample.checkout
                  [] (feature_evaluations_raw Sample.db0) Cases.relogged
                  eq_refl (or_intror (or_intror Hdup))) 1).
Defined.

Lemma work_item_frame_witness :
  update_features_split_tests Sample.settings Sample.clocks Sample.db0 1
  = Ok Sample.db_checkout
  /\ same_data Sample.db0 Sample.db_checkout
  /\ (pk_unique Sample.db0 -> pk_unique Sample.db_checkout)
  /\ (one_row_per_arm Sample.db0 -> one_row_per_arm Sample.db_checkout)
  /\ exists rows,
       map row_ident (split_tests Sample.db_checkout)
       = map row_ident (split_tests Sample.db0) ++ rows.
Proof.
  split; [reflexivity |].
  exact (work_item_frame Sample.settings Sample.clocks Sample.db0
           Sample.db_checkout 1 eq_refl).
Defined.

Lemma no_identified_evaluation_no_change_witness :
  (forall r, In r (feature_evaluations_raw Cases.db_quiet) ->
             fer_feature_name r = feature_name Cases.quiet ->
             fer_identity_identifier r = None)
  /\ update_features_split_tests Sample.settings Sample.clocks Cases.db_quiet 3
     = Ok Cases.db_quiet.
Proof.
  assert (forall r, In r (feature_evaluations_raw Cases.db_quiet) ->
                    fer_feature_name r = feature_name Cases.quiet ->
                    fer_identity_identifier r = None) as Hraw.
  { intros r Hr Hname. cbn in Hr.
    destruct Hr as [<- | [<- | [<- | [<- | [<- | [<- | [<- | [<- | [<- | []]]]]]]]]];
      try reflexivity; cbn in Hname; discriminate. }
  split; [exact Hraw |].
  exact (no_identified_evaluation_no_change Sample.settings Sample.clocks
           Cases.db_quiet Cases.quiet eq_refl eq_refl Hraw).
Defined.

Lemma processed_environment_has_feature_state_witness :
  In (1, Sample.exposed) (environment_identifiers Sample.db0 Sample.checkout)
  /\ ((exists fs, objects_get (fun fs => fs_environment_id fs =? 1)
                              (feature_states_of Sample.db0 Sample.checkout)
                  = Ok fs)
      \/ objects_get (fun fs => fs_environment_id fs =? 1)
                     (feature_states_of Sample.db0 Sample.checkout)
         = Err MultipleObjectsReturned).
Proof.
  assert (In (1, Sample.exposed) (environment_identifiers Sample.db0 Sample.checkout))
    as Hin by (now left).
  split; [exact Hin |].
  exact (processed_environment_has_feature_state Sample.db0 Sample.checkout 1
           Sample.exposed Hin).
Defined.

Lemma fan_out_dispatches_multivariate_features_witness :
  USE_POSTGRES_FOR_ANALYTICS Sample.settings = true
  /\ exists dispatched,
       _update_split_tests Sample.settings Sample.db0 = Ok dispatched
       /\ List.length dispatched
          = List.length (filter (fun f => FeatureType_eqb (feature_type f) MULTIVARIATE)
                                (features Sample.db0))
       /\ forall id, In id dispatched
                     <-> exists f, In f (features Sample.db0) /\ feature_id f = id
                                   /\ feature_type f = MULTIVARIATE.
Proof.
  split; [reflexivity |].
  exact (proj1 (fan_out_dispatches_multivariate_features Sample.settings
                  Sample.clocks Sample.db0) eq_refl).
Defined.

Lemma work_item_twice_same_values_witness :
  pk_unique Sample.db0
  /\ update_features_split_tests Sample.settings Sample.clocks Sample.db0 1
     = Ok Sample.db_checkout
  /\ exists db2,
       update_features_split_tests Sample.settings Sample.clocks
                                   Sample.db_checkout 1 = Ok db2
       /\ map row_values (split_tests db2)
          = map row_values (split_tests Sample.db_checkout).
Proof.
  assert (pk_unique Sample.db0) as Hpk.
  { unfold pk_unique. cbn. repeat constructor; cbn; intuition discriminate. }
  split; [exact Hpk |]. split; [reflexivity |].
  exact (work_item_twice_same_values Sample.settings Sample.clocks Sample.clocks
           Sample.db0 Sample.db_checkout 1 Hpk eq_refl).
Defined.

Lemma migrate_to_edge_accepts_exactly_witness :
  snd (ProjectViews.migrate_to_edge ProjectViews.sample_settings
         (inr ProjectViews.sample_project) (fun _ => true)
         ProjectViews.sample_world)
  = inr ProjectViews.HTTP_202_ACCEPTED
  /\ ProjectViews.identity_count ProjectViews.sample_world
                                 ProjectViews.sample_project
     <= ProjectViews.MAX_SELF_MIGRATABLE_IDENTITIES ProjectViews.sample_settings
  /\ fst (ProjectViews.migrate_to_edge ProjectViews.sample_settings
            (inr ProjectViews.sample_project) (fun _ => true)
            ProjectViews.sample_world)
     = ProjectViews.trigger_migration ProjectViews.sample_world 7.
Proof.
  assert (snd (ProjectViews.migrate_to_edge ProjectViews.sample_settings
                 (inr ProjectViews.sample_project) (fun _ => true)
                 ProjectViews.sample_world)
          = inr ProjectViews.HTTP_202_ACCEPTED) as Hok by reflexivity.
  split; [exact Hok |].
  destruct (proj1 (proj1 (ProjectViewsFacts.migrate_to_edge_accepts_exactly
                            ProjectViews.sample_settings
                            (inr ProjectViews.sample_project) (fun _ => true)
                            ProjectViews.sample_world)
                     ProjectViews.HTTP_202_ACCEPTED) Hok)
    as [_ [_ [p [Hp [Hle [_ Hw]]]]]].
  injection Hp as <-. split; [exact Hle | exact Hw].
Defined.
